(** * int_stack: a LIFO integer buffer exposed as a character device

    Shallow embedding of the two kernel modules of the repository:

    - the plain driver (lab 4), whose entry points are always reachable;
    - the USB-gated driver (lab 5), whose entry points first test
      [usb_key_present] and otherwise run the very same bodies;

    and of the command-line client of each, run against its driver.

    The C globals become an explicit state record that every function takes
    and returns.  The kernel services the driver calls but does not define
    (the allocator, the user-memory copies, misc-device registration) appear
    as inputs of the call that uses them.  An access through a NULL pointer
    or outside an allocated array is undefined in C; the embedding makes it
    a distinguished outcome [Oops], and the theorems show that it is never
    reached from a well-formed buffer. *)

From Stdlib Require Import ZArith Lia String.
From stdpp Require Import base list.

Open Scope Z_scope.

(** ** Machine integers *)

(** [size_t] on the 64-bit kernels the module targets ([8UL] in the source). *)
Definition SIZE_MAX : Z := 2 ^ 64 - 1.

(** Unsigned arithmetic on [size_t] wraps modulo [2^64]. *)
Definition wrap_size (z : Z) : Z := z mod 2 ^ 64.

Definition INT_MAX : Z := 2 ^ 31 - 1.
Definition INT_MIN : Z := - 2 ^ 31.

(** Conversion to [int] keeps the low 32 bits, read as two's complement. *)
Definition to_int (z : Z) : Z := (z + 2 ^ 31) mod 2 ^ 32 - 2 ^ 31.

(** No object is larger than [PTRDIFF_MAX] bytes. *)
Definition PTRDIFF_MAX : Z := 2 ^ 63 - 1.

Definition sizeof_int : Z := 4.

(** ** Error numbers (values of the kernel's errno-base.h) *)

Definition EFAULT : Z := 14.
Definition ENOMEM : Z := 12.
Definition ENODEV : Z := 19.
Definition EINVAL : Z := 22.
Definition ENOTTY : Z := 25.
Definition ENOSPC : Z := 28.

(** ** ioctl command numbers

    [_IO], [_IOR] and [_IOW] are the encodings of asm-generic/ioctl.h:
    direction in bits 30-31, argument size in bits 16-29, magic in bits
    8-15, number in bits 0-7. *)

Definition _IOC (dir type nr size : Z) : Z :=
  Z.lor (Z.lor (Z.shiftl dir 30) (Z.shiftl size 16))
        (Z.lor (Z.shiftl type 8) nr).
Definition _IO (type nr : Z) : Z := _IOC 0 type nr 0.
Definition _IOW (type nr size : Z) : Z := _IOC 1 type nr size.
Definition _IOR (type nr size : Z) : Z := _IOC 2 type nr size.

(** ['s'] *)
Definition INT_BUFFER_MAGIC : Z := 115.
Definition INT_STACK_SET_MAX_SIZE : Z := _IOW INT_BUFFER_MAGIC 1 sizeof_int.
Definition CMD_GET_CAPACITY : Z := _IOR INT_BUFFER_MAGIC 2 sizeof_int.
Definition CMD_GET_USAGE : Z := _IOR INT_BUFFER_MAGIC 3 sizeof_int.
Definition CMD_CLEAR_BUFFER : Z := _IO INT_BUFFER_MAGIC 4.

(** ** Outcomes *)

(** A call either returns or runs into undefined behaviour. *)
Inductive exec (A : Type) : Type :=
  | Done (a : A)
  | Oops.
Arguments Done {A} a.
Arguments Oops {A}.

Definition bind {A B : Type} (m : exec A) (k : A -> exec B) : exec B :=
  match m with
  | Done a => k a
  | Oops => Oops
  end.

Notation "'perform' x <- m ; k" := (bind m (fun x => k))
  (at level 10, x name, m at level 100, k at level 200).

(** ** Kernel services *)

(** An [int] array in kernel memory; [None] is the NULL pointer. *)
Definition int_ptr : Type := option (list Z).

(** The allocator's decision for a request of [size] bytes: grant or refuse. *)
Definition allocator : Type := Z -> bool.

(** [kzalloc(size, GFP_KERNEL)]: NULL when refused, else zeroed memory, seen
    as [size / sizeof(int)] slots.  A request of 0 bytes yields the non-NULL
    [ZERO_SIZE_PTR], which has no slot. *)
Definition kzalloc (kz : allocator) (size : Z) : int_ptr :=
  if size =? 0 then Some []
  else if kz size then Some (replicate (Z.to_nat (size / sizeof_int)) 0)
  else None.

(** [memcpy(dst, src, n)] on [int] arrays: the first [n / sizeof(int)] slots
    of [dst] are overwritten with those of [src]; both must have them. *)
Definition memcpy (dst src : list Z) (n : Z) : exec (list Z) :=
  let k := Z.to_nat (n / sizeof_int) in
  if (k <=? length src)%nat && (k <=? length dst)%nat
  then Done (take k src ++ drop k dst)
  else Oops.

(** [p[i]] as an rvalue. *)
Definition load (p : int_ptr) (i : Z) : exec Z :=
  match p with
  | None => Oops
  | Some a =>
      match a !! Z.to_nat i with
      | Some v => Done v
      | None => Oops
      end
  end.

(** [p[i] = v]. *)
Definition store (p : int_ptr) (i : Z) (v : Z) : exec int_ptr :=
  match p with
  | None => Oops
  | Some a =>
      if (Z.to_nat i <? length a)%nat
      then Done (Some (<[Z.to_nat i := v]> a))
      else Oops
  end.

(** The user-space [int] behind a [__user] pointer: what [copy_from_user]
    would fetch ([None] when the copy faults), and whether [copy_to_user]
    goes through. *)
Record user_int : Type := UserInt {
  u_fetch : option Z;
  u_writable : bool
}.

(** [atomic_inc] on an [atomic_t]: a 32-bit counter that wraps. *)
Definition atomic_inc (v : Z) : Z := to_int (v + 1).

(** ** The device structure *)

Record buffer_stats : Type := BufferStats {
  push_count : Z;
  pop_count : Z;
  overflow_count : Z;
  underflow_count : Z
}.

(** [op_lock] is left out: the embedding runs one call at a time, which is
    what the mutex enforces. *)
Record integer_buffer : Type := IntegerBuffer {
  elements : int_ptr;
  capacity : Z;
  position : Z;
  stats : buffer_stats
}.

Definition set_position (b : integer_buffer) (p : Z) : integer_buffer :=
  {| elements := elements b; capacity := capacity b; position := p;
     stats := stats b |}.

Definition set_elements (b : integer_buffer) (e : int_ptr) : integer_buffer :=
  {| elements := e; capacity := capacity b; position := position b;
     stats := stats b |}.

Definition set_stats (b : integer_buffer) (s : buffer_stats) : integer_buffer :=
  {| elements := elements b; capacity := capacity b; position := position b;
     stats := s |}.

Definition inc_push (s : buffer_stats) : buffer_stats :=
  {| push_count := atomic_inc (push_count s); pop_count := pop_count s;
     overflow_count := overflow_count s; underflow_count := underflow_count s |}.

Definition inc_pop (s : buffer_stats) : buffer_stats :=
  {| push_count := push_count s; pop_count := atomic_inc (pop_count s);
     overflow_count := overflow_count s; underflow_count := underflow_count s |}.

Definition inc_overflow (s : buffer_stats) : buffer_stats :=
  {| push_count := push_count s; pop_count := pop_count s;
     overflow_count := atomic_inc (overflow_count s);
     underflow_count := underflow_count s |}.

Definition inc_underflow (s : buffer_stats) : buffer_stats :=
  {| push_count := push_count s; pop_count := pop_count s;
     overflow_count := overflow_count s;
     underflow_count := atomic_inc (underflow_count s) |}.

(** [init_stats] *)
Definition init_stats : buffer_stats :=
  {| push_count := 0; pop_count := 0; overflow_count := 0;
     underflow_count := 0 |}.

(** ** The plain driver *)

Module Lab4.

(** [resize_buffer]: returns the status and the buffer after the call. *)
Definition resize_buffer (kz : allocator) (new_capacity : Z)
    (b : integer_buffer) : exec (Z * integer_buffer) :=
  if new_capacity =? 0 then
    Done (0, {| elements := None; capacity := 0; position := 0;
                stats := stats b |})
  else
    match kzalloc kz (wrap_size (sizeof_int * new_capacity)) with
    | None => Done (- ENOMEM, b)
    | Some new_array =>
        match elements b with
        | Some old =>
            if 0 <? position b then
              let copy_size := Z.min (position b) new_capacity in
              perform filled <- memcpy new_array old (wrap_size (sizeof_int * copy_size));
              Done (0, {| elements := Some filled; capacity := new_capacity;
                          position := copy_size; stats := stats b |})
            else
              Done (0, {| elements := Some new_array; capacity := new_capacity;
                          position := 0; stats := stats b |})
        | None =>
            Done (0, {| elements := Some new_array; capacity := new_capacity;
                        position := 0; stats := stats b |})
        end
    end.

(** [buffer_ioctl]: returns the status, the [int] copied out to the caller
    (if any) and the buffer after the call. *)
Definition buffer_ioctl (kz : allocator) (cmd : Z) (arg : user_int)
    (b : integer_buffer) : exec (Z * option Z * integer_buffer) :=
  if cmd =? INT_STACK_SET_MAX_SIZE then
    match u_fetch arg with
    | None => Done (- EFAULT, None, b)
    | Some value =>
        if value <? 0 then Done (- EINVAL, None, b)
        else
          perform r <- resize_buffer kz value b;
          Done (fst r, None, snd r)
    end
  else if cmd =? CMD_GET_CAPACITY then
    let value := to_int (capacity b) in
    if u_writable arg then Done (0, Some value, b)
    else Done (- EFAULT, None, b)
  else if cmd =? CMD_GET_USAGE then
    let value := to_int (position b) in
    if u_writable arg then Done (0, Some value, b)
    else Done (- EFAULT, None, b)
  else if cmd =? CMD_CLEAR_BUFFER then
    Done (0, None, set_position b 0)
  else
    Done (- ENOTTY, None, b).

(** [buffer_read]: returns the status, the [int] copied out to the caller
    (if any) and the buffer after the call. *)
Definition buffer_read (user_buffer : user_int) (count : Z)
    (b : integer_buffer) : exec (Z * option Z * integer_buffer) :=
  if count <? sizeof_int then Done (- EINVAL, None, b)
  else if position b =? 0 then
    Done (0, None, set_stats b (inc_underflow (stats b)))
  else
    let b1 := set_position b (wrap_size (position b - 1)) in
    perform value <- load (elements b1) (position b1);
    if u_writable user_buffer then
      Done (sizeof_int, Some value, set_stats b1 (inc_pop (stats b1)))
    else
      Done (- EFAULT, None, set_position b1 (wrap_size (position b1 + 1))).

(** The tail of [buffer_write], once room has been made. *)
Definition push_value (value : Z) (b : integer_buffer)
    : exec (Z * integer_buffer) :=
  perform e <- store (elements b) (position b) value;
  let b1 := set_position (set_elements b e) (wrap_size (position b + 1)) in
  Done (sizeof_int, set_stats b1 (inc_push (stats b1))).

(** [buffer_write]; [enable_auto_resize] is the module parameter. *)
Definition buffer_write (enable_auto_resize : Z) (kz : allocator)
    (user_buffer : user_int) (count : Z) (b : integer_buffer)
    : exec (Z * integer_buffer) :=
  if negb (count =? sizeof_int) then Done (- EINVAL, b)
  else
    match u_fetch user_buffer with
    | None => Done (- EFAULT, b)
    | Some value =>
        if capacity b <=? position b then
          if negb (enable_auto_resize =? 0) then
            let new_capacity := Z.max (wrap_size (capacity b * 2)) 8 in
            perform r <- resize_buffer kz new_capacity b;
            if fst r <? 0 then
              Done (- ENOSPC, set_stats (snd r) (inc_overflow (stats (snd r))))
            else push_value value (snd r)
          else
            Done (- ENOSPC, set_stats b (inc_overflow (stats b)))
        else push_value value b
    end.

(** [integer_buffer_init].  [dev_granted] tells whether the allocation of the
    device structure itself succeeds and [misc_register] is the status of
    the registration.  Returns the status and, when the module loads, the
    device. *)
Definition integer_buffer_init (default_capacity : Z) (dev_granted : bool)
    (misc_register : Z) (kz : allocator) : exec (Z * option integer_buffer) :=
  if negb dev_granted then Done (- ENOMEM, None)
  else
    let b := {| elements := None; capacity := 0; position := 0;
                stats := init_stats |} in
    if misc_register <? 0 then Done (misc_register, None)
    else if 0 <? default_capacity then
      perform r <- resize_buffer kz default_capacity b;
      if fst r <? 0 then Done (fst r, None)
      else Done (0, Some (snd r))
    else Done (0, Some b).

(** A call from user space through [buffer_fops]. *)
Inductive request : Type :=
  | Write (user_buffer : user_int) (count : Z)
  | Read (user_buffer : user_int) (count : Z)
  | Ioctl (cmd : Z) (arg : user_int).

(** One call: status, [int] handed back to the caller, buffer afterwards. *)
Definition call (enable_auto_resize : Z) (kz : allocator) (r : request)
    (b : integer_buffer) : exec (Z * option Z * integer_buffer) :=
  match r with
  | Write user_buffer count =>
      perform w <- buffer_write enable_auto_resize kz user_buffer count b;
      Done (fst w, None, snd w)
  | Read user_buffer count => buffer_read user_buffer count b
  | Ioctl cmd arg => buffer_ioctl kz cmd arg b
  end.

(** A sequence of calls, each with the allocator's behaviour at that time;
    collects what every call returned. *)
Fixpoint run (enable_auto_resize : Z) (rs : list (allocator * request))
    (b : integer_buffer) : exec (list (Z * option Z) * integer_buffer) :=
  match rs with
  | [] => Done ([], b)
  | (kz, r) :: rs' =>
      perform x <- call enable_auto_resize kz r b;
      perform y <- run enable_auto_resize rs' (snd x);
      Done (fst x :: fst y, snd y)
  end.

End Lab4.

(** ** The USB-gated driver *)

Module Lab5.

(** The globals of the module: the two flags and the device structure. *)
Record device : Type := Device {
  usb_key_present : Z;
  device_registered : Z;
  dev_buffer : integer_buffer
}.

Definition set_dev_buffer (d : device) (b : integer_buffer) : device :=
  {| usb_key_present := usb_key_present d;
     device_registered := device_registered d; dev_buffer := b |}.

Definition set_usb_key_present (d : device) (v : Z) : device :=
  {| usb_key_present := v; device_registered := device_registered d;
     dev_buffer := dev_buffer d |}.

Definition set_device_registered (d : device) (v : Z) : device :=
  {| usb_key_present := usb_key_present d; device_registered := v;
     dev_buffer := dev_buffer d |}.

(** [buffer_open] *)
Definition buffer_open (d : device) : Z :=
  if usb_key_present d =? 0 then - ENODEV else 0.

(** [resize_buffer] is the plain driver's, word for word. *)
Definition resize_buffer := Lab4.resize_buffer.

(** [buffer_ioctl]: the presence test, then the plain driver's body. *)
Definition buffer_ioctl (kz : allocator) (cmd : Z) (arg : user_int)
    (d : device) : exec (Z * option Z * device) :=
  if usb_key_present d =? 0 then Done (- ENODEV, None, d)
  else
    perform r <- Lab4.buffer_ioctl kz cmd arg (dev_buffer d);
    Done (fst r, set_dev_buffer d (snd r)).

(** [buffer_read]: the presence test, then the plain driver's body. *)
Definition buffer_read (user_buffer : user_int) (count : Z) (d : device)
    : exec (Z * option Z * device) :=
  if usb_key_present d =? 0 then Done (- ENODEV, None, d)
  else
    perform r <- Lab4.buffer_read user_buffer count (dev_buffer d);
    Done (fst r, set_dev_buffer d (snd r)).

(** [buffer_write]: the presence test, then the plain driver's body. *)
Definition buffer_write (enable_auto_resize : Z) (kz : allocator)
    (user_buffer : user_int) (count : Z) (d : device) : exec (Z * device) :=
  if usb_key_present d =? 0 then Done (- ENODEV, d)
  else
    perform r <- Lab4.buffer_write enable_auto_resize kz user_buffer count
                   (dev_buffer d);
    Done (fst r, set_dev_buffer d (snd r)).

(** [initialize_buffer] *)
Definition initialize_buffer (default_capacity : Z) (dev_granted : bool)
    (kz : allocator) : exec (Z * option integer_buffer) :=
  if negb dev_granted then Done (- ENOMEM, None)
  else
    let b := {| elements := None; capacity := 0; position := 0;
                stats := init_stats |} in
    if 0 <? default_capacity then
      perform r <- resize_buffer kz default_capacity b;
      if fst r <? 0 then Done (fst r, None)
      else Done (0, Some (snd r))
    else Done (0, Some b).

(** [register_device]; [misc_register] is the status of the registration. *)
Definition register_device (misc_register : Z) (d : device) : Z * device :=
  if negb (device_registered d =? 0) then (0, d)
  else if misc_register <? 0 then (misc_register, d)
  else (0, set_device_registered d 1).

(** [unregister_device] *)
Definition unregister_device (d : device) : device :=
  if negb (device_registered d =? 0) then set_device_registered d 0
  else d.

(** [pen_probe] for a device with the given identifiers; [usb_vid] and
    [usb_pid] are the module parameters. *)
Definition pen_probe (usb_vid usb_pid : Z) (idVendor idProduct : Z)
    (misc_register : Z) (d : device) : Z * device :=
  if negb (idVendor =? usb_vid) || negb (idProduct =? usb_pid)
  then (- ENODEV, d)
  else
    let d1 := set_usb_key_present d 1 in
    let r := register_device misc_register d1 in
    if fst r <? 0 then (fst r, snd r) else (0, snd r).

(** [pen_disconnect] *)
Definition pen_disconnect (usb_vid usb_pid : Z) (idVendor idProduct : Z)
    (d : device) : device :=
  if negb (idVendor =? usb_vid) || negb (idProduct =? usb_pid) then d
  else unregister_device (set_usb_key_present d 0).

(** [integer_buffer_init]: both flags start at [ATOMIC_INIT(0)];
    [usb_register] is the status of the driver registration. *)
Definition integer_buffer_init (default_capacity : Z) (dev_granted : bool)
    (kz : allocator) (usb_register : Z) : exec (Z * option device) :=
  perform r <- initialize_buffer default_capacity dev_granted kz;
  match snd r with
  | None => Done (fst r, None)
  | Some b =>
      if usb_register <? 0 then Done (usb_register, None)
      else Done (0, Some {| usb_key_present := 0; device_registered := 0;
                            dev_buffer := b |})
  end.

End Lab5.

(** ** Well-formed buffers *)

Definition is_int (v : Z) : Prop := INT_MIN <= v <= INT_MAX.

(** The allocator never grants more than an object can hold. *)
Definition granted_fits (kz : allocator) : Prop :=
  forall n, kz n = true -> n <= PTRDIFF_MAX.

(** The invariant of the device structure: [position] is within [capacity],
    and [elements] is NULL with no capacity or an array of exactly
    [capacity] slots. *)
Definition wf (b : integer_buffer) : Prop :=
  0 <= position b <= capacity b /\
  sizeof_int * capacity b <= PTRDIFF_MAX /\
  match elements b with
  | None => capacity b = 0
  | Some a => Z.of_nat (length a) = capacity b
  end.

(** The occupied slots, bottom of the stack first. *)
Definition contents (b : integer_buffer) : list Z :=
  match elements b with
  | None => []
  | Some a => take (Z.to_nat (position b)) a
  end.

(** The part of the device structure the store consists of; the statistics
    are the rest. *)
Definition same_store (b b' : integer_buffer) : Prop :=
  elements b' = elements b /\ capacity b' = capacity b /\
  position b' = position b.

(** What a caller's pointer may refer to: an [int]. *)
Definition user_int_ok (u : user_int) : Prop :=
  match u_fetch u with
  | Some v => is_int v
  | None => True
  end.

Definition request_ok (r : Lab4.request) : Prop :=
  match r with
  | Lab4.Write u _ => user_int_ok u
  | Lab4.Read u _ => user_int_ok u
  | Lab4.Ioctl _ u => user_int_ok u
  end.

(** Pushing [v]: a write of exactly one [int]. *)
Definition push (v : Z) : Lab4.request :=
  Lab4.Write {| u_fetch := Some v; u_writable := false |} sizeof_int.

(** Popping: a read into a writable [int]. *)
Definition pop : Lab4.request :=
  Lab4.Read {| u_fetch := None; u_writable := true |} sizeof_int.

Definition set_capacity (k : Z) : Lab4.request :=
  Lab4.Ioctl INT_STACK_SET_MAX_SIZE {| u_fetch := Some k; u_writable := false |}.

Definition get_capacity : Lab4.request :=
  Lab4.Ioctl CMD_GET_CAPACITY {| u_fetch := None; u_writable := true |}.

Definition get_usage : Lab4.request :=
  Lab4.Ioctl CMD_GET_USAGE {| u_fetch := None; u_writable := true |}.

Definition clear : Lab4.request :=
  Lab4.Ioctl CMD_CLEAR_BUFFER {| u_fetch := None; u_writable := false |}.

(** An allocator that grants every request up to a page. *)
Definition page_allocator : allocator := fun n => n <=? 4096.

(** An allocator that refuses everything. *)
Definition no_memory : allocator := fun _ => false.

(** A buffer of capacity 4 holding 10, 20, 30. *)
Definition sample_buffer : integer_buffer :=
  {| elements := Some [10; 20; 30; 0]; capacity := 4; position := 3;
     stats := init_stats |}.

(** A buffer of capacity 4 holding nothing. *)
Definition empty_buffer : integer_buffer :=
  {| elements := Some [0; 0; 0; 0]; capacity := 4; position := 0;
     stats := init_stats |}.

(** A buffer of capacity 2 holding 1, 2. *)
Definition full_buffer : integer_buffer :=
  {| elements := Some [1; 2]; capacity := 2; position := 2;
     stats := init_stats |}.

(** The gated module with the key unplugged and [sample_buffer] in memory. *)
Definition unplugged : Lab5.device :=
  {| Lab5.usb_key_present := 0; Lab5.device_registered := 0;
     Lab5.dev_buffer := sample_buffer |}.

(** A caller's [int] holding [v], readable and writable. *)
Definition user_cell (v : Z) : user_int :=
  {| u_fetch := Some v; u_writable := true |}.

(** A pointer the kernel can neither read nor write through. *)
Definition bad_pointer : user_int :=
  {| u_fetch := None; u_writable := false |}.

(** ** The buffers the calls leave behind *)

(** The buffer a granted resize to [k] leaves behind. *)
Definition resized (k : Z) (b : integer_buffer) : integer_buffer :=
  {| elements :=
       Some (take (Z.to_nat k) (contents b) ++
             replicate (Z.to_nat k - length (contents b)) 0);
     capacity := k;
     position := Z.min (position b) k;
     stats := stats b |}.

(** The buffer after [v] has been stored on top. *)
Definition pushed (v : Z) (b : integer_buffer) : integer_buffer :=
  {| elements :=
       match elements b with
       | Some a => Some (<[Z.to_nat (position b) := v]> a)
       | None => None
       end;
     capacity := capacity b;
     position := position b + 1;
     stats := inc_push (stats b) |}.

(** The buffer after a rejected push. *)
Definition rejected (b : integer_buffer) : integer_buffer :=
  set_stats b (inc_overflow (stats b)).

(** The capacity automatic growth asks for. *)
Definition grown_capacity (b : integer_buffer) : Z := Z.max (capacity b * 2) 8.

(** The buffer after the top has been handed out. *)
Definition popped (b : integer_buffer) : integer_buffer :=
  {| elements := elements b; capacity := capacity b;
     position := position b - 1; stats := inc_pop (stats b) |}.

(** The buffer after a read that found nothing. *)
Definition starved (b : integer_buffer) : integer_buffer :=
  set_stats b (inc_underflow (stats b)).

(** What holds of a call's outcome: it keeps the invariant, and a negative
    status comes with an untouched store. *)
Definition sound_outcome (b : integer_buffer) (st : Z) (b' : integer_buffer)
    : Prop :=
  wf b' /\ (st < 0 -> same_store b b').

(** ** The stack behind the device *)

(** Two buffers that hold the same stack: same capacity, same occupied
    values.  Slots above the top and the statistics may differ. *)
Definition same_stack (b1 b2 : integer_buffer) : Prop :=
  capacity b1 = capacity b2 /\ contents b1 = contents b2.

(** What a call returns and leaves behind, computed from the capacity and
    the occupied values alone: status and [int] handed back, then capacity
    and values afterwards. *)
Definition stack_call (ear : Z) (kz : allocator) (r : Lab4.request)
    (cap : Z) (stk : list Z) : (Z * option Z) * (Z * list Z) :=
  match r with
  | Lab4.Write u count =>
      if negb (count =? sizeof_int) then ((- EINVAL, None), (cap, stk))
      else
        match u_fetch u with
        | None => ((- EFAULT, None), (cap, stk))
        | Some v =>
            if Z.of_nat (length stk) <? cap
            then ((sizeof_int, None), (cap, stk ++ [v]))
            else if negb (ear =? 0) && kz (sizeof_int * Z.max (cap * 2) 8)
            then ((sizeof_int, None), (Z.max (cap * 2) 8, stk ++ [v]))
            else ((- ENOSPC, None), (cap, stk))
        end
  | Lab4.Read u count =>
      if count <? sizeof_int then ((- EINVAL, None), (cap, stk))
      else
        match last stk with
        | None => ((0, None), (cap, stk))
        | Some v =>
            if u_writable u
            then ((sizeof_int, Some v), (cap, removelast stk))
            else ((- EFAULT, None), (cap, stk))
        end
  | Lab4.Ioctl cmd u =>
      if cmd =? INT_STACK_SET_MAX_SIZE then
        match u_fetch u with
        | None => ((- EFAULT, None), (cap, stk))
        | Some k =>
            if k <? 0 then ((- EINVAL, None), (cap, stk))
            else if k =? 0 then ((0, None), (0, []))
            else if kz (sizeof_int * k)
            then ((0, None), (k, take (Z.to_nat k) stk))
            else ((- ENOMEM, None), (cap, stk))
        end
      else if cmd =? CMD_GET_CAPACITY then
        if u_writable u then ((0, Some (to_int cap)), (cap, stk))
        else ((- EFAULT, None), (cap, stk))
      else if cmd =? CMD_GET_USAGE then
        if u_writable u
        then ((0, Some (to_int (Z.of_nat (length stk)))), (cap, stk))
        else ((- EFAULT, None), (cap, stk))
      else if cmd =? CMD_CLEAR_BUFFER then ((0, None), (cap, []))
      else ((- ENOTTY, None), (cap, stk))
  end.

(** The statistics after a call that returned [st]. *)
Definition stats_call (r : Lab4.request) (st : Z) (s : buffer_stats)
    : buffer_stats :=
  match r with
  | Lab4.Write _ _ =>
      if st =? sizeof_int then inc_push s
      else if st =? - ENOSPC then inc_overflow s
      else s
  | Lab4.Read _ _ =>
      if st =? sizeof_int then inc_pop s
      else if st =? 0 then inc_underflow s
      else s
  | Lab4.Ioctl _ _ => s
  end.

(** An allocator that grants exactly the requests up to [limit] bytes. *)
Definition grants_up_to (limit : Z) : allocator := fun n => n <=? limit.

(** Error numbers the client tests for and the driver never produces. *)
Definition EBUSY : Z := 16.
Definition ERANGE : Z := 34.

(** ** What reaches the gated module *)

Module Hotplug.

(** The USB core probing or disconnecting a device with the given
    identifiers, and user space opening the device or calling into it. *)
Inductive event : Type :=
  | Plug (idVendor idProduct : Z) (misc_register : Z)
  | Unplug (idVendor idProduct : Z)
  | Open
  | Call (kz : allocator) (r : Lab4.request).

(** A call through the gated [buffer_fops]. *)
Definition call (enable_auto_resize : Z) (kz : allocator) (r : Lab4.request)
    (d : Lab5.device) : exec (Z * option Z * Lab5.device) :=
  match r with
  | Lab4.Write user_buffer count =>
      perform w <- Lab5.buffer_write enable_auto_resize kz user_buffer count d;
      Done (fst w, None, snd w)
  | Lab4.Read user_buffer count => Lab5.buffer_read user_buffer count d
  | Lab4.Ioctl cmd arg => Lab5.buffer_ioctl kz cmd arg d
  end.

(** One event: the status the handler returns (0 for [pen_disconnect],
    which returns nothing), the [int] handed back, the module afterwards. *)
Definition step (usb_vid usb_pid enable_auto_resize : Z) (e : event)
    (d : Lab5.device) : exec (Z * option Z * Lab5.device) :=
  match e with
  | Plug idVendor idProduct misc_register =>
      let r := Lab5.pen_probe usb_vid usb_pid idVendor idProduct
                 misc_register d in
      Done (fst r, None, snd r)
  | Unplug idVendor idProduct =>
      Done (0, None, Lab5.pen_disconnect usb_vid usb_pid idVendor idProduct d)
  | Open => Done (Lab5.buffer_open d, None, d)
  | Call kz r => call enable_auto_resize kz r d
  end.

Fixpoint run (usb_vid usb_pid enable_auto_resize : Z) (es : list event)
    (d : Lab5.device) : exec (list (Z * option Z) * Lab5.device) :=
  match es with
  | [] => Done ([], d)
  | e :: es' =>
      perform x <- step usb_vid usb_pid enable_auto_resize e d;
      perform y <- run usb_vid usb_pid enable_auto_resize es' (snd x);
      Done (fst x :: fst y, snd y)
  end.

End Hotplug.

(** Events whose calls carry a well-typed request and a sane allocator. *)
Definition event_ok (e : Hotplug.event) : Prop :=
  match e with
  | Hotplug.Call kz r => granted_fits kz /\ request_ok r
  | _ => True
  end.

(** The invariant of the gated module: both flags are 0 or 1, the device is
    registered only while the key is present, and the buffer is well
    formed. *)
Definition gate_ok (d : Lab5.device) : Prop :=
  (Lab5.usb_key_present d = 0 \/ Lab5.usb_key_present d = 1) /\
  (Lab5.device_registered d = 0 \/
   Lab5.device_registered d = 1 /\ Lab5.usb_key_present d = 1) /\
  wf (Lab5.dev_buffer d).

(** The gated module with the key plugged in and [empty_buffer] in
    memory. *)
Definition plugged_empty : Lab5.device :=
  {| Lab5.usb_key_present := 1; Lab5.device_registered := 1;
     Lab5.dev_buffer := empty_buffer |}.

(** The gated module with the key plugged in and [sample_buffer] in
    memory. *)
Definition plugged : Lab5.device :=
  {| Lab5.usb_key_present := 1; Lab5.device_registered := 1;
     Lab5.dev_buffer := sample_buffer |}.

(** ** The command-line client of the plain driver *)

(** What [strtol(s, &endptr, 10)] yields: the value, whether [endptr] stops
    at the terminating NUL, and whether it reported a range error (it then
    sets [errno] to [ERANGE]). *)
Record strtol_result : Type := StrtolResult {
  parsed : Z;
  at_end : bool;
  out_of_range : bool
}.

(** An argument of a [printf]; [AStrerror e] stands for [strerror(e)]. *)
Inductive arg : Type :=
  | AInt (v : Z)
  | AStr (s : string)
  | AStrerror (errnum : Z).

(** A line written to standard output or to standard error, as its format
    (with the escapes as typed in the source) and its arguments. *)
Inductive output : Type :=
  | Printf (format : string) (args : list arg)
  | Eprintf (format : string) (args : list arg).

Definition EXIT_SUCCESS : Z := 0.
Definition EXIT_FAILURE : Z := 1.
Definition EXIT_CONFIG_ERROR : Z := 2.
Definition EXIT_IO_ERROR : Z := 3.
Definition EXIT_FORMAT_ERROR : Z := 4.
Definition EXIT_USB_ERROR : Z := 5.

Definition STACK_CONFIG_CMD : Z := _IOW 115 1 sizeof_int.

(** What a system call hands to user space for a handler's status [r]: the
    return value, and the [errno] it sets if any. *)
Definition sys_return (r : Z) : Z * option Z :=
  if r <? 0 then (-1, Some (- r)) else (r, None).

(** A variable of the client the kernel may read and write; [v] is what
    its first [sizeof(int)] bytes hold. *)
Definition own_variable (v : Z) : user_int :=
  {| u_fetch := Some v; u_writable := true |}.

(** [show_help] *)
Definition show_help (program_name : string) : list output :=
  [Printf "Usage: %s <command> [arguments]\n\n" [AStr program_name];
   Printf "Available commands:\n" [];
   Printf "  set-size <size>  Configure the maximum stack capacity\n" [];
   Printf "  push <value>     Add an integer to the stack\n" [];
   Printf "  pop              Remove and display the top stack element\n" [];
   Printf "  unwind           Remove and display all stack elements\n" []].

Module Client.

(** The process and the device it talks to: [errno], what has been
    printed so far (oldest first), and the driver's device structure. *)
Record world : Type := World {
  errno : Z;
  printed : list output;
  dev : integer_buffer
}.

Definition print (o : output) (w : world) : world :=
  {| errno := errno w; printed := printed w ++ [o]; dev := dev w |}.

Definition set_dev (w : world) (b : integer_buffer) : world :=
  {| errno := errno w; printed := printed w; dev := b |}.

Definition set_errno (w : world) (e : option Z) : world :=
  match e with
  | Some v => {| errno := v; printed := printed w; dev := dev w |}
  | None => w
  end.

(** The effect of [strtol] on [errno]. *)
Definition after_strtol (p : strtol_result) (w : world) : world :=
  if out_of_range p then set_errno w (Some ERANGE) else w.

(** [configure_stack_size]; the [long] handed to [ioctl] is read by the
    driver as an [int], its low half on a little-endian machine. *)
Definition configure_stack_size (strtol : string -> strtol_result)
    (kz : allocator) (size_str : string) (w : world) : exec (Z * world) :=
  let p := strtol size_str in
  let w := after_strtol p w in
  let size_value := parsed p in
  if negb (at_end p) || (size_value <=? 0) then
    Done (EXIT_FORMAT_ERROR,
          print (Eprintf "Error: Stack size must be a positive number\n" []) w)
  else
    perform r <- Lab4.buffer_ioctl kz STACK_CONFIG_CMD
                   (own_variable (to_int size_value)) (dev w);
    let ret := sys_return (fst (fst r)) in
    let w := set_errno (set_dev w (snd r)) (snd ret) in
    if negb (fst ret =? 0) then
      if errno w =? EBUSY then
        Done (EXIT_CONFIG_ERROR,
              print (Eprintf
                "Error: Stack size has already been configured\n" []) w)
      else if errno w =? EINVAL then
        Done (EXIT_CONFIG_ERROR,
              print (Eprintf "Error: Specified size value is invalid\n" []) w)
      else
        Done (EXIT_CONFIG_ERROR,
              print (Eprintf "Error: Failed to configure stack size: %s\n"
                       [AStrerror (errno w)]) w)
    else Done (EXIT_SUCCESS, w).

(** [add_value_to_stack] *)
Definition add_value_to_stack (strtol : string -> strtol_result)
    (enable_auto_resize : Z) (kz : allocator) (value_str : string)
    (w : world) : exec (Z * world) :=
  let p := strtol value_str in
  let w := after_strtol p w in
  let temp_value := parsed p in
  if negb (at_end p) then
    Done (EXIT_FORMAT_ERROR,
          print (Eprintf "Error: Input must be a valid integer\n" []) w)
  else
    let int_value := to_int temp_value in
    perform r <- Lab4.buffer_write enable_auto_resize kz
                   (own_variable int_value) sizeof_int (dev w);
    let ret := sys_return (fst r) in
    let w := set_errno (set_dev w (snd r)) (snd ret) in
    if negb (fst ret =? sizeof_int) then
      if (errno w =? ENOSPC) || (errno w =? ERANGE) then
        Done (EXIT_IO_ERROR, print (Eprintf "Error: Stack is full\n" []) w)
      else
        Done (EXIT_IO_ERROR,
              print (Eprintf "Error: Failed to write to stack: %s\n"
                       [AStrerror (errno w)]) w)
    else Done (EXIT_SUCCESS, w).

(** [read(device_handle, &value, sizeof(value))] into the uninitialised
    [value]: the return value, what [value] holds afterwards if the driver
    wrote it, and the world afterwards. *)
Definition read_value (w : world) : exec (Z * option Z * world) :=
  perform r <- Lab4.buffer_read {| u_fetch := None; u_writable := true |}
                 sizeof_int (dev w);
  let ret := sys_return (fst (fst r)) in
  Done (fst ret, snd (fst r), set_errno (set_dev w (snd r)) (snd ret)).

(** [printf("%d\n", value)]; printing a [value] nobody wrote is undefined. *)
Definition print_value (value : option Z) (w : world) : exec world :=
  match value with
  | Some v => Done (print (Printf "%d\n" [AInt v]) w)
  | None => Oops
  end.

(** [retrieve_value_from_stack] *)
Definition retrieve_value_from_stack (w : world) : exec (Z * world) :=
  perform r <- read_value w;
  let bytes_read := fst (fst r) in
  let value := snd (fst r) in
  let w := snd r in
  if bytes_read =? 0 then
    Done (EXIT_SUCCESS, print (Printf "Stack is empty\n" []) w)
  else if bytes_read =? sizeof_int then
    perform w' <- print_value value w;
    Done (EXIT_SUCCESS, w')
  else
    Done (EXIT_IO_ERROR,
          print (Eprintf "Error: Failed to read from stack: %s\n"
                   [AStrerror (errno w)]) w).

(** The loop of [empty_entire_stack], with [count] the number of values
    printed so far; [None] when [fuel] iterations were not enough.
    [count++] past [INT_MAX] is undefined. *)
Fixpoint empty_entire_stack_loop (fuel : nat) (count : Z) (w : world)
    : option (exec (Z * world)) :=
  match fuel with
  | O => None
  | S fuel' =>
      match read_value w with
      | Oops => Some Oops
      | Done r =>
          let bytes_read := fst (fst r) in
          let value := snd (fst r) in
          let w := snd r in
          if bytes_read =? 0 then
            if count =? 0
            then Some (Done (EXIT_SUCCESS,
                             print (Printf "Stack is empty\n" []) w))
            else Some (Done (EXIT_SUCCESS, w))
          else if negb (bytes_read =? sizeof_int) then
            Some (Done (EXIT_IO_ERROR,
                        print (Eprintf
                                 "Error: Failed to read from stack: %s\n"
                                 [AStrerror (errno w)]) w))
          else
            match print_value value w with
            | Oops => Some Oops
            | Done w' =>
                if count <? INT_MAX
                then empty_entire_stack_loop fuel' (count + 1) w'
                else Some Oops
            end
      end
  end.

(** [empty_entire_stack] *)
Definition empty_entire_stack (fuel : nat) (w : world)
    : option (exec (Z * world)) :=
  empty_entire_stack_loop fuel 0 w.

(** [main].  [atexit_status] is what [atexit] returns and [open_errno] the
    error of [open], if it fails.  The program name is [argv[0]]; printing
    it when there is none is undefined. *)
Definition main (strtol : string -> strtol_result) (atexit_status : Z)
    (open_errno : option Z) (enable_auto_resize : Z) (kz : allocator)
    (fuel : nat) (argv : list string) (w : world)
    : option (exec (Z * world)) :=
  match argv with
  | [] => Some Oops
  | program_name :: rest =>
      match rest with
      | [] =>
          Some (Done (EXIT_FAILURE,
                      fold_left (fun w o => print o w)
                        (show_help program_name) w))
      | command :: _ =>
          let argc := Z.of_nat (length argv) in
          let w :=
            if negb (atexit_status =? 0)
            then print (Eprintf
                          "Warning: Could not register cleanup handler\n" []) w
            else w in
          match open_errno with
          | Some e =>
              let w := set_errno w (Some e) in
              Some (Done (EXIT_IO_ERROR,
                          print (Eprintf
                                   "Error: Failed to open stack device: %s\n"
                                   [AStrerror (errno w)]) w))
          | None =>
              if String.eqb command "set-size" then
                if negb (argc =? 3) then
                  Some (Done (EXIT_FAILURE,
                    print (Eprintf
                      "Error: The set-size command requires a size argument\n"
                      []) w))
                else
                  Some (configure_stack_size strtol kz
                          (nth 2 argv EmptyString) w)
              else if String.eqb command "push" then
                if negb (argc =? 3) then
                  Some (Done (EXIT_FAILURE,
                    print (Eprintf
                      "Error: The push command requires a value argument\n"
                      []) w))
                else
                  Some (add_value_to_stack strtol enable_auto_resize kz
                          (nth 2 argv EmptyString) w)
              else if String.eqb command "pop" then
                Some (retrieve_value_from_stack w)
              else if String.eqb command "unwind" then
                empty_entire_stack fuel w
              else
                Some (Done (EXIT_FAILURE,
                  fold_left (fun w o => print o w)
                    (Eprintf "Error: Unknown command: %s\n" [AStr command] ::
                     show_help program_name) w))
          end
      end
  end.

End Client.

(** ** The command-line client of the gated driver *)

Module UsbClient.

(** The process and the gated module it talks to. *)
Record world : Type := World {
  errno : Z;
  printed : list output;
  dev : Lab5.device
}.

Definition print (o : output) (w : world) : world :=
  {| errno := errno w; printed := printed w ++ [o]; dev := dev w |}.

Definition set_dev (w : world) (d : Lab5.device) : world :=
  {| errno := errno w; printed := printed w; dev := d |}.

Definition set_errno (w : world) (e : option Z) : world :=
  match e with
  | Some v => {| errno := v; printed := printed w; dev := dev w |}
  | None => w
  end.

Definition after_strtol (p : strtol_result) (w : world) : world :=
  if out_of_range p then set_errno w (Some ERANGE) else w.

Definition usb_key_missing (w : world) : world :=
  print (Eprintf "Error: USB key not inserted\n" []) w.

(** [configure_stack_size] *)
Definition configure_stack_size (strtol : string -> strtol_result)
    (kz : allocator) (size_str : string) (w : world) : exec (Z * world) :=
  let p := strtol size_str in
  let w := after_strtol p w in
  let size_value := parsed p in
  if negb (at_end p) || (size_value <=? 0) then
    Done (EXIT_FORMAT_ERROR,
          print (Eprintf "Error: Stack size must be a positive number\n" []) w)
  else
    perform r <- Lab5.buffer_ioctl kz STACK_CONFIG_CMD
                   (own_variable (to_int size_value)) (dev w);
    let ret := sys_return (fst (fst r)) in
    let w := set_errno (set_dev w (snd r)) (snd ret) in
    if negb (fst ret =? 0) then
      if errno w =? ENODEV then Done (EXIT_USB_ERROR, usb_key_missing w)
      else if errno w =? EBUSY then
        Done (EXIT_CONFIG_ERROR,
              print (Eprintf
                "Error: Stack size has already been configured\n" []) w)
      else if errno w =? EINVAL then
        Done (EXIT_CONFIG_ERROR,
              print (Eprintf "Error: Specified size value is invalid\n" []) w)
      else
        Done (EXIT_CONFIG_ERROR,
              print (Eprintf "Error: Failed to configure stack size: %s\n"
                       [AStrerror (errno w)]) w)
    else Done (EXIT_SUCCESS, w).

(** [add_value_to_stack] *)
Definition add_value_to_stack (strtol : string -> strtol_result)
    (enable_auto_resize : Z) (kz : allocator) (value_str : string)
    (w : world) : exec (Z * world) :=
  let p := strtol value_str in
  let w := after_strtol p w in
  let temp_value := parsed p in
  if negb (at_end p) then
    Done (EXIT_FORMAT_ERROR,
          print (Eprintf "Error: Input must be a valid integer\n" []) w)
  else
    let int_value := to_int temp_value in
    perform r <- Lab5.buffer_write enable_auto_resize kz
                   (own_variable int_value) sizeof_int (dev w);
    let ret := sys_return (fst r) in
    let w := set_errno (set_dev w (snd r)) (snd ret) in
    if negb (fst ret =? sizeof_int) then
      if errno w =? ENODEV then Done (EXIT_USB_ERROR, usb_key_missing w)
      else if (errno w =? ENOSPC) || (errno w =? ERANGE) then
        Done (EXIT_IO_ERROR, print (Eprintf "Error: Stack is full\n" []) w)
      else
        Done (EXIT_IO_ERROR,
              print (Eprintf "Error: Failed to write to stack: %s\n"
                       [AStrerror (errno w)]) w)
    else Done (EXIT_SUCCESS, w).

(** [read(device_handle, &value, sizeof(value))] *)
Definition read_value (w : world) : exec (Z * option Z * world) :=
  perform r <- Lab5.buffer_read {| u_fetch := None; u_writable := true |}
                 sizeof_int (dev w);
  let ret := sys_return (fst (fst r)) in
  Done (fst ret, snd (fst r), set_errno (set_dev w (snd r)) (snd ret)).

Definition print_value (value : option Z) (w : world) : exec world :=
  match value with
  | Some v => Done (print (Printf "%d\n" [AInt v]) w)
  | None => Oops
  end.

(** The branch both readers take when [read] returns neither 0 nor
    [sizeof(value)]. *)
Definition read_failed (w : world) : Z * world :=
  if errno w =? ENODEV then (EXIT_USB_ERROR, usb_key_missing w)
  else
    (EXIT_IO_ERROR,
     print (Eprintf "Error: Failed to read from stack: %s\n"
              [AStrerror (errno w)]) w).

(** [retrieve_value_from_stack] *)
Definition retrieve_value_from_stack (w : world) : exec (Z * world) :=
  perform r <- read_value w;
  let bytes_read := fst (fst r) in
  let value := snd (fst r) in
  let w := snd r in
  if bytes_read =? 0 then
    Done (EXIT_SUCCESS, print (Printf "Stack is empty\n" []) w)
  else if bytes_read =? sizeof_int then
    perform w' <- print_value value w;
    Done (EXIT_SUCCESS, w')
  else Done (read_failed w).

(** The loop of [empty_entire_stack]. *)
Fixpoint empty_entire_stack_loop (fuel : nat) (count : Z) (w : world)
    : option (exec (Z * world)) :=
  match fuel with
  | O => None
  | S fuel' =>
      match read_value w with
      | Oops => Some Oops
      | Done r =>
          let bytes_read := fst (fst r) in
          let value := snd (fst r) in
          let w := snd r in
          if bytes_read =? 0 then
            if count =? 0
            then Some (Done (EXIT_SUCCESS,
                             print (Printf "Stack is empty\n" []) w))
            else Some (Done (EXIT_SUCCESS, w))
          else if negb (bytes_read =? sizeof_int) then
            Some (Done (read_failed w))
          else
            match print_value value w with
            | Oops => Some Oops
            | Done w' =>
                if count <? INT_MAX
                then empty_entire_stack_loop fuel' (count + 1) w'
                else Some Oops
            end
      end
  end.

(** [empty_entire_stack] *)
Definition empty_entire_stack (fuel : nat) (w : world)
    : option (exec (Z * world)) :=
  empty_entire_stack_loop fuel 0 w.

(** [main].  [open_errno] is the error of [open] when it fails before it
    reaches the driver; otherwise [buffer_open] decides. *)
Definition main (strtol : string -> strtol_result) (atexit_status : Z)
    (open_errno : option Z) (enable_auto_resize : Z) (kz : allocator)
    (fuel : nat) (argv : list string) (w : world)
    : option (exec (Z * world)) :=
  match argv with
  | [] => Some Oops
  | program_name :: rest =>
      match rest with
      | [] =>
          Some (Done (EXIT_FAILURE,
                      fold_left (fun w o => print o w)
                        (show_help program_name) w))
      | command :: _ =>
          let argc := Z.of_nat (length argv) in
          let w :=
            if negb (atexit_status =? 0)
            then print (Eprintf
                          "Warning: Could not register cleanup handler\n" []) w
            else w in
          let opened :=
            match open_errno with
            | Some e => (-1, Some e)
            | None => sys_return (Lab5.buffer_open (dev w))
            end in
          let w := set_errno w (snd opened) in
          if fst opened <? 0 then
            if errno w =? ENODEV
            then Some (Done (EXIT_USB_ERROR, usb_key_missing w))
            else
              Some (Done (EXIT_IO_ERROR,
                          print (Eprintf
                                   "Error: Failed to open stack device: %s\n"
                                   [AStrerror (errno w)]) w))
          else if String.eqb command "set-size" then
            if negb (argc =? 3) then
              Some (Done (EXIT_FAILURE,
                print (Eprintf
                  "Error: The set-size command requires a size argument\n"
                  []) w))
            else
              Some (configure_stack_size strtol kz (nth 2 argv EmptyString) w)
          else if String.eqb command "push" then
            if negb (argc =? 3) then
              Some (Done (EXIT_FAILURE,
                print (Eprintf
                  "Error: The push command requires a value argument\n"
                  []) w))
            else
              Some (add_value_to_stack strtol enable_auto_resize kz
                      (nth 2 argv EmptyString) w)
          else if String.eqb command "pop" then
            Some (retrieve_value_from_stack w)
          else if String.eqb command "unwind" then
            empty_entire_stack fuel w
          else
            Some (Done (EXIT_FAILURE,
              fold_left (fun w o => print o w)
                (Eprintf "Error: Unknown command: %s\n" [AStr command] ::
                 show_help program_name) w))
      end
  end.

End UsbClient.

(** The gated client's world seen by the plain client: the same process in
    front of the buffer alone. *)
Definition plain_world (w : UsbClient.world) : Client.world :=
  {| Client.errno := UsbClient.errno w; Client.printed := UsbClient.printed w;
     Client.dev := Lab5.dev_buffer (UsbClient.dev w) |}.

(** The plain client's world put back behind the gate of [w]. *)
Definition gated_world (w : UsbClient.world) (c : Client.world)
    : UsbClient.world :=
  {| UsbClient.errno := Client.errno c; UsbClient.printed := Client.printed c;
     UsbClient.dev := Lab5.set_dev_buffer (UsbClient.dev w) (Client.dev c) |}.

Definition gated_result (w : UsbClient.world) (r : exec (Z * Client.world))
    : exec (Z * UsbClient.world) :=
  match r with
  | Done x => Done (fst x, gated_world w (snd x))
  | Oops => Oops
  end.

(** ** Concrete worlds *)

(** [sample_buffer] with another value in its free slot and other
    statistics. *)
Definition sample_buffer_stale : integer_buffer :=
  {| elements := Some [10; 20; 30; 99]; capacity := 4; position := 3;
     stats := {| push_count := 5; pop_count := 2; overflow_count := 1;
                 underflow_count := 7 |} |}.

(** A [strtol] that knows three strings. *)
Definition sample_strtol (s : string) : strtol_result :=
  if String.eqb s "7"
  then {| parsed := 7; at_end := true; out_of_range := false |}
  else if String.eqb s "2"
  then {| parsed := 2; at_end := true; out_of_range := false |}
  else if String.eqb s "4294967296"
  then {| parsed := 4294967296; at_end := true; out_of_range := false |}
  else {| parsed := 0; at_end := false; out_of_range := false |}.

(** The plain client in front of [sample_buffer]. *)
Definition sample_world : Client.world :=
  {| Client.errno := 0; Client.printed := []; Client.dev := sample_buffer |}.

(** The plain client in front of [full_buffer]. *)
Definition full_world : Client.world :=
  {| Client.errno := 0; Client.printed := []; Client.dev := full_buffer |}.

(** The gated client with the key unplugged, and with the key plugged. *)
Definition unplugged_world : UsbClient.world :=
  {| UsbClient.errno := 0; UsbClient.printed := [];
     UsbClient.dev := unplugged |}.

Definition plugged_world : UsbClient.world :=
  {| UsbClient.errno := 0; UsbClient.printed := [];
     UsbClient.dev := plugged |}.

(** ** Tactics for concrete buffers and allocators *)

Ltac concrete_wf := unfold wf, PTRDIFF_MAX, sizeof_int; cbn; lia.

Ltac concrete_allocator :=
  let n := fresh "n" in
  let H := fresh "H" in
  intros n H; unfold page_allocator in H; apply Z.leb_le in H;
  unfold PTRDIFF_MAX; lia.

Ltac concrete_request :=
  first [exact I | cbn; unfold is_int, INT_MIN, INT_MAX; lia].

Ltac concrete_requests :=
  repeat (apply Forall_cons; split;
          [split; [concrete_allocator | concrete_request] |]);
  constructor.

(** Splits the five parts of a call's outcome; [wf_t] proves the invariant
    and [c_t] the contents. *)
Ltac call_outcome wf_t c_t :=
  split; [reflexivity |];
  split; [wf_t |];
  split; [reflexivity |];
  split; [c_t | reflexivity].

(** ** Machine arithmetic within range *)

Lemma wrap_size_small z : 0 <= z <= SIZE_MAX -> wrap_size z = z.
Proof.
  unfold wrap_size, SIZE_MAX. intros H. apply Z.mod_small. lia.
Qed.

Lemma to_int_small z : is_int z -> to_int z = z.
Proof.
  unfold to_int, is_int, INT_MIN, INT_MAX. intros H.
  rewrite Z.mod_small; lia.
Qed.

Lemma to_int_range z : is_int (to_int z).
Proof.
  unfold to_int, is_int, INT_MIN, INT_MAX.
  pose proof (Z.mod_pos_bound (z + 2 ^ 31) (2 ^ 32)). lia.
Qed.

Lemma atomic_inc_below v :
  INT_MIN <= v < INT_MAX -> atomic_inc v = v + 1.
Proof.
  intros H. apply to_int_small. unfold is_int. lia.
Qed.

Lemma atomic_inc_congruent v :
  (atomic_inc v - (v + 1)) mod 2 ^ 32 = 0.
Proof.
  unfold atomic_inc, to_int.
  rewrite (Z.mod_eq (v + 1 + 2 ^ 31) (2 ^ 32)) by lia.
  replace (v + 1 + 2 ^ 31 - 2 ^ 32 * ((v + 1 + 2 ^ 31) / 2 ^ 32) - 2 ^ 31 -
           (v + 1))
    with (- ((v + 1 + 2 ^ 31) / 2 ^ 32) * 2 ^ 32) by lia.
  apply Z.mod_mul. lia.
Qed.

(** What one increment of a counter means for the four of them. *)
Lemma inc_push_counts s s' :
  s' = inc_push s ->
  push_count s' = atomic_inc (push_count s) /\
  (INT_MIN <= push_count s < INT_MAX -> push_count s' = push_count s + 1) /\
  pop_count s' = pop_count s /\
  overflow_count s' = overflow_count s /\
  underflow_count s' = underflow_count s.
Proof.
  intros ->. cbn. split; [reflexivity |].
  split; [apply atomic_inc_below | auto].
Qed.

Lemma inc_pop_counts s s' :
  s' = inc_pop s ->
  pop_count s' = atomic_inc (pop_count s) /\
  (INT_MIN <= pop_count s < INT_MAX -> pop_count s' = pop_count s + 1) /\
  push_count s' = push_count s /\
  overflow_count s' = overflow_count s /\
  underflow_count s' = underflow_count s.
Proof.
  intros ->. cbn. split; [reflexivity |].
  split; [apply atomic_inc_below | auto].
Qed.

Lemma inc_overflow_counts s s' :
  s' = inc_overflow s ->
  overflow_count s' = atomic_inc (overflow_count s) /\
  (INT_MIN <= overflow_count s < INT_MAX ->
     overflow_count s' = overflow_count s + 1) /\
  push_count s' = push_count s /\
  pop_count s' = pop_count s /\
  underflow_count s' = underflow_count s.
Proof.
  intros ->. cbn. split; [reflexivity |].
  split; [apply atomic_inc_below | auto].
Qed.

Lemma inc_underflow_counts s s' :
  s' = inc_underflow s ->
  underflow_count s' = atomic_inc (underflow_count s) /\
  (INT_MIN <= underflow_count s < INT_MAX ->
     underflow_count s' = underflow_count s + 1) /\
  push_count s' = push_count s /\
  pop_count s' = pop_count s /\
  overflow_count s' = overflow_count s.
Proof.
  intros ->. cbn. split; [reflexivity |].
  split; [apply atomic_inc_below | auto].
Qed.

(** ** The allocator and the array primitives *)

Lemma kzalloc_array kz k :
  0 < k -> sizeof_int * k <= SIZE_MAX ->
  kzalloc kz (wrap_size (sizeof_int * k)) =
    if kz (sizeof_int * k) then Some (replicate (Z.to_nat k) 0) else None.
Proof.
  intros Hk Hfit. unfold kzalloc.
  rewrite wrap_size_small by (unfold sizeof_int in *; lia).
  destruct (Z.eqb_spec (sizeof_int * k) 0) as [E | _].
  - unfold sizeof_int in E. lia.
  - replace (sizeof_int * k / sizeof_int) with k; [reflexivity |].
    unfold sizeof_int. rewrite Z.mul_comm, Z.div_mul; lia.
Qed.

Lemma memcpy_prefix dst src k :
  0 <= k -> sizeof_int * k <= SIZE_MAX ->
  (Z.to_nat k <= length src)%nat -> (Z.to_nat k <= length dst)%nat ->
  memcpy dst src (wrap_size (sizeof_int * k)) =
    Done (take (Z.to_nat k) src ++ drop (Z.to_nat k) dst).
Proof.
  intros Hk Hfit Hs Hd. unfold memcpy.
  rewrite wrap_size_small by (unfold sizeof_int in *; lia).
  replace (sizeof_int * k / sizeof_int) with k
    by (unfold sizeof_int; rewrite Z.mul_comm, Z.div_mul; lia).
  destruct (Nat.leb_spec (Z.to_nat k) (length src)); [| lia].
  destruct (Nat.leb_spec (Z.to_nat k) (length dst)); [| lia].
  reflexivity.
Qed.

(** ** Facts about well-formed buffers *)

Lemma wf_contents_length b :
  wf b -> Z.of_nat (length (contents b)) = position b.
Proof.
  unfold wf, contents. intros (Hp & _ & He).
  destruct (elements b) as [a |].
  - rewrite length_take. lia.
  - simpl. lia.
Qed.

Lemma wf_room_array b :
  wf b -> position b < capacity b ->
  exists a, elements b = Some a /\ Z.of_nat (length a) = capacity b.
Proof.
  unfold wf. intros (Hp & _ & He) Hlt.
  destruct (elements b) as [a |]; [eauto | lia].
Qed.

Lemma wf_capacity_bound b : wf b -> 0 <= capacity b < 2 ^ 61.
Proof.
  unfold wf, sizeof_int, PTRDIFF_MAX. intros (Hp & Hc & _). lia.
Qed.

(** ** [resize_buffer] *)

Lemma resize_buffer_zero kz b :
  Lab4.resize_buffer kz 0 b =
    Done (0, {| elements := None; capacity := 0; position := 0;
                stats := stats b |}).
Proof. reflexivity. Qed.

Lemma resize_buffer_refused kz k b :
  0 < k -> sizeof_int * k <= SIZE_MAX -> kz (sizeof_int * k) = false ->
  Lab4.resize_buffer kz k b = Done (- ENOMEM, b).
Proof.
  intros Hk Hfit Hkz. unfold Lab4.resize_buffer.
  destruct (Z.eqb_spec k 0); [lia |].
  rewrite kzalloc_array, Hkz by assumption. reflexivity.
Qed.

Lemma resize_buffer_granted kz k b :
  wf b -> 0 < k -> sizeof_int * k <= SIZE_MAX -> kz (sizeof_int * k) = true ->
  Lab4.resize_buffer kz k b = Done (0, resized k b).
Proof.
  intros Hwf Hk Hfit Hkz. unfold Lab4.resize_buffer, resized.
  destruct (Z.eqb_spec k 0); [lia |].
  rewrite kzalloc_array, Hkz by assumption.
  pose proof (wf_contents_length b Hwf) as Hlen.
  destruct Hwf as (Hp & Hc & He). unfold contents in *.
  destruct (elements b) as [old |].
  - destruct (Z.ltb_spec 0 (position b)) as [Hpos | Hpos].
    + rewrite memcpy_prefix.
      * simpl. do 3 f_equal.
        rewrite take_take, drop_replicate, length_take.
        replace (Z.to_nat k `min` Z.to_nat (position b))%nat
          with (Z.to_nat (position b `min` k)) by lia.
        replace (Z.to_nat (position b) `min` length old)%nat
          with (Z.to_nat (position b)) by lia.
        replace (Z.to_nat k - Z.to_nat (position b `min` k))%nat
          with (Z.to_nat k - Z.to_nat (position b))%nat by lia.
        reflexivity.
      * lia.
      * unfold sizeof_int in *. lia.
      * lia.
      * rewrite length_replicate. lia.
    + assert (position b = 0) as -> by lia.
      rewrite Z.min_l by lia. change (Z.to_nat 0) with 0%nat.
      rewrite take_0, take_nil. simpl. rewrite Nat.sub_0_r. reflexivity.
  - rewrite take_nil. simpl. rewrite Nat.sub_0_r.
    rewrite Z.min_l by lia. assert (position b = 0) as -> by lia. reflexivity.
Qed.

Lemma resized_wf k b :
  wf b -> 0 < k -> sizeof_int * k <= PTRDIFF_MAX -> wf (resized k b).
Proof.
  intros Hwf Hk Hfit. pose proof (wf_contents_length b Hwf) as Hlen.
  destruct Hwf as (Hp & Hc & He).
  unfold wf, resized. cbn [elements capacity position].
  rewrite length_app, length_take, length_replicate. lia.
Qed.

Lemma resized_contents k b :
  wf b -> 0 < k -> contents (resized k b) = take (Z.to_nat k) (contents b).
Proof.
  intros Hwf Hk. pose proof (wf_contents_length b Hwf) as Hlen.
  unfold contents at 1, resized. cbn [elements capacity position].
  rewrite take_app_le by (rewrite length_take; lia).
  rewrite take_take.
  destruct (Z.le_gt_cases k (position b)).
  - replace (Z.to_nat (position b `min` k) `min` Z.to_nat k)%nat
      with (Z.to_nat k) by lia.
    reflexivity.
  - rewrite !take_ge by lia. reflexivity.
Qed.

(** Every resize a caller of the driver can ask for returns, with one of
    two outcomes. *)
Lemma resize_buffer_cases kz k b :
  wf b -> 0 <= k -> sizeof_int * k <= SIZE_MAX ->
  Lab4.resize_buffer kz k b =
    if k =? 0 then
      Done (0, {| elements := None; capacity := 0; position := 0;
                  stats := stats b |})
    else if kz (sizeof_int * k) then Done (0, resized k b)
    else Done (- ENOMEM, b).
Proof.
  intros Hwf Hk Hfit.
  destruct (Z.eqb_spec k 0) as [-> | Hne]; [reflexivity |].
  destruct (kz (sizeof_int * k)) eqn:Hkz.
  - apply resize_buffer_granted; auto; lia.
  - apply resize_buffer_refused; auto; lia.
Qed.

(** ** [buffer_write] *)

Lemma push_value_room v b :
  wf b -> position b < capacity b ->
  Lab4.push_value v b = Done (sizeof_int, pushed v b).
Proof.
  intros Hwf Hlt. destruct (wf_room_array b Hwf Hlt) as (a & Ha & Hlen).
  pose proof (wf_capacity_bound b Hwf) as Hcap.
  destruct Hwf as (Hp & _ & _).
  unfold Lab4.push_value, pushed, store. rewrite Ha.
  destruct (Nat.ltb_spec (Z.to_nat (position b)) (length a)); [| lia].
  cbn [bind set_position set_elements set_stats elements capacity position
       stats].
  rewrite wrap_size_small by (unfold SIZE_MAX; lia). reflexivity.
Qed.

Lemma pushed_wf v b : wf b -> position b < capacity b -> wf (pushed v b).
Proof.
  intros Hwf Hlt. destruct (wf_room_array b Hwf Hlt) as (a & Ha & Hlen).
  destruct Hwf as (Hp & Hc & _).
  unfold wf, pushed. rewrite Ha. cbn [elements capacity position].
  rewrite length_insert. lia.
Qed.

Lemma pushed_contents v b :
  wf b -> position b < capacity b -> contents (pushed v b) = contents b ++ [v].
Proof.
  intros Hwf Hlt. destruct (wf_room_array b Hwf Hlt) as (a & Ha & Hlen).
  destruct Hwf as (Hp & Hc & _).
  unfold contents, pushed. rewrite Ha. cbn [elements capacity position].
  replace (Z.to_nat (position b + 1)) with (S (Z.to_nat (position b))) by lia.
  rewrite (take_S_r _ _ v) by (apply list_lookup_insert_eq; lia).
  rewrite take_insert_ge by lia. reflexivity.
Qed.

Lemma buffer_write_bad_count ear kz u count b :
  count <> sizeof_int -> Lab4.buffer_write ear kz u count b = Done (- EINVAL, b).
Proof.
  intros Hc. unfold Lab4.buffer_write.
  destruct (Z.eqb_spec count sizeof_int); [contradiction | reflexivity].
Qed.

Lemma buffer_write_fault ear kz u b :
  u_fetch u = None ->
  Lab4.buffer_write ear kz u sizeof_int b = Done (- EFAULT, b).
Proof.
  intros Hu. unfold Lab4.buffer_write. rewrite Z.eqb_refl, Hu. reflexivity.
Qed.

Lemma buffer_write_room ear kz u v b :
  wf b -> position b < capacity b -> u_fetch u = Some v ->
  Lab4.buffer_write ear kz u sizeof_int b = Done (sizeof_int, pushed v b).
Proof.
  intros Hwf Hlt Hu. unfold Lab4.buffer_write. rewrite Z.eqb_refl, Hu.
  cbn [negb]. destruct (Z.leb_spec (capacity b) (position b)); [lia |].
  apply push_value_room; assumption.
Qed.

Lemma buffer_write_full_fixed kz u v b :
  capacity b <= position b -> u_fetch u = Some v ->
  Lab4.buffer_write 0 kz u sizeof_int b = Done (- ENOSPC, rejected b).
Proof.
  intros Hfull Hu. unfold Lab4.buffer_write. rewrite Z.eqb_refl, Hu.
  cbn [negb]. destruct (Z.leb_spec (capacity b) (position b)); [| lia].
  reflexivity.
Qed.

Lemma buffer_write_full_grow ear kz u v b :
  wf b -> granted_fits kz -> position b = capacity b -> ear <> 0 ->
  u_fetch u = Some v ->
  Lab4.buffer_write ear kz u sizeof_int b =
    if kz (sizeof_int * grown_capacity b)
    then Done (sizeof_int, pushed v (resized (grown_capacity b) b))
    else Done (- ENOSPC, rejected b).
Proof.
  intros Hwf Hkzfit Hfull Hear Hu.
  pose proof (wf_capacity_bound b Hwf) as Hcap.
  unfold Lab4.buffer_write. rewrite Z.eqb_refl, Hu. cbn [negb].
  destruct (Z.leb_spec (capacity b) (position b)); [| lia].
  destruct (Z.eqb_spec ear 0); [contradiction |]. cbn [negb].
  rewrite wrap_size_small by (unfold SIZE_MAX; lia).
  fold (grown_capacity b).
  assert (8 <= grown_capacity b < 2 ^ 62 /\ capacity b < grown_capacity b)
    as (Hg & Hgt) by (unfold grown_capacity; lia).
  rewrite resize_buffer_cases
    by (try assumption; unfold sizeof_int, SIZE_MAX; lia).
  destruct (Z.eqb_spec (grown_capacity b) 0); [lia |].
  destruct (kz (sizeof_int * grown_capacity b)) eqn:Hkz.
  - cbn [bind fst snd]. change (0 <? 0) with false. cbv iota.
    apply push_value_room.
    + apply resized_wf; [assumption | lia | auto].
    + unfold resized. cbn [position capacity]. lia.
  - reflexivity.
Qed.

(** ** [buffer_read] *)

Lemma buffer_read_short u count b :
  count < sizeof_int -> Lab4.buffer_read u count b = Done (- EINVAL, None, b).
Proof.
  intros Hc. unfold Lab4.buffer_read.
  destruct (Z.ltb_spec count sizeof_int); [reflexivity | lia].
Qed.

Lemma buffer_read_empty u count b :
  sizeof_int <= count -> position b = 0 ->
  Lab4.buffer_read u count b = Done (0, None, starved b).
Proof.
  intros Hc Hp. unfold Lab4.buffer_read.
  destruct (Z.ltb_spec count sizeof_int); [lia |].
  rewrite Hp. reflexivity.
Qed.

(** The slot a read looks at holds the last of [contents]. *)
Lemma wf_top_slot b c v :
  wf b -> contents b = c ++ [v] ->
  0 < position b /\
  load (elements b) (position b - 1) = Done v.
Proof.
  intros Hwf Hc. pose proof (wf_contents_length b Hwf) as Hlen.
  rewrite Hc, length_app in Hlen. cbn [length] in Hlen.
  split; [lia |].
  unfold contents in Hc. unfold load.
  destruct (elements b) as [a |]; [| destruct c; discriminate].
  assert (take (Z.to_nat (position b)) a !! Z.to_nat (position b - 1) = Some v)
    as Hv.
  { rewrite Hc. replace (Z.to_nat (position b - 1)) with (length c) by lia.
    rewrite lookup_app_r, Nat.sub_diag by lia. reflexivity. }
  rewrite lookup_take_lt in Hv by lia. rewrite Hv. reflexivity.
Qed.

Lemma buffer_read_top u count b c v :
  wf b -> contents b = c ++ [v] -> sizeof_int <= count ->
  u_writable u = true ->
  Lab4.buffer_read u count b = Done (sizeof_int, Some v, popped b).
Proof.
  intros Hwf Hc Hcount Hu.
  destruct (wf_top_slot b c v Hwf Hc) as (Hpos & Hload).
  pose proof (wf_capacity_bound b Hwf) as Hcap. destruct Hwf as (Hp & _ & _).
  unfold Lab4.buffer_read.
  destruct (Z.ltb_spec count sizeof_int); [lia |].
  destruct (Z.eqb_spec (position b) 0); [lia |].
  cbn [set_position elements position capacity stats].
  rewrite wrap_size_small by (unfold SIZE_MAX; lia).
  rewrite Hload, Hu. reflexivity.
Qed.

Lemma buffer_read_fault u count b c v :
  wf b -> contents b = c ++ [v] -> sizeof_int <= count ->
  u_writable u = false ->
  Lab4.buffer_read u count b = Done (- EFAULT, None, b).
Proof.
  intros Hwf Hc Hcount Hu.
  destruct (wf_top_slot b c v Hwf Hc) as (Hpos & Hload).
  pose proof (wf_capacity_bound b Hwf) as Hcap. destruct Hwf as (Hp & _ & _).
  unfold Lab4.buffer_read.
  destruct (Z.ltb_spec count sizeof_int); [lia |].
  destruct (Z.eqb_spec (position b) 0); [lia |].
  cbn [set_position elements position capacity stats].
  rewrite wrap_size_small by (unfold SIZE_MAX; lia).
  rewrite Hload, Hu. cbn [bind].
  rewrite wrap_size_small by (unfold SIZE_MAX; lia).
  replace (position b - 1 + 1) with (position b) by lia.
  destruct b; reflexivity.
Qed.

Lemma popped_wf b : wf b -> 0 < position b -> wf (popped b).
Proof.
  unfold wf, popped. cbn [elements capacity position].
  intros (Hp & Hc & He) Hpos. repeat split; try assumption; lia.
Qed.

Lemma popped_contents b c v :
  wf b -> contents b = c ++ [v] -> contents (popped b) = c.
Proof.
  intros Hwf Hc. pose proof (wf_contents_length b Hwf) as Hlen.
  rewrite Hc, length_app in Hlen. cbn [length] in Hlen.
  unfold contents, popped in *. cbn [elements capacity position].
  destruct (elements b) as [a |]; [| destruct c; discriminate].
  replace (Z.to_nat (position b - 1)) with (length c) by lia.
  transitivity (take (length c) (take (Z.to_nat (position b)) a)).
  - rewrite take_take.
    replace (length c `min` Z.to_nat (position b))%nat with (length c) by lia.
    reflexivity.
  - rewrite Hc. apply take_app_length.
Qed.

(** A non-empty list ends somewhere. *)
Lemma contents_top b :
  wf b -> 0 < position b -> exists c v, contents b = c ++ [v].
Proof.
  intros Hwf Hpos. pose proof (wf_contents_length b Hwf) as Hlen.
  destruct (contents b) as [| x l] eqn:Hc using rev_ind.
  - simpl in Hlen. lia.
  - eauto.
Qed.

(** ** [buffer_ioctl] *)

Lemma ioctl_commands_distinct :
  INT_STACK_SET_MAX_SIZE <> CMD_GET_CAPACITY /\
  INT_STACK_SET_MAX_SIZE <> CMD_GET_USAGE /\
  INT_STACK_SET_MAX_SIZE <> CMD_CLEAR_BUFFER /\
  CMD_GET_CAPACITY <> CMD_GET_USAGE /\
  CMD_GET_CAPACITY <> CMD_CLEAR_BUFFER /\
  CMD_GET_USAGE <> CMD_CLEAR_BUFFER.
Proof. vm_compute. repeat split; discriminate. Qed.

Lemma buffer_ioctl_set_capacity kz u k b :
  wf b -> u_fetch u = Some k -> 0 <= k <= INT_MAX ->
  Lab4.buffer_ioctl kz INT_STACK_SET_MAX_SIZE u b =
    if k =? 0 then
      Done (0, None, {| elements := None; capacity := 0; position := 0;
                        stats := stats b |})
    else if kz (sizeof_int * k) then Done (0, None, resized k b)
    else Done (- ENOMEM, None, b).
Proof.
  intros Hwf Hu Hk. unfold Lab4.buffer_ioctl.
  rewrite Z.eqb_refl, Hu. destruct (Z.ltb_spec k 0); [lia |].
  rewrite resize_buffer_cases
    by (try assumption; unfold sizeof_int, SIZE_MAX, INT_MAX in *; lia).
  destruct (k =? 0); [reflexivity |].
  destruct (kz (sizeof_int * k)); reflexivity.
Qed.

Lemma buffer_ioctl_get_capacity kz u b :
  u_writable u = true ->
  Lab4.buffer_ioctl kz CMD_GET_CAPACITY u b =
    Done (0, Some (to_int (capacity b)), b).
Proof.
  intros Hu. unfold Lab4.buffer_ioctl.
  change (CMD_GET_CAPACITY =? INT_STACK_SET_MAX_SIZE) with false.
  rewrite Z.eqb_refl, Hu. reflexivity.
Qed.

Lemma buffer_ioctl_get_usage kz u b :
  u_writable u = true ->
  Lab4.buffer_ioctl kz CMD_GET_USAGE u b =
    Done (0, Some (to_int (position b)), b).
Proof.
  intros Hu. unfold Lab4.buffer_ioctl.
  change (CMD_GET_USAGE =? INT_STACK_SET_MAX_SIZE) with false.
  change (CMD_GET_USAGE =? CMD_GET_CAPACITY) with false.
  rewrite Z.eqb_refl, Hu. reflexivity.
Qed.

Lemma buffer_ioctl_clear kz u b :
  Lab4.buffer_ioctl kz CMD_CLEAR_BUFFER u b = Done (0, None, set_position b 0).
Proof. reflexivity. Qed.

(** ** Every call returns and keeps the buffer well formed *)

Lemma same_store_refl b : same_store b b.
Proof. unfold same_store. auto. Qed.

Lemma same_store_set_stats b s : same_store b (set_stats b s).
Proof. unfold same_store, set_stats. auto. Qed.

Lemma wf_set_stats b s : wf b -> wf (set_stats b s).
Proof. unfold wf, set_stats. auto. Qed.

Lemma wf_cleared b : wf b -> wf (set_position b 0).
Proof.
  unfold wf, set_position. cbn [elements capacity position].
  intros (Hp & Hc & He). repeat split; try assumption; lia.
Qed.

Lemma wf_released s :
  wf {| elements := None; capacity := 0; position := 0; stats := s |}.
Proof. unfold wf. cbn. unfold PTRDIFF_MAX. lia. Qed.

Lemma buffer_write_sound ear kz u count b :
  wf b -> granted_fits kz ->
  exists st b', Lab4.buffer_write ear kz u count b = Done (st, b') /\
                sound_outcome b st b'.
Proof.
  intros Hwf Hkz. unfold sound_outcome.
  destruct (Z.eq_dec count sizeof_int) as [-> | Hc].
  - destruct (u_fetch u) as [v |] eqn:Hu.
    + destruct (Z.lt_ge_cases (position b) (capacity b)) as [Hroom | Hfull].
      * exists sizeof_int, (pushed v b). split.
        -- eapply buffer_write_room; eauto.
        -- split; [apply pushed_wf; assumption | unfold sizeof_int; lia].
      * assert (position b = capacity b) as Heq by (destruct Hwf; lia).
        destruct (Z.eq_dec ear 0) as [-> | Hear].
        -- exists (- ENOSPC), (rejected b). split.
           ++ eapply buffer_write_full_fixed; eauto.
           ++ split; [apply wf_set_stats; assumption |].
              intros _. apply same_store_set_stats.
        -- pose proof (wf_capacity_bound b Hwf) as Hcap.
           rewrite (buffer_write_full_grow ear kz u v b) by assumption.
           destruct (kz (sizeof_int * grown_capacity b)) eqn:Hg.
           ++ exists sizeof_int, (pushed v (resized (grown_capacity b) b)).
              split; [reflexivity |].
              split; [| unfold sizeof_int; lia].
              assert (capacity b < grown_capacity b)
                by (unfold grown_capacity; lia).
              apply pushed_wf.
              ** apply resized_wf; [assumption | lia | auto].
              ** unfold resized. cbn [position capacity]. lia.
           ++ exists (- ENOSPC), (rejected b). split; [reflexivity |].
              split; [apply wf_set_stats; assumption |].
              intros _. apply same_store_set_stats.
    + exists (- EFAULT), b. split; [apply buffer_write_fault; assumption |].
      split; [assumption | intros _; apply same_store_refl].
  - exists (- EINVAL), b. split; [apply buffer_write_bad_count; assumption |].
    split; [assumption | intros _; apply same_store_refl].
Qed.

Lemma buffer_read_sound u count b :
  wf b ->
  exists st out b', Lab4.buffer_read u count b = Done (st, out, b') /\
                    sound_outcome b st b'.
Proof.
  intros Hwf. unfold sound_outcome.
  destruct (Z.lt_ge_cases count sizeof_int) as [Hshort | Hlong].
  - exists (- EINVAL), None, b. split; [apply buffer_read_short; assumption |].
    split; [assumption | intros _; apply same_store_refl].
  - destruct (Z.eq_dec (position b) 0) as [Hz | Hnz].
    + exists 0, None, (starved b).
      split; [apply buffer_read_empty; assumption |].
      split; [apply wf_set_stats; assumption | lia].
    + assert (0 < position b) as Hpos by (destruct Hwf; lia).
      destruct (contents_top b Hwf Hpos) as (c & v & Hc).
      destruct (u_writable u) eqn:Hu.
      * exists sizeof_int, (Some v), (popped b).
        split; [eapply buffer_read_top; eauto |].
        split; [apply popped_wf; assumption | unfold sizeof_int; lia].
      * exists (- EFAULT), None, b.
        split; [eapply buffer_read_fault; eauto |].
        split; [assumption | intros _; apply same_store_refl].
Qed.

Lemma buffer_ioctl_sound kz cmd u b :
  wf b -> granted_fits kz -> user_int_ok u ->
  exists st out b', Lab4.buffer_ioctl kz cmd u b = Done (st, out, b') /\
                    sound_outcome b st b'.
Proof.
  intros Hwf Hkz Hu. unfold sound_outcome.
  assert (forall st (out : option Z), st < 0 ->
            exists st' out' b', Done (st, out, b) = Done (st', out', b') /\
                                wf b' /\ (st' < 0 -> same_store b b'))
    as Hsame.
  { intros st out _. exists st, out, b. split; [reflexivity |].
    split; [assumption | intros _; apply same_store_refl]. }
  destruct (Z.eq_dec cmd INT_STACK_SET_MAX_SIZE) as [-> | Hset].
  - destruct (u_fetch u) as [k |] eqn:Hk.
    + destruct (Z.lt_ge_cases k 0) as [Hneg | Hnn].
      * unfold Lab4.buffer_ioctl. rewrite Z.eqb_refl, Hk.
        destruct (Z.ltb_spec k 0); [| lia].
        apply Hsame. unfold EINVAL. lia.
      * assert (0 <= k <= INT_MAX) as Hrange.
        { unfold user_int_ok in Hu. rewrite Hk in Hu.
          unfold is_int in Hu. lia. }
        rewrite (buffer_ioctl_set_capacity kz u k b) by assumption.
        destruct (Z.eqb_spec k 0) as [-> | Hk0].
        -- eexists _, _, _. split; [reflexivity |].
           split; [apply wf_released | lia].
        -- destruct (kz (sizeof_int * k)) eqn:Hg.
           ++ eexists _, _, _. split; [reflexivity |].
              split; [apply resized_wf; auto; lia | lia].
           ++ apply Hsame. unfold ENOMEM. lia.
    + unfold Lab4.buffer_ioctl. rewrite Z.eqb_refl, Hk.
      apply Hsame. unfold EFAULT. lia.
  - unfold Lab4.buffer_ioctl.
    destruct (Z.eqb_spec cmd INT_STACK_SET_MAX_SIZE); [contradiction |].
    destruct (cmd =? CMD_GET_CAPACITY).
    { destruct (u_writable u).
      - eexists _, _, _. split; [reflexivity |]. split; [assumption | lia].
      - apply Hsame. unfold EFAULT. lia. }
    destruct (cmd =? CMD_GET_USAGE).
    { destruct (u_writable u).
      - eexists _, _, _. split; [reflexivity |]. split; [assumption | lia].
      - apply Hsame. unfold EFAULT. lia. }
    destruct (cmd =? CMD_CLEAR_BUFFER).
    { eexists _, _, _. split; [reflexivity |].
      split; [apply wf_cleared; assumption | lia]. }
    apply Hsame. unfold ENOTTY. lia.
Qed.

Lemma call_sound ear kz r b :
  wf b -> granted_fits kz -> request_ok r ->
  exists st out b', Lab4.call ear kz r b = Done (st, out, b') /\
                    sound_outcome b st b'.
Proof.
  intros Hwf Hkz Hr. destruct r as [u count | u count | cmd u].
  - destruct (buffer_write_sound ear kz u count b Hwf Hkz)
      as (st & b' & Hrun & Hsound).
    exists st, None, b'. unfold Lab4.call. rewrite Hrun. auto.
  - apply buffer_read_sound. assumption.
  - apply buffer_ioctl_sound; assumption.
Qed.

(** ** Sequences of calls *)

Lemma run_app ear rs1 rs2 b :
  Lab4.run ear (rs1 ++ rs2) b =
    perform x <- Lab4.run ear rs1 b;
    perform y <- Lab4.run ear rs2 (snd x);
    Done (fst x ++ fst y, snd y).
Proof.
  revert b. induction rs1 as [| [kz r] rs1 IH]; intros b.
  - cbn [app Lab4.run bind fst snd]. destruct (Lab4.run ear rs2 b) as [[o b'] |];
      reflexivity.
  - cbn [app Lab4.run]. destruct (Lab4.call ear kz r b) as [x |]; [| reflexivity].
    cbn [bind]. rewrite IH.
    destruct (Lab4.run ear rs1 (snd x)) as [y |]; [| reflexivity].
    cbn [bind fst snd].
    destruct (Lab4.run ear rs2 (snd y)) as [z |]; reflexivity.
Qed.

Lemma call_push_room ear kz v b :
  wf b -> position b < capacity b ->
  Lab4.call ear kz (push v) b = Done (sizeof_int, None, pushed v b).
Proof.
  intros Hwf Hlt. unfold Lab4.call, push.
  rewrite (buffer_write_room ear kz _ v b) by auto. reflexivity.
Qed.

Lemma call_pop_top ear kz b c v :
  wf b -> contents b = c ++ [v] ->
  Lab4.call ear kz pop b = Done (sizeof_int, Some v, popped b).
Proof.
  intros Hwf Hc. unfold Lab4.call, pop.
  eapply buffer_read_top; eauto. lia.
Qed.

(** Pushes that fit all succeed and pile up in order. *)
Lemma run_pushes ear kz vs b :
  wf b -> position b + Z.of_nat (length vs) <= capacity b ->
  exists b', Lab4.run ear (map (fun v => (kz, push v)) vs) b =
               Done (map (fun _ => (sizeof_int, None)) vs, b') /\
             wf b' /\ contents b' = contents b ++ vs /\
             capacity b' = capacity b.
Proof.
  revert b. induction vs as [| v vs IH]; intros b Hwf Hfit.
  - exists b. cbn. rewrite app_nil_r. auto.
  - cbn [length] in Hfit.
    assert (position b < capacity b) as Hlt by lia.
    destruct (IH (pushed v b)) as (b' & Hrun & Hwf' & Hc' & Hcap').
    { apply pushed_wf; assumption. }
    { unfold pushed at 1 2. cbn [position capacity]. lia. }
    exists b'. cbn [map Lab4.run].
    rewrite call_push_room by assumption. cbn [bind snd fst].
    rewrite Hrun. cbn [bind snd fst].
    rewrite Hc', pushed_contents, <- app_assoc by assumption.
    auto.
Qed.

(** Pops hand the top of the stack back, last pushed first. *)
Lemma run_pops ear kz vs : forall b c,
  wf b -> contents b = c ++ vs ->
  exists b', Lab4.run ear (replicate (length vs) (kz, pop)) b =
               Done (map (fun v => (sizeof_int, Some v)) (rev vs), b') /\
             wf b' /\ contents b' = c /\ capacity b' = capacity b.
Proof.
  induction vs as [| v vs IH] using rev_ind; intros b c Hwf Hc.
  - exists b. cbn. rewrite app_nil_r in Hc. auto.
  - rewrite app_assoc in Hc.
    assert (0 < position b) as Hpos.
    { pose proof (wf_contents_length b Hwf) as Hlen.
      rewrite Hc, length_app in Hlen. cbn [length] in Hlen. lia. }
    destruct (IH (popped b) c) as (b' & Hrun & Hwf' & Hc' & Hcap').
    { apply popped_wf; assumption. }
    { eapply popped_contents; eauto. }
    exists b'. rewrite length_app, Nat.add_comm, rev_app_distr.
    cbn [length Nat.add replicate rev app map Lab4.run].
    rewrite (call_pop_top ear kz b (c ++ vs) v) by assumption.
    cbn [bind snd fst]. rewrite Hrun. cbn [bind snd fst]. auto.
Qed.

(** An occupied slot reads as the corresponding entry of [contents]. *)
Lemma load_occupied b i :
  0 <= i < position b ->
  load (elements b) i =
    match contents b !! Z.to_nat i with
    | Some v => Done v
    | None => Oops
    end.
Proof.
  intros Hi. unfold load, contents. destruct (elements b) as [a |].
  - rewrite lookup_take_lt by lia. reflexivity.
  - reflexivity.
Qed.

Lemma integer_buffer_init_sound default_capacity dev_granted misc_register kz :
  is_int default_capacity -> granted_fits kz ->
  exists st ob,
    Lab4.integer_buffer_init default_capacity dev_granted misc_register kz =
      Done (st, ob) /\
    forall b0, ob = Some b0 -> wf b0.
Proof.
  intros Hdc Hkz. unfold Lab4.integer_buffer_init.
  destruct dev_granted; cbn [negb].
  2: { eexists _, _. split; [reflexivity | discriminate]. }
  destruct (misc_register <? 0).
  { eexists _, _. split; [reflexivity | discriminate]. }
  destruct (Z.ltb_spec 0 default_capacity) as [Hpos | Hnpos].
  - rewrite resize_buffer_cases;
      [| apply wf_released | lia
       | unfold is_int, INT_MAX, sizeof_int, SIZE_MAX in *; lia].
    destruct (Z.eqb_spec default_capacity 0); [lia |].
    destruct (kz (sizeof_int * default_capacity)) eqn:Hg; cbn [bind fst snd].
    + change (0 <? 0) with false. cbv iota.
      eexists _, _. split; [reflexivity |].
      intros b0 [= <-]. apply resized_wf; [apply wf_released | lia | auto].
    + change (- ENOMEM <? 0) with true. cbv iota.
      eexists _, _. split; [reflexivity | discriminate].
  - eexists _, _. split; [reflexivity |].
    intros b0 [= <-]. apply wf_released.
Qed.

Lemma run_sound ear rs : forall b,
  wf b -> Forall (fun x => granted_fits (fst x) /\ request_ok (snd x)) rs ->
  exists outs b', Lab4.run ear rs b = Done (outs, b') /\ wf b'.
Proof.
  induction rs as [| [kz r] rs IH]; intros b Hwf Hrs.
  - exists [], b. auto.
  - apply Forall_cons in Hrs. destruct Hrs as ((Hkz & Hr) & Hrs).
    destruct (call_sound ear kz r b Hwf Hkz Hr)
      as (st & out & b1 & Hcall & Hwf1 & _).
    destruct (IH b1 Hwf1 Hrs) as (outs & b' & Hrun & Hwf').
    exists ((st, out) :: outs), b'. cbn [Lab4.run].
    rewrite Hcall. cbn [bind fst snd]. rewrite Hrun. auto.
Qed.

(** ** The gated driver on top of the plain one *)

(** With the key present, the gated entry points are the plain ones run on
    [dev_buffer]. *)
Lemma present_buffer_write ear kz u count d :
  Lab5.usb_key_present d <> 0 ->
  Lab5.buffer_write ear kz u count d =
    perform r <- Lab4.buffer_write ear kz u count (Lab5.dev_buffer d);
    Done (fst r, Lab5.set_dev_buffer d (snd r)).
Proof.
  intros Hp. unfold Lab5.buffer_write.
  destruct (Z.eqb_spec (Lab5.usb_key_present d) 0); [contradiction |].
  reflexivity.
Qed.

Lemma present_buffer_read u count d :
  Lab5.usb_key_present d <> 0 ->
  Lab5.buffer_read u count d =
    perform r <- Lab4.buffer_read u count (Lab5.dev_buffer d);
    Done (fst r, Lab5.set_dev_buffer d (snd r)).
Proof.
  intros Hp. unfold Lab5.buffer_read.
  destruct (Z.eqb_spec (Lab5.usb_key_present d) 0); [contradiction |].
  reflexivity.
Qed.

Lemma present_buffer_ioctl kz cmd u d :
  Lab5.usb_key_present d <> 0 ->
  Lab5.buffer_ioctl kz cmd u d =
    perform r <- Lab4.buffer_ioctl kz cmd u (Lab5.dev_buffer d);
    Done (fst r, Lab5.set_dev_buffer d (snd r)).
Proof.
  intros Hp. unfold Lab5.buffer_ioctl.
  destruct (Z.eqb_spec (Lab5.usb_key_present d) 0); [contradiction |].
  reflexivity.
Qed.

(** Plugging and unplugging never touch the device structure. *)
Lemma pen_probe_keeps_buffer vid pid v p m d :
  Lab5.dev_buffer (snd (Lab5.pen_probe vid pid v p m d)) = Lab5.dev_buffer d.
Proof.
  unfold Lab5.pen_probe, Lab5.register_device.
  destruct (negb (v =? vid) || negb (p =? pid)); [reflexivity |].
  cbn [Lab5.set_usb_key_present Lab5.device_registered].
  destruct (negb (Lab5.device_registered d =? 0)); cbn [fst snd].
  - change (0 <? 0) with false. reflexivity.
  - destruct (m <? 0) eqn:Hm; cbn [fst snd].
    + rewrite Hm. reflexivity.
    + change (0 <? 0) with false. reflexivity.
Qed.

Lemma pen_disconnect_keeps_buffer vid pid v p d :
  Lab5.dev_buffer (Lab5.pen_disconnect vid pid v p d) = Lab5.dev_buffer d.
Proof.
  unfold Lab5.pen_disconnect, Lab5.unregister_device.
  destruct (negb (v =? vid) || negb (p =? pid)); [reflexivity |].
  cbn [Lab5.set_usb_key_present Lab5.device_registered].
  destruct (negb (Lab5.device_registered d =? 0)); reflexivity.
Qed.

(** The module starts with the key absent. *)
Lemma integer_buffer_init_absent dc g kz ur st d :
  Lab5.integer_buffer_init dc g kz ur = Done (st, Some d) ->
  Lab5.usb_key_present d = 0 /\ Lab5.device_registered d = 0.
Proof.
  unfold Lab5.integer_buffer_init.
  destruct (Lab5.initialize_buffer dc g kz) as [[r ob] |]; [| discriminate].
  cbn [bind fst snd]. destruct ob as [b |]; [| discriminate].
  destruct (ur <? 0); [discriminate |].
  intros [= _ <-]. auto.
Qed.

(** * The properties of the specification *)

(** C1 (LIFO law).  On a well-formed buffer with room for all of [vs],
    pushing the values of [vs] one after the other and then popping as many
    times returns them in the reverse order of insertion: every push and
    every pop succeeds, each pop yields the most recently pushed value still
    in the buffer, and the buffer ends with the contents it started with. *)
Theorem lifo_order ear kz vs b :
  wf b -> position b + Z.of_nat (length vs) <= capacity b ->
  exists b',
    Lab4.run ear (map (fun v => (kz, push v)) vs ++
                  replicate (length vs) (kz, pop)) b =
      Done (map (fun _ => (sizeof_int, None)) vs ++
            map (fun v => (sizeof_int, Some v)) (rev vs), b') /\
    contents b' = contents b /\ position b' = position b.
Proof.
  intros Hwf Hfit.
  destruct (run_pushes ear kz vs b Hwf Hfit) as (b1 & Hrun1 & Hwf1 & Hc1 & _).
  destruct (run_pops ear kz vs b1 (contents b) Hwf1 Hc1)
    as (b2 & Hrun2 & Hwf2 & Hc2 & _).
  exists b2. rewrite run_app, Hrun1. cbn [bind fst snd].
  rewrite Hrun2. cbn [bind fst snd].
  split; [reflexivity |]. split; [assumption |].
  rewrite <- (wf_contents_length b2), <- (wf_contents_length b) by assumption.
  rewrite Hc2. reflexivity.
Qed.

(** C2 (resize policy).  A resize of a well-formed buffer to [k > 0] that the
    allocator grants succeeds and sets the capacity to [k].  When [k] is
    below the number of occupied slots, the count becomes [k] and the buffer
    holds exactly the [k] oldest values, in their order; otherwise the count
    and the values are unchanged.  In both cases every slot that is still
    occupied reads as it did before, at the same index.  The set-capacity
    command with argument [k] is that resize. *)
Theorem resize_keeps_oldest kz k b :
  wf b -> 0 < k -> sizeof_int * k <= SIZE_MAX ->
  kz (sizeof_int * k) = true ->
  exists b',
    Lab4.resize_buffer kz k b = Done (0, b') /\
    capacity b' = k /\
    (k < position b ->
       position b' = k /\ contents b' = take (Z.to_nat k) (contents b)) /\
    (position b <= k ->
       position b' = position b /\ contents b' = contents b) /\
    (forall i, 0 <= i < position b' ->
       load (elements b') i = load (elements b) i) /\
    (forall u, u_fetch u = Some k -> k <= INT_MAX ->
       Lab4.buffer_ioctl kz INT_STACK_SET_MAX_SIZE u b = Done (0, None, b')).
Proof.
  intros Hwf Hk Hfit Hkz. exists (resized k b).
  pose proof (wf_contents_length b Hwf) as Hlen.
  pose proof (resized_contents k b Hwf Hk) as Hc.
  split; [apply resize_buffer_granted; assumption |].
  split; [reflexivity |].
  assert (position (resized k b) = Z.min (position b) k) as Hpos
    by reflexivity.
  split; [| split; [| split]].
  - intros Hlt. split; [lia | assumption].
  - intros Hle. split; [lia |]. rewrite Hc. apply take_ge. lia.
  - intros i Hi. rewrite !load_occupied by lia. rewrite Hc.
    rewrite lookup_take_lt by lia. reflexivity.
  - intros u Hu Hint.
    rewrite (buffer_ioctl_set_capacity kz u k b) by (assumption || lia).
    destruct (Z.eqb_spec k 0); [lia |]. rewrite Hkz. reflexivity.
Qed.

(** C3 (presence gate).  While [usb_key_present] is 0, opening the device,
    pushing, popping and every control command fail with [-ENODEV], and the
    whole module state (flags, store and statistics) is returned as it
    was. *)
Theorem absent_rejects_every_call ear kz u count cmd d :
  Lab5.usb_key_present d = 0 ->
  Lab5.buffer_open d = - ENODEV /\
  Lab5.buffer_write ear kz u count d = Done (- ENODEV, d) /\
  Lab5.buffer_read u count d = Done (- ENODEV, None, d) /\
  Lab5.buffer_ioctl kz cmd u d = Done (- ENODEV, None, d).
Proof.
  intros Habsent.
  unfold Lab5.buffer_open, Lab5.buffer_write, Lab5.buffer_read,
    Lab5.buffer_ioctl.
  rewrite Habsent. cbn. auto.
Qed.

(** C4 (push on a full buffer).  Let the buffer be well formed and full.
    With automatic growth off, a push returns [-ENOSPC], leaves the store as
    it is (so the count still equals the capacity) and increments
    [overflow_count].  With automatic growth on, the push resizes to
    [max(capacity * 2, 8)]; when the resize fails the push returns [-ENOSPC]
    (not [-ENOMEM]) with the store untouched and [overflow_count]
    incremented; otherwise it succeeds, stores the value at the old count,
    and increments the count and [push_count].  An increment is one
    [atomic_inc] of that counter, which is [+ 1] below [INT_MAX], and leaves
    the other three counters as they were. *)
Theorem push_on_full_buffer ear kz u v b :
  wf b -> granted_fits kz -> position b = capacity b -> u_fetch u = Some v ->
  exists st b',
    Lab4.buffer_write ear kz u sizeof_int b = Done (st, b') /\
    if ear =? 0 then
      st = - ENOSPC /\ same_store b b' /\ position b' = capacity b' /\
      overflow_count (stats b') = atomic_inc (overflow_count (stats b)) /\
      (INT_MIN <= overflow_count (stats b) < INT_MAX ->
         overflow_count (stats b') = overflow_count (stats b) + 1) /\
      push_count (stats b') = push_count (stats b) /\
      pop_count (stats b') = pop_count (stats b) /\
      underflow_count (stats b') = underflow_count (stats b)
    else
      exists r b1,
        Lab4.resize_buffer kz (Z.max (capacity b * 2) 8) b = Done (r, b1) /\
        if r <? 0 then
          st = - ENOSPC /\ same_store b b' /\
          overflow_count (stats b') = atomic_inc (overflow_count (stats b)) /\
          (INT_MIN <= overflow_count (stats b) < INT_MAX ->
             overflow_count (stats b') = overflow_count (stats b) + 1) /\
          push_count (stats b') = push_count (stats b) /\
          pop_count (stats b') = pop_count (stats b) /\
          underflow_count (stats b') = underflow_count (stats b)
        else
          st = sizeof_int /\
          capacity b1 = Z.max (capacity b * 2) 8 /\
          capacity b' = capacity b1 /\
          position b' = position b + 1 /\
          load (elements b') (position b) = Done v /\
          contents b' = contents b ++ [v] /\
          push_count (stats b') = atomic_inc (push_count (stats b)) /\
          (INT_MIN <= push_count (stats b) < INT_MAX ->
             push_count (stats b') = push_count (stats b) + 1) /\
          pop_count (stats b') = pop_count (stats b) /\
          overflow_count (stats b') = overflow_count (stats b) /\
          underflow_count (stats b') = underflow_count (stats b).
Proof.
  intros Hwf Hkz Hfull Hu. pose proof (wf_capacity_bound b Hwf) as Hcap.
  destruct (Z.eqb_spec ear 0) as [-> | Hear].
  - exists (- ENOSPC), (rejected b).
    split; [eapply buffer_write_full_fixed; eauto; lia |].
    split; [reflexivity |]. split; [apply same_store_set_stats |].
    split; [exact Hfull | apply inc_overflow_counts; reflexivity].
  - rewrite (buffer_write_full_grow ear kz u v b) by assumption.
    fold (grown_capacity b).
    assert (8 <= grown_capacity b < 2 ^ 62 /\ capacity b < grown_capacity b)
      as (Hg & Hgt) by (unfold grown_capacity; lia).
    rewrite resize_buffer_cases
      by (try assumption; unfold sizeof_int, SIZE_MAX; lia).
    destruct (Z.eqb_spec (grown_capacity b) 0); [lia |].
    destruct (kz (sizeof_int * grown_capacity b)) eqn:Hgrant.
    + set (b1 := resized (grown_capacity b) b).
      assert (wf b1) as Hwf1 by (apply resized_wf; [assumption | lia | auto]).
      assert (position b1 = position b) as Hp1
        by (unfold b1, resized; cbn [position]; lia).
      assert (position b1 < capacity b1) as Hroom
        by (unfold b1, resized in *; cbn [position capacity] in *; lia).
      assert (contents b1 = contents b) as Hc1.
      { unfold b1. rewrite resized_contents by (assumption || lia).
        apply take_ge. pose proof (wf_contents_length b Hwf). lia. }
      exists sizeof_int, (pushed v b1). split; [reflexivity |].
      exists 0, b1. split; [reflexivity |].
      change (0 <? 0) with false. cbv iota.
      pose proof (pushed_contents v b1 Hwf1 Hroom) as Hc'.
      pose proof (wf_contents_length b Hwf) as Hlen.
      do 3 (split; [reflexivity |]).
      split; [unfold pushed; cbn [position]; lia |].
      split; [| split].
      * rewrite load_occupied
          by (unfold pushed; cbn [position]; destruct Hwf; lia).
        rewrite Hc', Hc1.
        replace (Z.to_nat (position b)) with (length (contents b)) by lia.
        rewrite list_lookup_middle by reflexivity. reflexivity.
      * rewrite Hc', Hc1. reflexivity.
      * apply inc_push_counts. reflexivity.
    + exists (- ENOSPC), (rejected b). split; [reflexivity |].
      exists (- ENOMEM), b. split; [reflexivity |].
      change (- ENOMEM <? 0) with true. cbv iota.
      split; [reflexivity |].
      split; [apply same_store_set_stats
             | apply inc_overflow_counts; reflexivity].
Qed.

(** C5 (pop on an empty buffer).  A read of at least [sizeof(int)] bytes on
    a buffer whose count is 0 returns 0 bytes and hands nothing back; the
    store is unchanged, the count stays 0, and [underflow_count] is
    incremented once (by [atomic_inc], which is [+ 1] below [INT_MAX])
    while the other counters keep their values. *)
Theorem pop_on_empty_buffer u count b :
  position b = 0 -> sizeof_int <= count ->
  exists b',
    Lab4.buffer_read u count b = Done (0, None, b') /\
    same_store b b' /\ position b' = 0 /\
    underflow_count (stats b') = atomic_inc (underflow_count (stats b)) /\
    (INT_MIN <= underflow_count (stats b) < INT_MAX ->
       underflow_count (stats b') = underflow_count (stats b) + 1) /\
    push_count (stats b') = push_count (stats b) /\
    pop_count (stats b') = pop_count (stats b) /\
    overflow_count (stats b') = overflow_count (stats b).
Proof.
  intros Hp Hc. exists (starved b).
  split; [apply buffer_read_empty; assumption |].
  split; [apply same_store_set_stats |].
  split; [exact Hp |]. split; [reflexivity |].
  split; [| repeat split].
  intros Hrange. apply atomic_inc_below. assumption.
Qed.

(** C6 (set-capacity 0).  From any state of the device structure, the
    set-capacity command with argument 0 returns 0, drops the array and
    leaves capacity 0 and count 0.  Afterwards get-usage and get-capacity
    both report 0, and with automatic growth off every write fails and
    leaves the store as it is; a well-formed push fails with [-ENOSPC]. *)
Theorem set_capacity_zero_releases kz u b :
  u_fetch u = Some 0 ->
  exists b',
    Lab4.buffer_ioctl kz INT_STACK_SET_MAX_SIZE u b = Done (0, None, b') /\
    elements b' = None /\ capacity b' = 0 /\ position b' = 0 /\
    stats b' = stats b /\
    (forall kz' w, u_writable w = true ->
       Lab4.buffer_ioctl kz' CMD_GET_USAGE w b' = Done (0, Some 0, b') /\
       Lab4.buffer_ioctl kz' CMD_GET_CAPACITY w b' = Done (0, Some 0, b')) /\
    (forall kz' w count,
       exists st b'',
         Lab4.buffer_write 0 kz' w count b' = Done (st, b'') /\
         st < 0 /\ same_store b' b'' /\
         (count = sizeof_int -> u_fetch w <> None -> st = - ENOSPC)).
Proof.
  intros Hu.
  exists {| elements := None; capacity := 0; position := 0; stats := stats b |}.
  split.
  { unfold Lab4.buffer_ioctl. rewrite Z.eqb_refl, Hu. reflexivity. }
  do 4 (split; [reflexivity |]). split.
  - intros kz' w Hw.
    rewrite buffer_ioctl_get_usage, buffer_ioctl_get_capacity by assumption.
    split; reflexivity.
  - intros kz' w count.
    destruct (Z.eq_dec count sizeof_int) as [-> | Hc].
    + destruct (u_fetch w) as [v |] eqn:Hw.
      * eexists _, _. split.
        -- apply (buffer_write_full_fixed kz' w v); [cbn; lia | assumption].
        -- split; [unfold ENOSPC; lia |].
           split; [apply same_store_set_stats | reflexivity].
      * eexists _, _. split; [apply buffer_write_fault; assumption |].
        split; [unfold EFAULT; lia |].
        split; [apply same_store_refl | congruence].
    + eexists _, _. split; [apply buffer_write_bad_count; assumption |].
      split; [unfold EINVAL; lia |].
      split; [apply same_store_refl | congruence].
Qed.

(** C7 (count within capacity).  Loading the module always returns; when it
    succeeds, the device structure satisfies [0 <= position <= capacity],
    and so does the structure after any sequence of writes, reads and
    control commands, each of which returns. *)
Theorem count_within_capacity default_capacity dev_granted misc_register kz0 :
  is_int default_capacity -> granted_fits kz0 ->
  exists st ob,
    Lab4.integer_buffer_init default_capacity dev_granted misc_register kz0 =
      Done (st, ob) /\
    forall b0, ob = Some b0 ->
      0 <= position b0 <= capacity b0 /\
      forall ear rs,
        Forall (fun x => granted_fits (fst x) /\ request_ok (snd x)) rs ->
        exists outs b,
          Lab4.run ear rs b0 = Done (outs, b) /\
          0 <= position b <= capacity b.
Proof.
  intros Hdc Hkz.
  destruct (integer_buffer_init_sound default_capacity dev_granted
              misc_register kz0 Hdc Hkz) as (st & ob & Hinit & Hwf0).
  exists st, ob. split; [assumption |].
  intros b0 Hb0. specialize (Hwf0 b0 Hb0).
  split; [apply Hwf0 |].
  intros ear rs Hrs.
  destruct (run_sound ear rs b0 Hwf0 Hrs) as (outs & b & Hrun & Hwf).
  exists outs, b. split; [assumption | apply Hwf].
Qed.

(** C8 (failures are atomic).  On a well-formed buffer every call returns,
    and a call that returns a negative status leaves [elements], [capacity]
    and [position] exactly as they were.  In particular a resize whose
    allocation is refused returns [-ENOMEM] with the buffer untouched, and
    a read whose copy to the caller faults returns [-EFAULT] with the count
    restored. *)
Theorem failure_leaves_store_unchanged ear kz r b :
  wf b -> granted_fits kz -> request_ok r ->
  (exists st out b',
     Lab4.call ear kz r b = Done (st, out, b') /\
     (st < 0 -> same_store b b')) /\
  (forall k, 0 < k -> sizeof_int * k <= SIZE_MAX ->
     kz (sizeof_int * k) = false ->
     Lab4.resize_buffer kz k b = Done (- ENOMEM, b)) /\
  (forall u count, 0 < position b -> sizeof_int <= count ->
     u_writable u = false ->
     Lab4.buffer_read u count b = Done (- EFAULT, None, b)).
Proof.
  intros Hwf Hkz Hr. split; [| split].
  - destruct (call_sound ear kz r b Hwf Hkz Hr)
      as (st & out & b' & Hcall & _ & Hsame).
    exists st, out, b'. auto.
  - intros k Hk Hfit Hrefused. apply resize_buffer_refused; assumption.
  - intros u count Hpos Hcount Hu.
    destruct (contents_top b Hwf Hpos) as (c & v & Hc).
    eapply buffer_read_fault; eauto.
Qed.

(** C9 (round trip).  On a well-formed buffer with room, a push of [v]
    followed at once by a pop hands [v] back and leaves the count, and the
    values below, as they were before the push. *)
Theorem push_then_pop ear kz u1 u2 v count b :
  wf b -> position b < capacity b -> u_fetch u1 = Some v ->
  u_writable u2 = true -> sizeof_int <= count ->
  exists b1 b2,
    Lab4.buffer_write ear kz u1 sizeof_int b = Done (sizeof_int, b1) /\
    Lab4.buffer_read u2 count b1 = Done (sizeof_int, Some v, b2) /\
    position b2 = position b /\ contents b2 = contents b.
Proof.
  intros Hwf Hroom Hu1 Hu2 Hcount.
  pose proof (pushed_wf v b Hwf Hroom) as Hwf1.
  pose proof (pushed_contents v b Hwf Hroom) as Hc1.
  exists (pushed v b), (popped (pushed v b)).
  split; [eapply buffer_write_room; eauto |].
  split; [eapply buffer_read_top; eauto |].
  split.
  - unfold popped, pushed. cbn [position]. lia.
  - eapply popped_contents; eauto.
Qed.

(** C10 (byte counts).  A read of fewer than [sizeof(int)] bytes and a
    write of any number of bytes other than [sizeof(int)] return [-EINVAL]
    and hand back the device structure, statistics included, exactly as it
    was. *)
Theorem bad_byte_count_rejected ear kz u count b :
  (count < sizeof_int ->
     Lab4.buffer_read u count b = Done (- EINVAL, None, b)) /\
  (count <> sizeof_int ->
     Lab4.buffer_write ear kz u count b = Done (- EINVAL, b)).
Proof.
  split.
  - apply buffer_read_short.
  - apply buffer_write_bad_count.
Qed.

(** ** The scenarios of the specification, run on the embedding *)

(** Capacity 2, growth off: two pushes fit, the third overflows, then the
    pops return 2, 1 and nothing. *)
Example scenario_capacity_two :
  exists b,
    Lab4.run 0
      (map (fun r => (page_allocator, r))
           [set_capacity 2; push 1; push 2; push 3; pop; pop; pop])
      {| elements := None; capacity := 0; position := 0; stats := init_stats |}
    = Done ([(0, None); (sizeof_int, None); (sizeof_int, None);
             (- ENOSPC, None); (sizeof_int, Some 2); (sizeof_int, Some 1);
             (0, None)], b).
Proof. eexists. vm_compute. reflexivity. Qed.

(** Growth on, capacity 0: the first push grows the buffer to 8 slots. *)
Example scenario_first_push_grows :
  exists b,
    Lab4.run 1
      (map (fun r => (page_allocator, r)) [push 5; get_usage; get_capacity])
      {| elements := None; capacity := 0; position := 0; stats := init_stats |}
    = Done ([(sizeof_int, None); (0, Some 1); (0, Some 8)], b).
Proof. eexists. vm_compute. reflexivity. Qed.

(** ** The theorems at concrete inputs *)

Lemma lifo_order_witness :
  wf empty_buffer /\
  position empty_buffer + Z.of_nat (length [1; 2; 3]) <= capacity empty_buffer /\
  exists b',
    Lab4.run 0 (map (fun v => (no_memory, push v)) [1; 2; 3] ++
                replicate (length [1; 2; 3]) (no_memory, pop)) empty_buffer =
      Done (map (fun _ => (sizeof_int, None)) [1; 2; 3] ++
            map (fun v => (sizeof_int, Some v)) (rev [1; 2; 3]), b') /\
    contents b' = contents empty_buffer /\ position b' = position empty_buffer.
Proof.
  split; [concrete_wf |]. split; [cbn; lia |].
  apply (lifo_order 0 no_memory [1; 2; 3] empty_buffer);
    [concrete_wf | cbn; lia].
Defined.

Lemma resize_keeps_oldest_witness :
  wf sample_buffer /\ 0 < 2 /\ sizeof_int * 2 <= SIZE_MAX /\
  page_allocator (sizeof_int * 2) = true /\
  exists b',
    Lab4.resize_buffer page_allocator 2 sample_buffer = Done (0, b') /\
    capacity b' = 2 /\
    (2 < position sample_buffer ->
       position b' = 2 /\
       contents b' = take (Z.to_nat 2) (contents sample_buffer)) /\
    (position sample_buffer <= 2 ->
       position b' = position sample_buffer /\
       contents b' = contents sample_buffer) /\
    (forall i, 0 <= i < position b' ->
       load (elements b') i = load (elements sample_buffer) i) /\
    (forall u, u_fetch u = Some 2 -> 2 <= INT_MAX ->
       Lab4.buffer_ioctl page_allocator INT_STACK_SET_MAX_SIZE u sample_buffer =
         Done (0, None, b')).
Proof.
  split; [concrete_wf |]. split; [lia |].
  split; [vm_compute; discriminate |]. split; [reflexivity |].
  apply (resize_keeps_oldest page_allocator 2 sample_buffer);
    [concrete_wf | lia | vm_compute; discriminate | reflexivity].
Defined.

Lemma absent_rejects_every_call_witness :
  Lab5.usb_key_present unplugged = 0 /\
  Lab5.buffer_open unplugged = - ENODEV /\
  Lab5.buffer_write 1 page_allocator (user_cell 7) sizeof_int unplugged =
    Done (- ENODEV, unplugged) /\
  Lab5.buffer_read (user_cell 7) sizeof_int unplugged =
    Done (- ENODEV, None, unplugged) /\
  Lab5.buffer_ioctl page_allocator CMD_CLEAR_BUFFER (user_cell 7) unplugged =
    Done (- ENODEV, None, unplugged).
Proof.
  split; [reflexivity |].
  apply (absent_rejects_every_call 1 page_allocator (user_cell 7) sizeof_int
           CMD_CLEAR_BUFFER unplugged).
  reflexivity.
Defined.

Lemma push_on_full_buffer_witness :
  wf full_buffer /\ granted_fits page_allocator /\
  position full_buffer = capacity full_buffer /\
  u_fetch (user_cell 7) = Some 7 /\
  exists st b',
    Lab4.buffer_write 1 page_allocator (user_cell 7) sizeof_int full_buffer =
      Done (st, b') /\
    exists r b1,
      Lab4.resize_buffer page_allocator
        (Z.max (capacity full_buffer * 2) 8) full_buffer = Done (r, b1) /\
      if r <? 0 then
        st = - ENOSPC /\ same_store full_buffer b' /\
        overflow_count (stats b') = atomic_inc (overflow_count (stats full_buffer)) /\
        (INT_MIN <= overflow_count (stats full_buffer) < INT_MAX ->
           overflow_count (stats b') = overflow_count (stats full_buffer) + 1) /\
        push_count (stats b') = push_count (stats full_buffer) /\
        pop_count (stats b') = pop_count (stats full_buffer) /\
        underflow_count (stats b') = underflow_count (stats full_buffer)
      else
        st = sizeof_int /\
        capacity b1 = Z.max (capacity full_buffer * 2) 8 /\
        capacity b' = capacity b1 /\
        position b' = position full_buffer + 1 /\
        load (elements b') (position full_buffer) = Done 7 /\
        contents b' = contents full_buffer ++ [7] /\
        push_count (stats b') = atomic_inc (push_count (stats full_buffer)) /\
        (INT_MIN <= push_count (stats full_buffer) < INT_MAX ->
           push_count (stats b') = push_count (stats full_buffer) + 1) /\
        pop_count (stats b') = pop_count (stats full_buffer) /\
        overflow_count (stats b') = overflow_count (stats full_buffer) /\
        underflow_count (stats b') = underflow_count (stats full_buffer).
Proof.
  split; [concrete_wf |]. split; [concrete_allocator |].
  split; [reflexivity |]. split; [reflexivity |].
  apply (push_on_full_buffer 1 page_allocator (user_cell 7) 7 full_buffer);
    [concrete_wf | concrete_allocator | reflexivity | reflexivity].
Defined.

Lemma pop_on_empty_buffer_witness :
  position empty_buffer = 0 /\ sizeof_int <= 4 /\
  exists b',
    Lab4.buffer_read (user_cell 0) 4 empty_buffer = Done (0, None, b') /\
    same_store empty_buffer b' /\ position b' = 0 /\
    underflow_count (stats b') =
      atomic_inc (underflow_count (stats empty_buffer)) /\
    (INT_MIN <= underflow_count (stats empty_buffer) < INT_MAX ->
       underflow_count (stats b') =
         underflow_count (stats empty_buffer) + 1) /\
    push_count (stats b') = push_count (stats empty_buffer) /\
    pop_count (stats b') = pop_count (stats empty_buffer) /\
    overflow_count (stats b') = overflow_count (stats empty_buffer).
Proof.
  split; [reflexivity |]. split; [unfold sizeof_int; lia |].
  apply (pop_on_empty_buffer (user_cell 0) 4 empty_buffer);
    [reflexivity | unfold sizeof_int; lia].
Defined.

Lemma set_capacity_zero_releases_witness :
  u_fetch (user_cell 0) = Some 0 /\
  exists b',
    Lab4.buffer_ioctl page_allocator INT_STACK_SET_MAX_SIZE (user_cell 0)
      sample_buffer = Done (0, None, b') /\
    elements b' = None /\ capacity b' = 0 /\ position b' = 0 /\
    stats b' = stats sample_buffer /\
    (forall kz' w, u_writable w = true ->
       Lab4.buffer_ioctl kz' CMD_GET_USAGE w b' = Done (0, Some 0, b') /\
       Lab4.buffer_ioctl kz' CMD_GET_CAPACITY w b' = Done (0, Some 0, b')) /\
    (forall kz' w count,
       exists st b'',
         Lab4.buffer_write 0 kz' w count b' = Done (st, b'') /\
         st < 0 /\ same_store b' b'' /\
         (count = sizeof_int -> u_fetch w <> None -> st = - ENOSPC)).
Proof.
  split; [reflexivity |].
  apply (set_capacity_zero_releases page_allocator (user_cell 0) sample_buffer).
  reflexivity.
Defined.

Lemma count_within_capacity_witness :
  is_int 16 /\ granted_fits page_allocator /\
  exists st ob,
    Lab4.integer_buffer_init 16 true 0 page_allocator = Done (st, ob) /\
    forall b0, ob = Some b0 ->
      0 <= position b0 <= capacity b0 /\
      forall ear rs,
        Forall (fun x => granted_fits (fst x) /\ request_ok (snd x)) rs ->
        exists outs b,
          Lab4.run ear rs b0 = Done (outs, b) /\
          0 <= position b <= capacity b.
Proof.
  split; [unfold is_int, INT_MIN, INT_MAX; lia |].
  split; [concrete_allocator |].
  apply (count_within_capacity 16 true 0 page_allocator);
    [unfold is_int, INT_MIN, INT_MAX; lia | concrete_allocator].
Defined.

Lemma failure_leaves_store_unchanged_witness :
  wf sample_buffer /\ granted_fits page_allocator /\
  request_ok (Lab4.Read bad_pointer 4) /\
  (exists st out b',
     Lab4.call 0 page_allocator (Lab4.Read bad_pointer 4) sample_buffer =
       Done (st, out, b') /\
     (st < 0 -> same_store sample_buffer b')) /\
  (forall k, 0 < k -> sizeof_int * k <= SIZE_MAX ->
     page_allocator (sizeof_int * k) = false ->
     Lab4.resize_buffer page_allocator k sample_buffer =
       Done (- ENOMEM, sample_buffer)) /\
  (forall u count, 0 < position sample_buffer -> sizeof_int <= count ->
     u_writable u = false ->
     Lab4.buffer_read u count sample_buffer =
       Done (- EFAULT, None, sample_buffer)).
Proof.
  split; [concrete_wf |]. split; [concrete_allocator |].
  split; [exact I |].
  apply (failure_leaves_store_unchanged 0 page_allocator
           (Lab4.Read bad_pointer 4) sample_buffer);
    [concrete_wf | concrete_allocator | exact I].
Defined.

Lemma push_then_pop_witness :
  wf sample_buffer /\ position sample_buffer < capacity sample_buffer /\
  u_fetch (user_cell 40) = Some 40 /\ u_writable (user_cell 0) = true /\
  sizeof_int <= 4 /\
  exists b1 b2,
    Lab4.buffer_write 0 no_memory (user_cell 40) sizeof_int sample_buffer =
      Done (sizeof_int, b1) /\
    Lab4.buffer_read (user_cell 0) 4 b1 = Done (sizeof_int, Some 40, b2) /\
    position b2 = position sample_buffer /\
    contents b2 = contents sample_buffer.
Proof.
  split; [concrete_wf |]. split; [cbn; lia |].
  split; [reflexivity |]. split; [reflexivity |].
  split; [unfold sizeof_int; lia |].
  apply (push_then_pop 0 no_memory (user_cell 40) (user_cell 0) 40 4
           sample_buffer);
    [concrete_wf | cbn; lia | reflexivity | reflexivity
     | unfold sizeof_int; lia].
Defined.

Lemma bad_byte_count_rejected_witness :
  3 < sizeof_int /\ 3 <> sizeof_int /\
  Lab4.buffer_read (user_cell 0) 3 sample_buffer =
    Done (- EINVAL, None, sample_buffer) /\
  Lab4.buffer_write 0 page_allocator (user_cell 9) 3 sample_buffer =
    Done (- EINVAL, sample_buffer).
Proof.
  split; [unfold sizeof_int; lia |]. split; [unfold sizeof_int; lia |].
  split.
  - apply (proj1 (bad_byte_count_rejected 0 page_allocator (user_cell 0) 3
                    sample_buffer)).
    unfold sizeof_int. lia.
  - apply (proj2 (bad_byte_count_rejected 0 page_allocator (user_cell 9) 3
                    sample_buffer)).
    unfold sizeof_int. lia.
Defined.

(** * Further properties of the driver *)

(** ** Every call as a function of capacity and contents *)

Lemma contents_last b c v : contents b = c ++ [v] -> last (contents b) = Some v.
Proof. intros ->. apply last_snoc. Qed.

Lemma contents_removelast b c v :
  contents b = c ++ [v] -> removelast (contents b) = c.
Proof. intros ->. apply removelast_last. Qed.

Lemma wf_empty_contents b : wf b -> position b = 0 -> contents b = [].
Proof.
  intros Hwf Hp. pose proof (wf_contents_length b Hwf) as Hlen.
  destruct (contents b); [reflexivity | simpl in Hlen; lia].
Qed.

Lemma contents_set_stats b s : contents (set_stats b s) = contents b.
Proof. reflexivity. Qed.

Lemma contents_cleared b : contents (set_position b 0) = [].
Proof.
  unfold contents, set_position. cbn [elements position].
  destruct (elements b); reflexivity.
Qed.

(** The outcome of a call: the call returns, with the status and value that
    [stack_call] computes, the capacity and contents it computes, and the
    statistics of [stats_call]. *)
Lemma call_stack ear kz r b :
  wf b -> granted_fits kz -> request_ok r ->
  exists b',
    Lab4.call ear kz r b =
      Done (fst (stack_call ear kz r (capacity b) (contents b)), b') /\
    wf b' /\
    capacity b' = fst (snd (stack_call ear kz r (capacity b) (contents b))) /\
    contents b' = snd (snd (stack_call ear kz r (capacity b) (contents b))) /\
    stats b' =
      stats_call r (fst (fst (stack_call ear kz r (capacity b) (contents b))))
        (stats b).
Proof.
  intros Hwf Hkz Hr.
  pose proof (wf_contents_length b Hwf) as Hlen.
  pose proof (wf_capacity_bound b Hwf) as Hcap.
  destruct r as [u count | u count | cmd u]; unfold stack_call, stats_call.
  - (* write *)
    unfold Lab4.call.
    destruct (Z.eqb_spec count sizeof_int) as [-> | Hc]; cbn [negb].
    2: { exists b. rewrite buffer_write_bad_count by assumption.
         call_outcome ltac:(assumption) ltac:(reflexivity). }
    destruct (u_fetch u) as [v |] eqn:Hu.
    2: { exists b. rewrite buffer_write_fault by assumption.
         call_outcome ltac:(assumption) ltac:(reflexivity). }
    rewrite Hlen.
    destruct (Z.ltb_spec (position b) (capacity b)) as [Hroom | Hfull].
    { exists (pushed v b). rewrite (buffer_write_room ear kz u v b) by auto.
      call_outcome ltac:(apply pushed_wf; assumption)
                   ltac:(apply pushed_contents; assumption). }
    assert (position b = capacity b) as Heq by (destruct Hwf; lia).
    destruct (Z.eqb_spec ear 0) as [-> | Hear]; cbn [negb andb].
    { exists (rejected b).
      rewrite (buffer_write_full_fixed kz u v b) by (assumption || lia).
      call_outcome ltac:(apply wf_set_stats; assumption) ltac:(reflexivity). }
    rewrite (buffer_write_full_grow ear kz u v b) by assumption.
    fold (grown_capacity b).
    assert (capacity b < grown_capacity b) by (unfold grown_capacity; lia).
    destruct (kz (sizeof_int * grown_capacity b)) eqn:Hg.
    + assert (wf (resized (grown_capacity b) b)) as Hwf1
        by (apply resized_wf; [assumption | lia | auto]).
      assert (position (resized (grown_capacity b) b) <
              capacity (resized (grown_capacity b) b)) as Hroom
        by (unfold resized; cbn [position capacity]; lia).
      exists (pushed v (resized (grown_capacity b) b)).
      call_outcome ltac:(apply pushed_wf; assumption) ltac:(idtac).
      rewrite pushed_contents by assumption.
      rewrite resized_contents by (assumption || lia).
      rewrite take_ge by lia. reflexivity.
    + exists (rejected b).
      call_outcome ltac:(apply wf_set_stats; assumption) ltac:(reflexivity).
  - (* read *)
    unfold Lab4.call.
    destruct (Z.ltb_spec count sizeof_int) as [Hshort | Hlong].
    { exists b. rewrite buffer_read_short by assumption.
      call_outcome ltac:(assumption) ltac:(reflexivity). }
    destruct (Z.eq_dec (position b) 0) as [Hz | Hnz].
    { rewrite (wf_empty_contents b Hwf Hz). cbn [last].
      exists (starved b). rewrite buffer_read_empty by assumption.
      call_outcome ltac:(apply wf_set_stats; assumption)
                   ltac:(apply (wf_empty_contents b Hwf Hz)). }
    assert (0 < position b) as Hpos by (destruct Hwf; lia).
    destruct (contents_top b Hwf Hpos) as (c & v & Hc).
    rewrite (contents_last b c v Hc), (contents_removelast b c v Hc).
    destruct (u_writable u) eqn:Hu.
    + exists (popped b). rewrite (buffer_read_top u count b c v) by assumption.
      call_outcome ltac:(apply popped_wf; assumption)
                   ltac:(eapply popped_contents; eauto).
    + exists b. rewrite (buffer_read_fault u count b c v) by assumption.
      call_outcome ltac:(assumption) ltac:(reflexivity).
  - (* ioctl *)
    unfold Lab4.call.
    destruct (Z.eqb_spec cmd INT_STACK_SET_MAX_SIZE) as [-> | Hset].
    { destruct (u_fetch u) as [k |] eqn:Hk.
      2: { exists b. unfold Lab4.buffer_ioctl. rewrite Z.eqb_refl, Hk.
           call_outcome ltac:(assumption) ltac:(reflexivity). }
      destruct (Z.ltb_spec k 0) as [Hneg | Hnn].
      { exists b. unfold Lab4.buffer_ioctl. rewrite Z.eqb_refl, Hk.
        destruct (Z.ltb_spec k 0); [| lia].
        call_outcome ltac:(assumption) ltac:(reflexivity). }
      assert (0 <= k <= INT_MAX) as Hrange.
      { unfold request_ok, user_int_ok in Hr. rewrite Hk in Hr.
        unfold is_int in Hr. lia. }
      rewrite (buffer_ioctl_set_capacity kz u k b) by assumption.
      destruct (Z.eqb_spec k 0) as [-> | Hk0].
      { eexists. call_outcome ltac:(apply wf_released) ltac:(reflexivity). }
      destruct (kz (sizeof_int * k)) eqn:Hg.
      - eexists.
        call_outcome ltac:(apply resized_wf; auto; lia)
                     ltac:(apply resized_contents; [assumption | lia]).
      - exists b. call_outcome ltac:(assumption) ltac:(reflexivity). }
    unfold Lab4.buffer_ioctl.
    destruct (Z.eqb_spec cmd INT_STACK_SET_MAX_SIZE); [contradiction |].
    destruct (cmd =? CMD_GET_CAPACITY).
    { destruct (u_writable u); exists b;
        call_outcome ltac:(assumption) ltac:(reflexivity). }
    destruct (cmd =? CMD_GET_USAGE).
    { rewrite Hlen.
      destruct (u_writable u); exists b;
        call_outcome ltac:(assumption) ltac:(reflexivity). }
    destruct (cmd =? CMD_CLEAR_BUFFER).
    { exists (set_position b 0).
      call_outcome ltac:(apply wf_cleared; assumption)
                   ltac:(apply contents_cleared). }
    exists b. call_outcome ltac:(assumption) ltac:(reflexivity).
Qed.

Lemma run_stack ear rs : forall b1 b2,
  wf b1 -> wf b2 -> same_stack b1 b2 ->
  Forall (fun x => granted_fits (fst x) /\ request_ok (snd x)) rs ->
  exists outs b1' b2',
    Lab4.run ear rs b1 = Done (outs, b1') /\
    Lab4.run ear rs b2 = Done (outs, b2') /\
    wf b1' /\ wf b2' /\ same_stack b1' b2'.
Proof.
  induction rs as [| [kz r] rs IH]; intros b1 b2 Hwf1 Hwf2 Hsame Hrs.
  - exists [], b1, b2. cbn. auto.
  - apply Forall_cons in Hrs. destruct Hrs as ((Hkz & Hr) & Hrs).
    destruct (call_stack ear kz r b1 Hwf1 Hkz Hr)
      as (c1 & Hcall1 & Hwfc1 & Hcap1 & Hcont1 & _).
    destruct (call_stack ear kz r b2 Hwf2 Hkz Hr)
      as (c2 & Hcall2 & Hwfc2 & Hcap2 & Hcont2 & _).
    destruct Hsame as (Hcap & Hcont). rewrite <- Hcap, <- Hcont in *.
    destruct (IH c1 c2 Hwfc1 Hwfc2) as (outs & b1' & b2' & H1 & H2 & Hrest).
    { split; congruence. }
    { assumption. }
    exists (fst (stack_call ear kz r (capacity b1) (contents b1)) :: outs),
      b1', b2'.
    cbn [Lab4.run]. rewrite Hcall1, Hcall2. cbn [bind fst snd].
    rewrite H1, H2. cbn [bind fst snd]. auto.
Qed.

(** X1.  Two well-formed buffers with the same capacity and the same
    occupied values answer every sequence of calls alike and still hold the
    same stack afterwards: whatever lies in the slots above the top, and
    the statistics, never show in what a call returns. *)
Theorem same_stack_same_answers ear rs b1 b2 :
  wf b1 -> wf b2 -> same_stack b1 b2 ->
  Forall (fun x => granted_fits (fst x) /\ request_ok (snd x)) rs ->
  exists outs b1' b2',
    Lab4.run ear rs b1 = Done (outs, b1') /\
    Lab4.run ear rs b2 = Done (outs, b2') /\
    same_stack b1' b2'.
Proof.
  intros Hwf1 Hwf2 Hsame Hrs.
  destruct (run_stack ear rs b1 b2 Hwf1 Hwf2 Hsame Hrs)
    as (outs & b1' & b2' & H1 & H2 & _ & _ & Hs).
  exists outs, b1', b2'. auto.
Qed.

(** X2.  The statuses a call can return.  A write returns [sizeof(int)],
    [-EINVAL], [-EFAULT] or [-ENOSPC]; a read returns [sizeof(int)], 0,
    [-EINVAL] or [-EFAULT]; a control command returns 0, [-EFAULT],
    [-EINVAL], [-ENOMEM] or [-ENOTTY].  In particular no call of the plain
    driver returns [-EBUSY], [-ERANGE] or [-ENODEV], and a write never
    returns [-ENOMEM]. *)
Theorem call_status_range ear kz r b :
  wf b -> granted_fits kz -> request_ok r ->
  exists st out b',
    Lab4.call ear kz r b = Done (st, out, b') /\
    match r with
    | Lab4.Write _ _ =>
        st = sizeof_int \/ st = - EINVAL \/ st = - EFAULT \/ st = - ENOSPC
    | Lab4.Read _ _ =>
        st = sizeof_int \/ st = 0 \/ st = - EINVAL \/ st = - EFAULT
    | Lab4.Ioctl _ _ =>
        st = 0 \/ st = - EFAULT \/ st = - EINVAL \/ st = - ENOMEM \/
        st = - ENOTTY
    end /\
    st <> - EBUSY /\ st <> - ERANGE /\ st <> - ENODEV.
Proof.
  intros Hwf Hkz Hr.
  destruct (call_stack ear kz r b Hwf Hkz Hr) as (b' & Hcall & _).
  destruct (stack_call ear kz r (capacity b) (contents b))
    as [[st out] after] eqn:Hs.
  exists st, out, b'. split; [exact Hcall |].
  assert (match r with
          | Lab4.Write _ _ =>
              st = sizeof_int \/ st = - EINVAL \/ st = - EFAULT \/
              st = - ENOSPC
          | Lab4.Read _ _ =>
              st = sizeof_int \/ st = 0 \/ st = - EINVAL \/ st = - EFAULT
          | Lab4.Ioctl _ _ =>
              st = 0 \/ st = - EFAULT \/ st = - EINVAL \/ st = - ENOMEM \/
              st = - ENOTTY
          end) as Hrange.
  { unfold stack_call in Hs. destruct r as [u count | u count | cmd u].
    - repeat match type of Hs with
             | context [if ?c then _ else _] => destruct c
             | context [match ?c with Some _ => _ | None => _ end] =>
                 destruct c
             end; injection Hs as <- _ _; tauto.
    - repeat match type of Hs with
             | context [if ?c then _ else _] => destruct c
             | context [match ?c with Some _ => _ | None => _ end] =>
                 destruct c
             end; injection Hs as <- _ _; tauto.
    - repeat match type of Hs with
             | context [if ?c then _ else _] => destruct c
             | context [match ?c with Some _ => _ | None => _ end] =>
                 destruct c
             end; injection Hs as <- _ _; tauto. }
  split; [exact Hrange |].
  unfold sizeof_int, EINVAL, EFAULT, ENOSPC, ENOMEM, ENOTTY, EBUSY, ERANGE,
    ENODEV in *.
  destruct r; lia.
Qed.

(** X3.  Each call touches at most one counter, once: a write that stores
    its value increments [push_count], a write refused for lack of room
    increments [overflow_count], a read that hands a value back increments
    [pop_count], a read that finds the buffer empty increments
    [underflow_count]; every other outcome, and every control command
    (clear and set-capacity included), leaves the four counters alone.  An
    increment is one [atomic_inc] of that counter, which is [+ 1] below
    [INT_MAX], with the other three counters unchanged. *)
Theorem one_counter_per_call ear kz r b :
  wf b -> granted_fits kz -> request_ok r ->
  exists st out b',
    Lab4.call ear kz r b = Done (st, out, b') /\
    match r with
    | Lab4.Write _ _ =>
        (st = sizeof_int /\
         push_count (stats b') = atomic_inc (push_count (stats b)) /\
         (INT_MIN <= push_count (stats b) < INT_MAX ->
            push_count (stats b') = push_count (stats b) + 1) /\
         pop_count (stats b') = pop_count (stats b) /\
         overflow_count (stats b') = overflow_count (stats b) /\
         underflow_count (stats b') = underflow_count (stats b)) \/
        (st = - ENOSPC /\
         overflow_count (stats b') = atomic_inc (overflow_count (stats b)) /\
         (INT_MIN <= overflow_count (stats b) < INT_MAX ->
            overflow_count (stats b') = overflow_count (stats b) + 1) /\
         push_count (stats b') = push_count (stats b) /\
         pop_count (stats b') = pop_count (stats b) /\
         underflow_count (stats b') = underflow_count (stats b)) \/
        (st <> sizeof_int /\ st <> - ENOSPC /\ stats b' = stats b)
    | Lab4.Read _ _ =>
        (st = sizeof_int /\
         pop_count (stats b') = atomic_inc (pop_count (stats b)) /\
         (INT_MIN <= pop_count (stats b) < INT_MAX ->
            pop_count (stats b') = pop_count (stats b) + 1) /\
         push_count (stats b') = push_count (stats b) /\
         overflow_count (stats b') = overflow_count (stats b) /\
         underflow_count (stats b') = underflow_count (stats b)) \/
        (st = 0 /\
         underflow_count (stats b') = atomic_inc (underflow_count (stats b)) /\
         (INT_MIN <= underflow_count (stats b) < INT_MAX ->
            underflow_count (stats b') = underflow_count (stats b) + 1) /\
         push_count (stats b') = push_count (stats b) /\
         pop_count (stats b') = pop_count (stats b) /\
         overflow_count (stats b') = overflow_count (stats b)) \/
        (st <> sizeof_int /\ st <> 0 /\ stats b' = stats b)
    | Lab4.Ioctl _ _ => stats b' = stats b
    end.
Proof.
  intros Hwf Hkz Hr.
  destruct (call_stack ear kz r b Hwf Hkz Hr)
    as (b' & Hcall & _ & _ & _ & Hstats).
  destruct (stack_call ear kz r (capacity b) (contents b))
    as [[st out] after] eqn:Hs.
  exists st, out, b'. split; [exact Hcall |].
  cbn [fst] in Hstats. unfold stats_call in Hstats.
  destruct r as [u count | u count | cmd u]; [| | exact Hstats].
  - destruct (Z.eqb_spec st sizeof_int);
      [left; split; [assumption | apply inc_push_counts; assumption] |].
    destruct (Z.eqb_spec st (- ENOSPC));
      [right; left; split;
       [assumption | apply inc_overflow_counts; assumption] |].
    right; right; auto.
  - destruct (Z.eqb_spec st sizeof_int);
      [left; split; [assumption | apply inc_pop_counts; assumption] |].
    destruct (Z.eqb_spec st 0);
      [right; left; split;
       [assumption | apply inc_underflow_counts; assumption] |].
    right; right; auto.
Qed.

(** ** Control commands *)

(** X4.  The control command rejects what it cannot serve and leaves the
    whole device structure, statistics included, as it was: a set-capacity
    whose argument cannot be read gives [-EFAULT] and a negative one
    [-EINVAL]; get-capacity and get-usage into memory that cannot be written
    give [-EFAULT]; a command number that is none of the four gives
    [-ENOTTY]. *)
Theorem ioctl_rejections kz cmd u b :
  (cmd = INT_STACK_SET_MAX_SIZE -> u_fetch u = None ->
     Lab4.buffer_ioctl kz cmd u b = Done (- EFAULT, None, b)) /\
  (forall k, cmd = INT_STACK_SET_MAX_SIZE -> u_fetch u = Some k -> k < 0 ->
     Lab4.buffer_ioctl kz cmd u b = Done (- EINVAL, None, b)) /\
  (cmd = CMD_GET_CAPACITY \/ cmd = CMD_GET_USAGE -> u_writable u = false ->
     Lab4.buffer_ioctl kz cmd u b = Done (- EFAULT, None, b)) /\
  (cmd <> INT_STACK_SET_MAX_SIZE -> cmd <> CMD_GET_CAPACITY ->
   cmd <> CMD_GET_USAGE -> cmd <> CMD_CLEAR_BUFFER ->
     Lab4.buffer_ioctl kz cmd u b = Done (- ENOTTY, None, b)).
Proof.
  repeat split.
  - intros -> Hu. unfold Lab4.buffer_ioctl. rewrite Z.eqb_refl, Hu.
    reflexivity.
  - intros k -> Hu Hk. unfold Lab4.buffer_ioctl. rewrite Z.eqb_refl, Hu.
    destruct (Z.ltb_spec k 0); [reflexivity | lia].
  - intros [-> | ->] Hu; unfold Lab4.buffer_ioctl.
    + change (CMD_GET_CAPACITY =? INT_STACK_SET_MAX_SIZE) with false.
      rewrite Z.eqb_refl, Hu. reflexivity.
    + change (CMD_GET_USAGE =? INT_STACK_SET_MAX_SIZE) with false.
      change (CMD_GET_USAGE =? CMD_GET_CAPACITY) with false.
      rewrite Z.eqb_refl, Hu. reflexivity.
  - intros H1 H2 H3 H4. unfold Lab4.buffer_ioctl.
    destruct (Z.eqb_spec cmd INT_STACK_SET_MAX_SIZE); [contradiction |].
    destruct (Z.eqb_spec cmd CMD_GET_CAPACITY); [contradiction |].
    destruct (Z.eqb_spec cmd CMD_GET_USAGE); [contradiction |].
    destruct (Z.eqb_spec cmd CMD_CLEAR_BUFFER); [contradiction |].
    reflexivity.
Qed.

(** X5.  On a well-formed buffer whose capacity fits an [int], get-usage
    reports the number of occupied values and get-capacity the capacity,
    both exactly, and neither changes the device structure. *)
Theorem usage_and_capacity_reported kz u b :
  wf b -> capacity b <= INT_MAX -> u_writable u = true ->
  Lab4.buffer_ioctl kz CMD_GET_USAGE u b =
    Done (0, Some (Z.of_nat (length (contents b))), b) /\
  Lab4.buffer_ioctl kz CMD_GET_CAPACITY u b = Done (0, Some (capacity b), b).
Proof.
  intros Hwf Hcap Hu. pose proof (wf_contents_length b Hwf) as Hlen.
  pose proof (wf_capacity_bound b Hwf) as Hc. destruct Hwf as (Hp & _ & _).
  rewrite buffer_ioctl_get_usage, buffer_ioctl_get_capacity by assumption.
  rewrite Hlen.
  rewrite !to_int_small by (unfold is_int, INT_MIN, INT_MAX in *; lia).
  split; reflexivity.
Qed.

(** X6.  Clear empties the stack without giving up the array: it returns 0
    and leaves capacity and statistics alone, and right after it as many
    values as the capacity holds can be pushed and come back in reverse
    order, whatever the buffer held before. *)
Theorem clear_then_refill ear kz vs b :
  wf b -> Z.of_nat (length vs) <= capacity b ->
  exists b',
    Lab4.run ear ((kz, clear) :: map (fun v => (kz, push v)) vs ++
                  replicate (length vs) (kz, pop)) b =
      Done ((0, None) :: map (fun _ => (sizeof_int, None)) vs ++
            map (fun v => (sizeof_int, Some v)) (rev vs), b') /\
    contents b' = [] /\ capacity b' = capacity b.
Proof.
  intros Hwf Hfit.
  pose proof (wf_cleared b Hwf) as Hwf0.
  destruct (run_pushes ear kz vs (set_position b 0) Hwf0)
    as (b1 & Hrun1 & Hwf1 & Hc1 & Hcap1).
  { cbn [set_position position capacity]. lia. }
  rewrite contents_cleared in Hc1.
  destruct (run_pops ear kz vs b1 [] Hwf1 Hc1) as (b2 & Hrun2 & _ & Hc2 & Hcap2).
  exists b2. cbn [Lab4.run Lab4.call clear].
  rewrite buffer_ioctl_clear. cbn [bind fst snd].
  rewrite run_app, Hrun1. cbn [bind fst snd]. rewrite Hrun2.
  cbn [bind fst snd]. split; [reflexivity |]. split; [assumption |].
  rewrite Hcap2, Hcap1. reflexivity.
Qed.

(** X7.  Shrinking drops the newest values: after a granted set-capacity to
    [k] below the count, [k] pops return the [k] oldest values, the most
    recent of them first, and the stack is then empty. *)
Theorem shrink_then_pops ear (kz : allocator) k b :
  wf b -> 0 < k < position b -> k <= INT_MAX ->
  kz (sizeof_int * k) = true ->
  exists b',
    Lab4.run ear ((kz, set_capacity k) :: replicate (Z.to_nat k) (kz, pop)) b =
      Done ((0, None) ::
            map (fun v => (sizeof_int, Some v))
                (rev (take (Z.to_nat k) (contents b))), b') /\
    contents b' = [] /\ capacity b' = k.
Proof.
  intros Hwf Hk Hint Hg. pose proof (wf_contents_length b Hwf) as Hlen.
  pose proof (wf_capacity_bound b Hwf) as Hcap.
  assert (wf (resized k b)) as Hwf1.
  { apply resized_wf; [assumption | lia |].
    destruct Hwf as (Hp & Hc & _). unfold sizeof_int in *. lia. }
  pose proof (resized_contents k b Hwf (proj1 Hk)) as Hc1.
  destruct (run_pops ear kz (take (Z.to_nat k) (contents b)) (resized k b) [])
    as (b2 & Hrun2 & _ & Hc2 & Hcap2); [assumption | assumption |].
  rewrite length_take in Hrun2.
  replace (Z.to_nat k `min` length (contents b))%nat with (Z.to_nat k)
    in Hrun2 by lia.
  exists b2. cbn [Lab4.run Lab4.call set_capacity].
  rewrite (buffer_ioctl_set_capacity kz _ k b) by (reflexivity || assumption || lia).
  destruct (Z.eqb_spec k 0); [lia |]. rewrite Hg. cbn [bind fst snd].
  rewrite Hrun2. cbn [bind fst snd]. auto.
Qed.

(** ** Automatic growth *)

Lemma grants_up_to_fits L : L <= PTRDIFF_MAX -> granted_fits (grants_up_to L).
Proof.
  intros HL n Hn. unfold grants_up_to in Hn. apply Z.leb_le in Hn. lia.
Qed.

(** With growth on and an allocator that grants what doubling asks for, a
    push always finds room. *)
Lemma call_push_growing ear L v b :
  wf b -> ear <> 0 -> L <= PTRDIFF_MAX ->
  sizeof_int * Z.max (2 * (position b + 1)) 8 <= L ->
  exists b',
    Lab4.call ear (grants_up_to L) (push v) b = Done (sizeof_int, None, b') /\
    wf b' /\ contents b' = contents b ++ [v] /\
    position b' = position b + 1.
Proof.
  intros Hwf Hear HL Hneed. pose proof (wf_capacity_bound b Hwf) as Hcap.
  pose proof (wf_contents_length b Hwf) as Hlen.
  destruct (Z.lt_ge_cases (position b) (capacity b)) as [Hroom | Hfull].
  - exists (pushed v b). rewrite call_push_room by assumption.
    split; [reflexivity |]. split; [apply pushed_wf; assumption |].
    split; [apply pushed_contents; assumption | reflexivity].
  - assert (position b = capacity b) as Heq by (destruct Hwf; lia).
    assert (capacity b < grown_capacity b /\
            sizeof_int * grown_capacity b <= L) as (Hgt & Hle)
      by (unfold grown_capacity, sizeof_int in *; lia).
    assert (wf (resized (grown_capacity b) b)) as Hwf1
      by (apply resized_wf; [assumption | lia | lia]).
    assert (position (resized (grown_capacity b) b) = position b) as Hp1
      by (unfold resized; cbn [position]; lia).
    assert (position (resized (grown_capacity b) b) <
            capacity (resized (grown_capacity b) b)) as Hroom
      by (unfold resized in *; cbn [position capacity] in *; lia).
    exists (pushed v (resized (grown_capacity b) b)).
    unfold Lab4.call, push.
    rewrite (buffer_write_full_grow ear (grants_up_to L) _ v b);
      [| assumption | apply grants_up_to_fits; assumption | assumption
       | assumption | reflexivity].
    unfold grants_up_to at 1.
    destruct (Z.leb_spec (sizeof_int * grown_capacity b) L); [| lia].
    cbn [bind fst snd]. split; [reflexivity |].
    split; [apply pushed_wf; assumption |]. split.
    + rewrite pushed_contents by assumption.
      rewrite resized_contents by (assumption || lia).
      rewrite take_ge by lia. reflexivity.
    + unfold pushed. cbn [position]. lia.
Qed.

Lemma run_pushes_growing ear L vs : forall b,
  wf b -> ear <> 0 -> L <= PTRDIFF_MAX ->
  sizeof_int * Z.max (2 * (position b + Z.of_nat (length vs))) 8 <= L ->
  exists b',
    Lab4.run ear (map (fun v => (grants_up_to L, push v)) vs) b =
      Done (map (fun _ => (sizeof_int, None)) vs, b') /\
    wf b' /\ contents b' = contents b ++ vs.
Proof.
  induction vs as [| v vs IH]; intros b Hwf Hear HL Hneed.
  - exists b. cbn. rewrite app_nil_r. auto.
  - cbn [length] in Hneed.
    destruct (call_push_growing ear L v b Hwf Hear HL)
      as (b1 & Hcall & Hwf1 & Hc1 & Hp1).
    { unfold sizeof_int in *. lia. }
    destruct (IH b1 Hwf1 Hear HL) as (b' & Hrun & Hwf' & Hc').
    { rewrite Hp1. unfold sizeof_int in *. lia. }
    exists b'. cbn [map Lab4.run]. rewrite Hcall. cbn [bind fst snd].
    rewrite Hrun. cbn [bind fst snd].
    rewrite Hc', Hc1, <- app_assoc. auto.
Qed.

(** X8.  With automatic growth on and an allocator that grants every
    request up to [L] bytes, any number of pushes succeeds as long as
    doubling stays within [L], however small the capacity was: the buffer
    grows on the way and loses nothing, so the pops that follow return the
    values in reverse order and the buffer ends with the contents it
    started with. *)
Theorem lifo_order_with_growth ear L vs b :
  wf b -> ear <> 0 -> L <= PTRDIFF_MAX ->
  sizeof_int * Z.max (2 * (position b + Z.of_nat (length vs))) 8 <= L ->
  exists b',
    Lab4.run ear (map (fun v => (grants_up_to L, push v)) vs ++
                  replicate (length vs) (grants_up_to L, pop)) b =
      Done (map (fun _ => (sizeof_int, None)) vs ++
            map (fun v => (sizeof_int, Some v)) (rev vs), b') /\
    contents b' = contents b.
Proof.
  intros Hwf Hear HL Hneed.
  destruct (run_pushes_growing ear L vs b Hwf Hear HL Hneed)
    as (b1 & Hrun1 & Hwf1 & Hc1).
  destruct (run_pops ear (grants_up_to L) vs b1 (contents b) Hwf1 Hc1)
    as (b2 & Hrun2 & _ & Hc2 & _).
  exists b2. rewrite run_app, Hrun1. cbn [bind fst snd].
  rewrite Hrun2. cbn [bind fst snd]. auto.
Qed.

(** ** Loading the module *)

(** X9.  Loading the plain module.  It fails with [-ENOMEM] when the device
    structure cannot be allocated, with the status of [misc_register] when
    that is negative, and with [-ENOMEM] when the initial array is refused.
    Otherwise it returns 0 with an empty stack and zeroed counters: an
    array of [default_capacity] zeroed slots when the parameter is positive,
    and no array and capacity 0 when it is not. *)
Theorem module_init_result default_capacity dev_granted misc_register
    (kz : allocator) :
  is_int default_capacity ->
  Lab4.integer_buffer_init default_capacity dev_granted misc_register kz =
    Done (if negb dev_granted then (- ENOMEM, None)
          else if misc_register <? 0 then (misc_register, None)
          else if 0 <? default_capacity then
            if kz (sizeof_int * default_capacity)
            then (0, Some {| elements :=
                               Some (replicate (Z.to_nat default_capacity) 0);
                             capacity := default_capacity; position := 0;
                             stats := init_stats |})
            else (- ENOMEM, None)
          else (0, Some {| elements := None; capacity := 0; position := 0;
                           stats := init_stats |})).
Proof.
  intros Hdc. unfold Lab4.integer_buffer_init.
  destruct dev_granted; cbn [negb]; [| reflexivity].
  destruct (misc_register <? 0); [reflexivity |].
  destruct (Z.ltb_spec 0 default_capacity) as [Hpos | Hnpos]; [| reflexivity].
  rewrite resize_buffer_cases;
    [| apply wf_released | lia
     | unfold is_int, INT_MAX, sizeof_int, SIZE_MAX in *; lia].
  destruct (Z.eqb_spec default_capacity 0); [lia |].
  destruct (kz (sizeof_int * default_capacity)); cbn [bind fst snd].
  - change (0 <? 0) with false. cbv iota. unfold resized, contents.
    cbn [elements position stats]. rewrite take_nil. cbn [app length].
    rewrite Nat.sub_0_r, Z.min_l by lia. reflexivity.
  - reflexivity.
Qed.

(** * The presence gate *)

Lemma hotplug_call_absent ear kz r d :
  Lab5.usb_key_present d = 0 ->
  Hotplug.call ear kz r d = Done (- ENODEV, None, d).
Proof.
  intros Habsent.
  destruct r; unfold Hotplug.call, Lab5.buffer_write, Lab5.buffer_read,
    Lab5.buffer_ioctl; rewrite Habsent; reflexivity.
Qed.

Lemma hotplug_call_present ear kz r d :
  Lab5.usb_key_present d <> 0 ->
  Hotplug.call ear kz r d =
    perform x <- Lab4.call ear kz r (Lab5.dev_buffer d);
    Done (fst x, Lab5.set_dev_buffer d (snd x)).
Proof.
  intros Hp.
  destruct r as [u c | u c | cmd u]; unfold Hotplug.call, Lab4.call.
  - rewrite present_buffer_write by assumption.
    destruct (Lab4.buffer_write ear kz u c (Lab5.dev_buffer d)) as [[st b'] |];
      reflexivity.
  - apply present_buffer_read. assumption.
  - apply present_buffer_ioctl. assumption.
Qed.

Lemma hotplug_run_absent vid pid ear rs : forall d,
  Lab5.usb_key_present d = 0 ->
  Hotplug.run vid pid ear (map (fun x => Hotplug.Call (fst x) (snd x)) rs) d =
    Done (map (fun _ => (- ENODEV, None)) rs, d).
Proof.
  induction rs as [| [kz r] rs IH]; intros d Habsent; [reflexivity |].
  cbn [map Hotplug.run Hotplug.step fst snd].
  rewrite hotplug_call_absent by assumption. cbn [bind fst snd].
  rewrite IH by assumption. reflexivity.
Qed.

Lemma hotplug_run_present vid pid ear rs : forall d outs b',
  Lab5.usb_key_present d <> 0 ->
  Lab4.run ear rs (Lab5.dev_buffer d) = Done (outs, b') ->
  Hotplug.run vid pid ear (map (fun x => Hotplug.Call (fst x) (snd x)) rs) d =
    Done (outs, Lab5.set_dev_buffer d b').
Proof.
  induction rs as [| [kz r] rs IH]; intros d outs b' Hp Hrun.
  - cbn in Hrun. injection Hrun as <- <-. cbn. destruct d; reflexivity.
  - cbn [Lab4.run] in Hrun.
    cbn [map Hotplug.run Hotplug.step fst snd].
    rewrite hotplug_call_present by assumption.
    destruct (Lab4.call ear kz r (Lab5.dev_buffer d)) as [[o b1] |];
      [| discriminate].
    cbn [bind fst snd] in *.
    destruct (Lab4.run ear rs b1) as [[os b2] |] eqn:Hrest; [| discriminate].
    cbn [bind fst snd] in Hrun. injection Hrun as <- <-.
    rewrite (IH (Lab5.set_dev_buffer d b1) os b2); [| assumption | assumption].
    cbn [bind fst snd]. reflexivity.
Qed.

Lemma hotplug_step_ok vid pid ear e d :
  gate_ok d -> event_ok e ->
  exists st out d', Hotplug.step vid pid ear e d = Done (st, out, d') /\
                    gate_ok d'.
Proof.
  intros (Hp & Hr & Hwf) He. destruct e as [v p m | v p | | kz r].
  - eexists _, _, _. split; [reflexivity |].
    unfold Lab5.pen_probe, Lab5.register_device, gate_ok.
    destruct (negb (v =? vid) || negb (p =? pid)); cbn [snd]; [auto |].
    cbn [Lab5.set_usb_key_present Lab5.device_registered].
    destruct (Z.eqb_spec (Lab5.device_registered d) 0) as [Hz | Hnz];
      cbn [negb fst snd].
    + destruct (m <? 0) eqn:Hm; cbn [fst snd]; rewrite ?Hm;
        cbn [fst snd Lab5.set_device_registered Lab5.usb_key_present
             Lab5.device_registered Lab5.dev_buffer]; auto.
    + change (0 <? 0) with false.
      cbn [fst snd Lab5.usb_key_present Lab5.device_registered
           Lab5.dev_buffer].
      split; [auto |]. split; [| assumption].
      destruct Hr as [Hr | (Hr & _)]; [contradiction | auto].
  - eexists _, _, _. split; [reflexivity |].
    unfold Lab5.pen_disconnect, Lab5.unregister_device, gate_ok.
    destruct (negb (v =? vid) || negb (p =? pid)); [auto |].
    cbn [Lab5.set_usb_key_present Lab5.device_registered].
    destruct (Z.eqb_spec (Lab5.device_registered d) 0) as [Hz | Hnz];
      cbn [negb Lab5.set_device_registered Lab5.set_usb_key_present
           Lab5.usb_key_present Lab5.device_registered Lab5.dev_buffer];
      (split; [auto |]; split; [auto | assumption]).
  - eexists _, _, _. split; [reflexivity |]. unfold gate_ok. auto.
  - destruct He as (Hkz & Hreq). cbn [Hotplug.step].
    destruct (Z.eq_dec (Lab5.usb_key_present d) 0) as [Habsent | Hpresent].
    + rewrite hotplug_call_absent by assumption.
      eexists _, _, _. split; [reflexivity |]. unfold gate_ok. auto.
    + rewrite hotplug_call_present by assumption.
      destruct (call_sound ear kz r (Lab5.dev_buffer d) Hwf Hkz Hreq)
        as (st & out & b' & Hcall & Hwf' & _).
      rewrite Hcall. cbn [bind fst snd].
      eexists _, _, _. split; [reflexivity |].
      unfold gate_ok, Lab5.set_dev_buffer.
      cbn [Lab5.usb_key_present Lab5.device_registered Lab5.dev_buffer]. auto.
Qed.

Lemma hotplug_run_ok vid pid ear es : forall d,
  gate_ok d -> Forall event_ok es ->
  exists outs d', Hotplug.run vid pid ear es d = Done (outs, d') /\ gate_ok d'.
Proof.
  induction es as [| e es IH]; intros d Hd Hes.
  - exists [], d. auto.
  - apply Forall_cons in Hes. destruct Hes as (He & Hes).
    destruct (hotplug_step_ok vid pid ear e d Hd He)
      as (st & out & d1 & Hstep & Hd1).
    destruct (IH d1 Hd1 Hes) as (outs & d' & Hrun & Hd').
    exists ((st, out) :: outs), d'. cbn [Hotplug.run].
    rewrite Hstep. cbn [bind fst snd]. rewrite Hrun. auto.
Qed.

Lemma map_replicate {A B : Type} (f : A -> B) n x :
  map f (replicate n x) = replicate n (f x).
Proof. induction n as [| n IH]; cbn; [| rewrite IH]; reflexivity. Qed.

Lemma initialize_buffer_plain dc g kz :
  Lab5.initialize_buffer dc g kz = Lab4.integer_buffer_init dc g 0 kz.
Proof. reflexivity. Qed.

Lemma matching_ids vid pid :
  negb (vid =? vid) || negb (pid =? pid) = false.
Proof. rewrite !Z.eqb_refl. reflexivity. Qed.

Lemma pen_disconnect_matching vid pid d :
  Lab5.pen_disconnect vid pid vid pid d =
    {| Lab5.usb_key_present := 0; Lab5.device_registered := 0;
       Lab5.dev_buffer := Lab5.dev_buffer d |} \/
  Lab5.pen_disconnect vid pid vid pid d =
    {| Lab5.usb_key_present := 0;
       Lab5.device_registered := Lab5.device_registered d;
       Lab5.dev_buffer := Lab5.dev_buffer d |} /\
  Lab5.device_registered d = 0.
Proof.
  unfold Lab5.pen_disconnect, Lab5.unregister_device.
  rewrite matching_ids.
  cbn [Lab5.set_usb_key_present Lab5.device_registered].
  destruct (Z.eqb_spec (Lab5.device_registered d) 0) as [Hz | Hnz];
    cbn [negb]; [right | left]; auto.
Qed.

Lemma pen_probe_matching vid pid m d :
  Lab5.device_registered d = 0 -> 0 <= m ->
  Lab5.pen_probe vid pid vid pid m d =
    (0, {| Lab5.usb_key_present := 1; Lab5.device_registered := 1;
           Lab5.dev_buffer := Lab5.dev_buffer d |}).
Proof.
  intros Hreg Hm. unfold Lab5.pen_probe, Lab5.register_device.
  rewrite matching_ids.
  cbn [Lab5.set_usb_key_present Lab5.device_registered]. rewrite Hreg.
  cbn [Z.eqb negb]. destruct (Z.ltb_spec m 0); [lia |]. reflexivity.
Qed.

(** X10.  The gated module keeps its flags consistent.  After a successful
    load and any sequence of probes, disconnects, opens and calls (for any
    identifiers and any registration outcomes), every event has returned,
    [usb_key_present] and [device_registered] are 0 or 1, the device is
    registered only while the key is present, and the buffer is well
    formed, so its count is within its capacity. *)
Theorem gate_stays_consistent dc g kz ur st d0 vid pid ear es :
  is_int dc -> granted_fits kz ->
  Lab5.integer_buffer_init dc g kz ur = Done (st, Some d0) ->
  Forall event_ok es ->
  exists outs d,
    Hotplug.run vid pid ear es d0 = Done (outs, d) /\
    (Lab5.usb_key_present d = 0 \/ Lab5.usb_key_present d = 1) /\
    (Lab5.device_registered d = 0 \/ Lab5.device_registered d = 1) /\
    (Lab5.device_registered d = 1 -> Lab5.usb_key_present d = 1) /\
    wf (Lab5.dev_buffer d) /\
    0 <= position (Lab5.dev_buffer d) <= capacity (Lab5.dev_buffer d).
Proof.
  intros Hdc Hkz Hinit Hes.
  assert (gate_ok d0) as Hd0.
  { unfold Lab5.integer_buffer_init in Hinit.
    rewrite initialize_buffer_plain in Hinit.
    destruct (integer_buffer_init_sound dc g 0 kz Hdc Hkz)
      as (st0 & ob & Hplain & Hwf0).
    rewrite Hplain in Hinit. cbn [bind fst snd] in Hinit.
    destruct ob as [b |]; [| discriminate].
    destruct (ur <? 0); [discriminate |].
    injection Hinit as _ <-. unfold gate_ok.
    cbn [Lab5.usb_key_present Lab5.device_registered Lab5.dev_buffer].
    auto. }
  destruct (hotplug_run_ok vid pid ear es d0 Hd0 Hes)
    as (outs & d & Hrun & (Hp & Hr & Hwf)).
  exists outs, d. split; [assumption |]. split; [assumption |].
  split; [tauto |]. split; [| split; [assumption | apply Hwf]].
  intros H1. destruct Hr as [H0 | (_ & Hpres)]; [congruence | assumption].
Qed.

(** X11.  Unplugging suspends access and nothing else.  When the key is
    unplugged, every call until it is plugged in again returns [-ENODEV],
    and after the key is back (and the device registered again) the device
    structure is the one from before the unplugging: elements, capacity,
    count and statistics. *)
Theorem replug_keeps_buffer vid pid ear m rs d :
  0 <= m ->
  exists d',
    Hotplug.run vid pid ear
      (Hotplug.Unplug vid pid ::
       map (fun x => Hotplug.Call (fst x) (snd x)) rs ++
       [Hotplug.Plug vid pid m]) d =
      Done ((0, None) :: map (fun _ => (- ENODEV, None)) rs ++ [(0, None)],
            d') /\
    Lab5.dev_buffer d' = Lab5.dev_buffer d /\
    Lab5.usb_key_present d' = 1 /\ Lab5.device_registered d' = 1.
Proof.
  intros Hm. cbn [Hotplug.run Hotplug.step bind fst snd].
  set (d1 := Lab5.pen_disconnect vid pid vid pid d).
  assert (Lab5.usb_key_present d1 = 0 /\ Lab5.device_registered d1 = 0 /\
          Lab5.dev_buffer d1 = Lab5.dev_buffer d) as (Hp1 & Hr1 & Hb1).
  { unfold d1.
    destruct (pen_disconnect_matching vid pid d) as [-> | (-> & Hz)];
      cbn [Lab5.usb_key_present Lab5.device_registered Lab5.dev_buffer];
      auto. }
  assert (forall es,
    Hotplug.run vid pid ear
      (map (fun x => Hotplug.Call (fst x) (snd x)) rs ++ es) d1 =
    perform y <- Hotplug.run vid pid ear es d1;
    Done (map (fun _ => (- ENODEV, None)) rs ++ fst y, snd y)) as Hcalls.
  { intros es. induction rs as [| [kz r] rs IH].
    - cbn [map app]. destruct (Hotplug.run vid pid ear es d1) as [[o x] |];
        reflexivity.
    - cbn [map app Hotplug.run Hotplug.step fst snd].
      rewrite hotplug_call_absent by assumption. cbn [bind fst snd].
      rewrite IH. destruct (Hotplug.run vid pid ear es d1) as [[o x] |];
        reflexivity. }
  rewrite Hcalls. cbn [Hotplug.run Hotplug.step bind fst snd].
  rewrite (pen_probe_matching vid pid m d1 Hr1 Hm). cbn [fst snd app].
  eexists. split; [reflexivity |].
  cbn [Lab5.usb_key_present Lab5.device_registered Lab5.dev_buffer]. auto.
Qed.

(** X12.  The stack survives the key being pulled.  With the key present
    and room in the buffer, values pushed before the key is unplugged and
    plugged in again are popped afterwards in reverse order of insertion. *)
Theorem lifo_across_replug vid pid ear kz m vs d :
  Lab5.usb_key_present d <> 0 -> wf (Lab5.dev_buffer d) -> 0 <= m ->
  position (Lab5.dev_buffer d) + Z.of_nat (length vs) <=
    capacity (Lab5.dev_buffer d) ->
  exists d',
    Hotplug.run vid pid ear
      (map (fun v => Hotplug.Call kz (push v)) vs ++
       [Hotplug.Unplug vid pid; Hotplug.Plug vid pid m] ++
       replicate (length vs) (Hotplug.Call kz pop)) d =
      Done (map (fun _ => (sizeof_int, None)) vs ++
            [(0, None); (0, None)] ++
            map (fun v => (sizeof_int, Some v)) (rev vs), d') /\
    contents (Lab5.dev_buffer d') = contents (Lab5.dev_buffer d).
Proof.
  intros Hp Hwf Hm Hfit.
  assert (forall es1 es2 x,
    Hotplug.run vid pid ear (es1 ++ es2) x =
    perform a <- Hotplug.run vid pid ear es1 x;
    perform c <- Hotplug.run vid pid ear es2 (snd a);
    Done (fst a ++ fst c, snd c)) as Happ.
  { induction es1 as [| e es1 IH]; intros es2 x.
    - cbn [app Hotplug.run bind fst snd].
      destruct (Hotplug.run vid pid ear es2 x) as [[o y] |]; reflexivity.
    - cbn [app Hotplug.run].
      destruct (Hotplug.step vid pid ear e x) as [s |]; [| reflexivity].
      cbn [bind]. rewrite IH.
      destruct (Hotplug.run vid pid ear es1 (snd s)) as [y |]; [| reflexivity].
      cbn [bind fst snd].
      destruct (Hotplug.run vid pid ear es2 (snd y)) as [z |]; reflexivity. }
  destruct (run_pushes ear kz vs (Lab5.dev_buffer d) Hwf Hfit)
    as (b1 & Hrun1 & Hwf1 & Hc1 & _).
  destruct (run_pops ear kz vs b1 (contents (Lab5.dev_buffer d)) Hwf1 Hc1)
    as (b2 & Hrun2 & _ & Hc2 & _).
  pose proof (hotplug_run_present vid pid ear
                (map (fun v => (kz, push v)) vs) d _ _ Hp Hrun1) as Hg1.
  rewrite map_map in Hg1. cbn [fst snd] in Hg1.
  set (d1 := Lab5.set_dev_buffer d b1) in *.
  set (d2 := Lab5.pen_disconnect vid pid vid pid d1).
  assert (Lab5.device_registered d2 = 0 /\ Lab5.dev_buffer d2 = b1)
    as (Hr2 & Hb2).
  { unfold d2.
    destruct (pen_disconnect_matching vid pid d1) as [-> | (-> & Hz)];
      cbn [Lab5.device_registered Lab5.dev_buffer]; auto. }
  set (d3 := {| Lab5.usb_key_present := 1; Lab5.device_registered := 1;
                Lab5.dev_buffer := Lab5.dev_buffer d2 |}).
  assert (Lab4.run ear (replicate (length vs) (kz, pop)) (Lab5.dev_buffer d3) =
          Done (map (fun v => (sizeof_int, Some v)) (rev vs), b2)) as Hrun3
    by (cbn [d3 Lab5.dev_buffer]; rewrite Hb2; exact Hrun2).
  pose proof (hotplug_run_present vid pid ear
                (replicate (length vs) (kz, pop)) d3 _ _
                ltac:(cbn; lia) Hrun3) as Hg3.
  rewrite map_replicate in Hg3. cbn [fst snd] in Hg3.
  exists (Lab5.set_dev_buffer d3 b2).
  rewrite Happ, Hg1. cbn [bind fst snd].
  cbn [app Hotplug.run Hotplug.step bind fst snd]. fold d2.
  rewrite (pen_probe_matching vid pid m d2 Hr2 Hm). cbn [fst snd]. fold d3.
  rewrite Hg3. cbn [bind fst snd]. split; [reflexivity | exact Hc2].
Qed.

(** X13.  Other USB devices do not move the gate: probes and disconnects
    of devices whose vendor or product identifier differs from the
    configured one leave the module exactly as it was, each such probe
    returning [-ENODEV]. *)
Theorem foreign_devices_ignored vid pid ear es d :
  Forall (fun e => match e with
                   | Hotplug.Plug v p _ => v <> vid \/ p <> pid
                   | Hotplug.Unplug v p => v <> vid \/ p <> pid
                   | _ => False
                   end) es ->
  Hotplug.run vid pid ear es d =
    Done (map (fun e => match e with
                        | Hotplug.Plug _ _ _ => (- ENODEV, None)
                        | _ => (0, None)
                        end) es, d).
Proof.
  induction es as [| e es IH]; intros Hes; [reflexivity |].
  apply Forall_cons in Hes. destruct Hes as (He & Hes).
  assert (forall v p, v <> vid \/ p <> pid ->
            negb (v =? vid) || negb (p =? pid) = true) as Hforeign.
  { intros v p [Hv | Hq].
    - destruct (Z.eqb_spec v vid); [contradiction | reflexivity].
    - destruct (Z.eqb_spec p pid); [contradiction |].
      apply orb_true_r. }
  destruct e as [v p m | v p | | kz r]; try contradiction;
    cbn [Hotplug.run Hotplug.step map];
    unfold Lab5.pen_probe, Lab5.pen_disconnect;
    rewrite (Hforeign v p He); cbn [bind fst snd];
    rewrite (IH Hes); reflexivity.
Qed.

(** X14.  A probe whose registration fails still opens the gate.  When the
    matching key is probed and [misc_register] fails, the probe returns that
    status and the device stays unregistered, but [usb_key_present] is set:
    a call that arrives afterwards is served like a call of the plain
    driver on the buffer, not refused. *)
Theorem failed_registration_opens_gate vid pid ear m kz r d :
  Lab5.device_registered d = 0 -> m < 0 ->
  exists d1,
    Hotplug.step vid pid ear (Hotplug.Plug vid pid m) d = Done (m, None, d1) /\
    Lab5.usb_key_present d1 = 1 /\ Lab5.device_registered d1 = 0 /\
    Lab5.dev_buffer d1 = Lab5.dev_buffer d /\
    Hotplug.step vid pid ear (Hotplug.Call kz r) d1 =
      perform x <- Lab4.call ear kz r (Lab5.dev_buffer d);
      Done (fst x, Lab5.set_dev_buffer d1 (snd x)).
Proof.
  intros Hreg Hm.
  exists {| Lab5.usb_key_present := 1; Lab5.device_registered := 0;
            Lab5.dev_buffer := Lab5.dev_buffer d |}.
  split.
  - cbn [Hotplug.step]. unfold Lab5.pen_probe, Lab5.register_device.
    rewrite matching_ids.
    cbn [Lab5.set_usb_key_present Lab5.device_registered]. rewrite Hreg.
    cbn [Z.eqb negb]. destruct (Z.ltb_spec m 0) as [Hlt | Hge]; [| lia].
    cbn [fst snd]. destruct (Z.ltb_spec m 0); [| lia].
    cbn [fst snd]. unfold Lab5.set_usb_key_present. rewrite Hreg.
    reflexivity.
  - cbn [Lab5.usb_key_present Lab5.device_registered Lab5.dev_buffer].
    do 3 (split; [reflexivity |]).
    cbn [Hotplug.step]. rewrite hotplug_call_present by (cbn; lia).
    reflexivity.
Qed.

(** * The command-line client *)

Lemma sys_return_ok r : 0 <= r -> sys_return r = (r, None).
Proof.
  intros Hr. unfold sys_return. destruct (Z.ltb_spec r 0); [lia | reflexivity].
Qed.

Lemma sys_return_error r : r < 0 -> sys_return r = (-1, Some (- r)).
Proof.
  intros Hr. unfold sys_return. destruct (Z.ltb_spec r 0); [reflexivity | lia].
Qed.

Lemma read_value_top w c v :
  wf (Client.dev w) -> contents (Client.dev w) = c ++ [v] ->
  Client.read_value w =
    Done (sizeof_int, Some v, Client.set_dev w (popped (Client.dev w))).
Proof.
  intros Hwf Hc. unfold Client.read_value.
  rewrite (buffer_read_top _ sizeof_int (Client.dev w) c v)
    by (assumption || reflexivity || lia).
  reflexivity.
Qed.

Lemma read_value_empty w :
  position (Client.dev w) = 0 ->
  Client.read_value w =
    Done (0, None, Client.set_dev w (starved (Client.dev w))).
Proof.
  intros Hp. unfold Client.read_value.
  rewrite buffer_read_empty by (assumption || lia). reflexivity.
Qed.

(** The set-capacity command as the client issues it. *)
Lemma ioctl_set_capacity_int kz k b :
  wf b -> is_int k ->
  Lab4.buffer_ioctl kz STACK_CONFIG_CMD (own_variable k) b =
    if k <? 0 then Done (- EINVAL, None, b)
    else if k =? 0 then
      Done (0, None, {| elements := None; capacity := 0; position := 0;
                        stats := stats b |})
    else if kz (sizeof_int * k) then Done (0, None, resized k b)
    else Done (- ENOMEM, None, b).
Proof.
  intros Hwf Hk. change STACK_CONFIG_CMD with INT_STACK_SET_MAX_SIZE.
  destruct (Z.ltb_spec k 0) as [Hneg | Hnn].
  - unfold Lab4.buffer_ioctl, own_variable. cbn [u_fetch].
    rewrite Z.eqb_refl. destruct (Z.ltb_spec k 0); [reflexivity | lia].
  - apply buffer_ioctl_set_capacity;
      [assumption | reflexivity | unfold is_int in Hk; lia].
Qed.

Lemma unwind_loop stk : forall fuel count w,
  wf (Client.dev w) -> contents (Client.dev w) = stk ->
  (length stk < fuel)%nat ->
  0 <= count -> count + Z.of_nat (length stk) <= INT_MAX ->
  exists w',
    Client.empty_entire_stack_loop fuel count w =
      Some (Done (EXIT_SUCCESS, w')) /\
    Client.printed w' =
      Client.printed w ++
      map (fun v => Printf "%d\n" [AInt v]) (rev stk) ++
      (if count + Z.of_nat (length stk) =? 0
       then [Printf "Stack is empty\n" []] else []) /\
    contents (Client.dev w') = [] /\
    capacity (Client.dev w') = capacity (Client.dev w) /\
    Client.errno w' = Client.errno w.
Proof.
  induction stk as [| v c IH] using rev_ind; intros fuel count w Hwf Hc Hfuel
    Hcount Hbound.
  - destruct fuel as [| fuel]; [cbn in Hfuel; lia |].
    assert (position (Client.dev w) = 0) as Hp.
    { pose proof (wf_contents_length _ Hwf) as Hlen. rewrite Hc in Hlen.
      cbn in Hlen. lia. }
    cbn [Client.empty_entire_stack_loop]. rewrite read_value_empty by assumption.
    cbn [fst snd length rev map app]. change (0 =? 0) with true. cbv iota.
    rewrite Z.add_0_r.
    destruct (count =? 0); eexists; (split; [reflexivity |]);
      cbn [Client.print Client.set_dev Client.set_errno Client.printed
           Client.dev Client.errno];
      rewrite ?app_nil_r;
      (split; [reflexivity |]); (split; [| split; reflexivity]);
      exact Hc.
  - destruct fuel as [| fuel]; [lia |].
    rewrite length_app in Hfuel, Hbound. cbn [length] in Hfuel, Hbound.
    assert (0 < position (Client.dev w)) as Hpos.
    { pose proof (wf_contents_length _ Hwf) as Hlen.
      rewrite Hc, length_app in Hlen. cbn [length] in Hlen. lia. }
    cbn [Client.empty_entire_stack_loop].
    rewrite (read_value_top w c v Hwf Hc). cbn [fst snd].
    change (sizeof_int =? 0) with false.
    change (sizeof_int =? sizeof_int) with true. cbn [negb Client.print_value].
    destruct (Z.ltb_spec count INT_MAX); [| lia].
    set (w1 := Client.print (Printf "%d\n" [AInt v])
                 (Client.set_dev w (popped (Client.dev w)))).
    destruct (IH fuel (count + 1) w1) as (w' & Hrun & Hpr & Hcont & Hcap & He).
    + apply popped_wf; assumption.
    + cbn [w1 Client.print Client.set_dev Client.dev].
      eapply popped_contents; eauto.
    + lia.
    + lia.
    + lia.
    + exists w'. split; [exact Hrun |].
      rewrite Hpr, rev_app_distr, length_app. cbn [length rev app map].
      cbn [w1 Client.print Client.set_dev Client.printed].
      rewrite <- app_assoc. cbn [app].
      replace (count + 1 + Z.of_nat (length c))
        with (count + Z.of_nat (length c + 1)) by lia.
      split; [reflexivity |]. split; [assumption |].
      split; [exact Hcap | exact He].
Qed.

(** X15.  [unwind] empties the stack and prints it.  On a well-formed
    buffer holding at most [INT_MAX] values, the loop of
    [empty_entire_stack] ends after one read more than there are values,
    with exit status 0; it prints every value, the most recently pushed
    first, prints "Stack is empty" only if there was none, and leaves the
    stack empty with its capacity unchanged. *)
Theorem unwind_prints_stack fuel w :
  wf (Client.dev w) -> position (Client.dev w) <= INT_MAX ->
  (length (contents (Client.dev w)) < fuel)%nat ->
  exists w',
    Client.empty_entire_stack fuel w = Some (Done (EXIT_SUCCESS, w')) /\
    Client.printed w' =
      Client.printed w ++
      map (fun v => Printf "%d\n" [AInt v]) (rev (contents (Client.dev w))) ++
      (match contents (Client.dev w) with
       | [] => [Printf "Stack is empty\n" []]
       | _ => []
       end) /\
    contents (Client.dev w') = [] /\
    capacity (Client.dev w') = capacity (Client.dev w).
Proof.
  intros Hwf Hmax Hfuel. pose proof (wf_contents_length _ Hwf) as Hlen.
  destruct (unwind_loop (contents (Client.dev w)) fuel 0 w)
    as (w' & Hrun & Hpr & Hc & Hcap & _);
    [assumption | reflexivity | assumption | lia | lia |].
  exists w'. split; [exact Hrun |]. split; [| auto].
  rewrite Hpr. do 2 f_equal.
  destruct (contents (Client.dev w)); [reflexivity |].
  cbn [length]. destruct (Z.eqb_spec (0 + Z.of_nat (S (length l))) 0);
    [lia | reflexivity].
Qed.

(** X16.  [pop] prints the top of the stack.  On a well-formed buffer,
    [retrieve_value_from_stack] exits with status 0 in both cases: it
    prints the most recently pushed value and removes it, or, on an empty
    stack, prints "Stack is empty" and removes nothing.  It never reports a
    read error. *)
Theorem pop_prints_top w :
  wf (Client.dev w) ->
  exists w',
    Client.retrieve_value_from_stack w = Done (EXIT_SUCCESS, w') /\
    Client.errno w' = Client.errno w /\
    match last (contents (Client.dev w)) with
    | Some v =>
        Client.printed w' = Client.printed w ++ [Printf "%d\n" [AInt v]] /\
        contents (Client.dev w') = removelast (contents (Client.dev w))
    | None =>
        Client.printed w' = Client.printed w ++ [Printf "Stack is empty\n" []] /\
        contents (Client.dev w') = []
    end.
Proof.
  intros Hwf. unfold Client.retrieve_value_from_stack.
  destruct (Z.eq_dec (position (Client.dev w)) 0) as [Hz | Hnz].
  - rewrite read_value_empty by assumption. cbn [bind fst snd].
    change (0 =? 0) with true. cbv iota.
    rewrite (wf_empty_contents _ Hwf Hz). cbn [last].
    eexists. split; [reflexivity |]. split; [reflexivity |].
    split; [reflexivity |]. apply (wf_empty_contents _ Hwf Hz).
  - assert (0 < position (Client.dev w)) as Hpos by (destruct Hwf; lia).
    destruct (contents_top _ Hwf Hpos) as (c & v & Hc).
    rewrite (read_value_top w c v Hwf Hc). cbn [bind fst snd].
    change (sizeof_int =? 0) with false.
    change (sizeof_int =? sizeof_int) with true. cbn [Client.print_value bind].
    rewrite (contents_last _ c v Hc), (contents_removelast _ c v Hc).
    eexists. split; [reflexivity |]. split; [reflexivity |].
    split; [reflexivity |]. eapply popped_contents; eauto.
Qed.

(** X17.  [set-size] validates before it touches the device and applies a
    size that fits an [int].  An argument that does not parse to the end or
    is not positive gives exit status 4 and one line on standard error,
    the device untouched.  A size from 1 to [INT_MAX] is handed to the
    driver: when the allocation is granted the exit status is 0, the
    capacity is that size and the stack keeps its oldest values up to it;
    when it is refused the exit status is 2, [errno] is [ENOMEM] and the
    device is untouched. *)
Theorem set_size_behaviour strtol (kz : allocator) s w :
  wf (Client.dev w) ->
  (at_end (strtol s) = false \/ parsed (strtol s) <= 0 ->
     exists w',
       Client.configure_stack_size strtol kz s w =
         Done (EXIT_FORMAT_ERROR, w') /\
       Client.dev w' = Client.dev w /\
       Client.printed w' =
         Client.printed w ++
         [Eprintf "Error: Stack size must be a positive number\n" []]) /\
  (at_end (strtol s) = true -> 0 < parsed (strtol s) <= INT_MAX ->
     kz (sizeof_int * parsed (strtol s)) = true ->
     exists w',
       Client.configure_stack_size strtol kz s w = Done (EXIT_SUCCESS, w') /\
       capacity (Client.dev w') = parsed (strtol s) /\
       contents (Client.dev w') =
         take (Z.to_nat (parsed (strtol s))) (contents (Client.dev w)) /\
       Client.printed w' = Client.printed w) /\
  (at_end (strtol s) = true -> 0 < parsed (strtol s) <= INT_MAX ->
     kz (sizeof_int * parsed (strtol s)) = false ->
     exists w',
       Client.configure_stack_size strtol kz s w =
         Done (EXIT_CONFIG_ERROR, w') /\
       Client.dev w' = Client.dev w /\ Client.errno w' = ENOMEM /\
       Client.printed w' =
         Client.printed w ++
         [Eprintf "Error: Failed to configure stack size: %s\n"
            [AStrerror ENOMEM]]).
Proof.
  intros Hwf. unfold Client.configure_stack_size.
  assert (forall p, Client.dev (Client.after_strtol p w) = Client.dev w /\
                    Client.printed (Client.after_strtol p w) =
                      Client.printed w) as Hafter.
  { intros p. unfold Client.after_strtol.
    destruct (out_of_range p); split; reflexivity. }
  destruct (Hafter (strtol s)) as (Hdev & Hprinted).
  split; [| split].
  - intros Hbad.
    assert (negb (at_end (strtol s)) || (parsed (strtol s) <=? 0) = true)
      as ->.
    { destruct Hbad as [-> | Hle]; [reflexivity |].
      destruct (Z.leb_spec (parsed (strtol s)) 0); [| lia].
      apply orb_true_r. }
    eexists. split; [reflexivity |].
    cbn [Client.print Client.dev Client.printed].
    rewrite Hdev, Hprinted. auto.
  - intros Hend Hrange Hg. rewrite Hend. cbn [negb orb].
    destruct (Z.leb_spec (parsed (strtol s)) 0); [lia |].
    rewrite to_int_small by (unfold is_int, INT_MIN, INT_MAX in *; lia).
    rewrite ioctl_set_capacity_int, Hdev;
      [| rewrite Hdev; assumption
       | unfold is_int, INT_MIN, INT_MAX in *; lia].
    destruct (Z.ltb_spec (parsed (strtol s)) 0); [lia |].
    destruct (Z.eqb_spec (parsed (strtol s)) 0); [lia |].
    rewrite Hg. cbn [bind fst snd]. change (sys_return 0) with (0, @None Z).
    cbn [fst snd Client.set_errno]. change (0 =? 0) with true. cbn [negb].
    eexists. split; [reflexivity |].
    cbn [Client.set_dev Client.dev Client.printed].
    split; [reflexivity |].
    split; [apply resized_contents; [assumption | lia] | assumption].
  - intros Hend Hrange Hg. rewrite Hend. cbn [negb orb].
    destruct (Z.leb_spec (parsed (strtol s)) 0); [lia |].
    rewrite to_int_small by (unfold is_int, INT_MIN, INT_MAX in *; lia).
    rewrite ioctl_set_capacity_int, Hdev;
      [| rewrite Hdev; assumption
       | unfold is_int, INT_MIN, INT_MAX in *; lia].
    destruct (Z.ltb_spec (parsed (strtol s)) 0); [lia |].
    destruct (Z.eqb_spec (parsed (strtol s)) 0); [lia |].
    rewrite Hg. cbn [bind fst snd].
    change (sys_return (- ENOMEM)) with (-1, Some ENOMEM).
    cbn [fst snd Client.set_errno Client.set_dev Client.errno Client.printed
         Client.dev].
    change (-1 =? 0) with false. change (ENOMEM =? EBUSY) with false.
    change (ENOMEM =? EINVAL) with false. cbn [negb].
    eexists. split; [reflexivity |].
    cbn [Client.print Client.dev Client.errno Client.printed].
    rewrite Hprinted. auto.
Qed.

(** X18.  [set-size] hands the driver only the low 32 bits of the size.  A
    positive size whose low 32 bits are all zero, such as 4294967296,
    passes the client's validation, reaches the driver as 0 and makes it
    release the array: the command exits with status 0 and prints nothing,
    while capacity and count are 0 and the stacked values are gone. *)
Theorem set_size_wraps_to_release strtol kz s w :
  at_end (strtol s) = true -> 0 < parsed (strtol s) ->
  to_int (parsed (strtol s)) = 0 ->
  exists w',
    Client.configure_stack_size strtol kz s w = Done (EXIT_SUCCESS, w') /\
    elements (Client.dev w') = None /\ capacity (Client.dev w') = 0 /\
    position (Client.dev w') = 0 /\ contents (Client.dev w') = [] /\
    Client.printed w' = Client.printed w.
Proof.
  intros Hend Hpos Hlow. unfold Client.configure_stack_size.
  rewrite Hend. cbn [negb orb].
  destruct (Z.leb_spec (parsed (strtol s)) 0); [lia |].
  rewrite Hlow. unfold Lab4.buffer_ioctl, own_variable. cbn [u_fetch].
  change (STACK_CONFIG_CMD =? INT_STACK_SET_MAX_SIZE) with true. cbv iota.
  change (0 <? 0) with false. cbv iota.
  rewrite resize_buffer_zero. cbn [bind fst snd].
  change (sys_return 0) with (0, @None Z). cbn [fst snd Client.set_errno].
  change (0 =? 0) with true. cbn [negb].
  eexists. split; [reflexivity |].
  cbn [Client.set_dev Client.dev Client.printed elements capacity position].
  do 4 (split; [reflexivity |]).
  unfold Client.after_strtol. destruct (out_of_range (strtol s)); reflexivity.
Qed.

(** X19.  The client's "already configured" branch is dead.  Whatever the
    argument, on a well-formed buffer [configure_stack_size] returns with
    exit status 0, 2 or 4, prints at most one line, and that line is never
    the one for [EBUSY]: the driver has no such answer. *)
Theorem set_size_never_busy strtol kz s w :
  wf (Client.dev w) ->
  exists st w',
    Client.configure_stack_size strtol kz s w = Done (st, w') /\
    (st = EXIT_SUCCESS \/ st = EXIT_CONFIG_ERROR \/ st = EXIT_FORMAT_ERROR) /\
    (Client.printed w' = Client.printed w \/
     exists line,
       Client.printed w' = Client.printed w ++ [line] /\
       line <> Eprintf "Error: Stack size has already been configured\n" []).
Proof.
  intros Hwf. unfold Client.configure_stack_size.
  assert (Client.dev (Client.after_strtol (strtol s) w) = Client.dev w /\
          Client.printed (Client.after_strtol (strtol s) w) =
            Client.printed w) as (Hdev & Hprinted).
  { unfold Client.after_strtol.
    destruct (out_of_range (strtol s)); split; reflexivity. }
  destruct (negb (at_end (strtol s)) || (parsed (strtol s) <=? 0)).
  { eexists _, _. split; [reflexivity |]. split; [auto |]. right.
    eexists. cbn [Client.print Client.set_dev Client.printed].
    rewrite Hprinted.
    split; [reflexivity | discriminate]. }
  rewrite ioctl_set_capacity_int, Hdev;
    [| rewrite Hdev; assumption | apply to_int_range].
  destruct (to_int (parsed (strtol s)) <? 0).
  { cbn [bind fst snd]. change (sys_return (- EINVAL)) with (-1, Some EINVAL).
    cbn [fst snd Client.set_errno Client.set_dev Client.errno].
    change (-1 =? 0) with false. change (EINVAL =? EBUSY) with false.
    change (EINVAL =? EINVAL) with true. cbn [negb].
    eexists _, _. split; [reflexivity |]. split; [auto |]. right.
    eexists. cbn [Client.print Client.set_dev Client.printed].
    rewrite Hprinted.
    split; [reflexivity | discriminate]. }
  destruct (to_int (parsed (strtol s)) =? 0).
  { cbn [bind fst snd]. change (sys_return 0) with (0, @None Z).
    cbn [fst snd Client.set_errno]. change (0 =? 0) with true. cbn [negb].
    eexists _, _. split; [reflexivity |]. split; [auto |]. left.
    cbn [Client.set_dev Client.printed]. assumption. }
  destruct (kz (sizeof_int * to_int (parsed (strtol s)))).
  { cbn [bind fst snd]. change (sys_return 0) with (0, @None Z).
    cbn [fst snd Client.set_errno]. change (0 =? 0) with true. cbn [negb].
    eexists _, _. split; [reflexivity |]. split; [auto |]. left.
    cbn [Client.set_dev Client.printed]. assumption. }
  cbn [bind fst snd]. change (sys_return (- ENOMEM)) with (-1, Some ENOMEM).
  cbn [fst snd Client.set_errno Client.set_dev Client.errno].
  change (-1 =? 0) with false. change (ENOMEM =? EBUSY) with false.
  change (ENOMEM =? EINVAL) with false. cbn [negb].
  eexists _, _. split; [reflexivity |]. split; [auto |]. right.
  eexists. cbn [Client.print Client.set_dev Client.printed].
    rewrite Hprinted.
  split; [reflexivity | discriminate].
Qed.

(** X20.  [push] stores the parsed value, cut to an [int].  An argument
    that does not parse to the end gives exit status 4 with the device
    untouched.  Otherwise the value's low 32 bits are written: with room in
    a well-formed buffer the exit status is 0 and that [int] (the value
    itself when it fits) is on top of the stack; on a full buffer with
    growth off the exit status is 3, [errno] is [ENOSPC], "Stack is full"
    is printed and the store is untouched. *)
Theorem push_client_behaviour strtol ear kz s w :
  wf (Client.dev w) ->
  (at_end (strtol s) = false ->
     exists w',
       Client.add_value_to_stack strtol ear kz s w =
         Done (EXIT_FORMAT_ERROR, w') /\
       Client.dev w' = Client.dev w /\
       Client.printed w' =
         Client.printed w ++
         [Eprintf "Error: Input must be a valid integer\n" []]) /\
  (at_end (strtol s) = true ->
   position (Client.dev w) < capacity (Client.dev w) ->
     exists w',
       Client.add_value_to_stack strtol ear kz s w = Done (EXIT_SUCCESS, w') /\
       contents (Client.dev w') =
         contents (Client.dev w) ++ [to_int (parsed (strtol s))] /\
       (is_int (parsed (strtol s)) ->
          last (contents (Client.dev w')) = Some (parsed (strtol s))) /\
       Client.printed w' = Client.printed w) /\
  (at_end (strtol s) = true ->
   position (Client.dev w) = capacity (Client.dev w) -> ear = 0 ->
     exists w',
       Client.add_value_to_stack strtol ear kz s w =
         Done (EXIT_IO_ERROR, w') /\
       same_store (Client.dev w) (Client.dev w') /\
       Client.errno w' = ENOSPC /\
       Client.printed w' =
         Client.printed w ++ [Eprintf "Error: Stack is full\n" []]).
Proof.
  intros Hwf. unfold Client.add_value_to_stack.
  assert (Client.dev (Client.after_strtol (strtol s) w) = Client.dev w /\
          Client.printed (Client.after_strtol (strtol s) w) =
            Client.printed w) as (Hdev & Hprinted).
  { unfold Client.after_strtol.
    destruct (out_of_range (strtol s)); split; reflexivity. }
  split; [| split].
  - intros ->. cbn [negb]. eexists. split; [reflexivity |].
    cbn [Client.print Client.dev Client.printed]. rewrite Hdev, Hprinted. auto.
  - intros -> Hroom. cbn [negb]. rewrite Hdev.
    rewrite (buffer_write_room ear kz _ (to_int (parsed (strtol s))))
      by (assumption || reflexivity).
    cbn [bind fst snd]. change (sys_return sizeof_int) with (sizeof_int, @None Z).
    cbn [fst snd Client.set_errno].
    change (sizeof_int =? sizeof_int) with true. cbn [negb].
    eexists. split; [reflexivity |].
    cbn [Client.set_dev Client.dev Client.printed].
    rewrite pushed_contents by assumption.
    split; [reflexivity |]. split; [| assumption].
    intros Hint. rewrite to_int_small by assumption. apply last_snoc.
  - intros -> Hfull ->. cbn [negb]. rewrite Hdev.
    rewrite (buffer_write_full_fixed kz _ (to_int (parsed (strtol s))))
      by (reflexivity || lia).
    cbn [bind fst snd]. change (sys_return (- ENOSPC)) with (-1, Some ENOSPC).
    cbn [fst snd Client.set_errno Client.set_dev Client.errno].
    change (-1 =? sizeof_int) with false.
    change (ENOSPC =? ENOSPC) with true. cbn [negb orb].
    eexists. split; [reflexivity |].
    cbn [Client.print Client.set_dev Client.dev Client.errno Client.printed].
    split; [apply same_store_set_stats |]. rewrite Hprinted. auto.
Qed.

Lemma fold_print os : forall w,
  Client.dev (fold_left (fun w o => Client.print o w) os w) = Client.dev w /\
  Client.printed (fold_left (fun w o => Client.print o w) os w) =
    Client.printed w ++ os /\
  Client.errno (fold_left (fun w o => Client.print o w) os w) = Client.errno w.
Proof.
  induction os as [| o os IH]; intros w.
  - cbn. rewrite app_nil_r. auto.
  - cbn [fold_left]. destruct (IH (Client.print o w)) as (Hd & Hp & He).
    rewrite Hd, Hp, He. cbn [Client.print Client.dev Client.printed
      Client.errno]. rewrite <- app_assoc. auto.
Qed.

(** X21.  From the command line, a value pushed is the value popped.  When
    the device opens, the buffer is well formed with room, and the
    argument parses completely to an [int] [v], running the program with
    [push] and then with [pop] gives exit status 0 twice, prints [v] and
    nothing else, and leaves the stack as it was before the push. *)
Theorem main_push_then_pop strtol ear kz fuel1 fuel2 prog s v w :
  wf (Client.dev w) ->
  position (Client.dev w) < capacity (Client.dev w) ->
  strtol s = {| parsed := v; at_end := true; out_of_range := false |} ->
  is_int v ->
  exists w1 w2,
    Client.main strtol 0 None ear kz fuel1 [prog; "push"%string; s] w =
      Some (Done (EXIT_SUCCESS, w1)) /\
    Client.main strtol 0 None ear kz fuel2 [prog; "pop"%string] w1 =
      Some (Done (EXIT_SUCCESS, w2)) /\
    Client.printed w2 = Client.printed w ++ [Printf "%d\n" [AInt v]] /\
    contents (Client.dev w2) = contents (Client.dev w).
Proof.
  intros Hwf Hroom Hs Hv.
  set (w1 := Client.set_dev w (pushed v (Client.dev w))).
  assert (wf (Client.dev w1)) as Hwf1 by (apply pushed_wf; assumption).
  assert (contents (Client.dev w1) = contents (Client.dev w) ++ [v]) as Hc1
    by (apply pushed_contents; assumption).
  exists w1, (Client.print (Printf "%d\n" [AInt v])
                (Client.set_dev w1 (popped (Client.dev w1)))).
  split; [| split; [| split]].
  - unfold Client.main. cbn [negb Z.eqb length Z.of_nat nth].
    cbn [String.eqb Ascii.eqb Bool.eqb].
    unfold Client.add_value_to_stack. rewrite Hs.
    cbn [at_end parsed out_of_range negb Client.after_strtol].
    rewrite to_int_small by assumption.
    rewrite (buffer_write_room ear kz _ v) by (assumption || reflexivity).
    reflexivity.
  - unfold Client.main. cbn [negb Z.eqb length Z.of_nat nth].
    cbn [String.eqb Ascii.eqb Bool.eqb].
    unfold Client.retrieve_value_from_stack.
    rewrite (read_value_top w1 (contents (Client.dev w)) v Hwf1 Hc1).
    reflexivity.
  - reflexivity.
  - cbn [Client.print Client.set_dev Client.dev].
    eapply popped_contents; eauto.
Qed.

(** X22.  What [main] refuses without calling into the driver.  With no
    command it prints the usage and exits with status 1 before it even
    opens the device.  When the device cannot be opened it reports the
    error and exits with status 3, whatever the command.  A command that
    is none of the four, and [push] or [set-size] without exactly one
    argument, give exit status 1.  In all these cases the device structure
    is untouched. *)
Theorem main_refusals strtol atexit_status open_errno ear kz fuel w :
  (forall prog,
     exists w',
       Client.main strtol atexit_status open_errno ear kz fuel [prog] w =
         Some (Done (EXIT_FAILURE, w')) /\
       Client.dev w' = Client.dev w /\
       Client.printed w' = Client.printed w ++ show_help prog) /\
  (forall prog command rest e, open_errno = Some e ->
     exists w',
       Client.main strtol atexit_status open_errno ear kz fuel
         (prog :: command :: rest) w = Some (Done (EXIT_IO_ERROR, w')) /\
       Client.dev w' = Client.dev w /\ Client.errno w' = e) /\
  (forall prog command rest, open_errno = None ->
     command <> "set-size"%string -> command <> "push"%string ->
     command <> "pop"%string -> command <> "unwind"%string ->
     exists w',
       Client.main strtol atexit_status open_errno ear kz fuel
         (prog :: command :: rest) w = Some (Done (EXIT_FAILURE, w')) /\
       Client.dev w' = Client.dev w) /\
  (forall prog command rest, open_errno = None ->
     command = "set-size"%string \/ command = "push"%string ->
     length rest <> 1%nat ->
     exists w',
       Client.main strtol atexit_status open_errno ear kz fuel
         (prog :: command :: rest) w = Some (Done (EXIT_FAILURE, w')) /\
       Client.dev w' = Client.dev w).
Proof.
  assert (forall x : Client.world,
            Client.dev
              (if negb (atexit_status =? 0)
               then Client.print
                      (Eprintf "Warning: Could not register cleanup handler\n"
                         []) x
               else x) = Client.dev x) as Hatexit.
  { intros x. destruct (negb (atexit_status =? 0)); reflexivity. }
  split; [| split; [| split]].
  - intros prog. cbn [Client.main]. eexists. split; [reflexivity |].
    destruct (fold_print (show_help prog) w) as (Hd & Hp & _). auto.
  - intros prog command rest e ->. cbn [Client.main].
    eexists. split; [reflexivity |].
    cbn [Client.print Client.set_errno Client.dev Client.errno].
    split; [apply Hatexit | reflexivity].
  - intros prog command rest -> H1 H2 H3 H4. cbn [Client.main].
    apply String.eqb_neq in H1, H2, H3, H4. rewrite H1, H2, H3, H4.
    eexists. split; [reflexivity |].
    match goal with
    | |- Client.dev (fold_left _ ?os ?x) = _ =>
        rewrite (proj1 (fold_print os x))
    end.
    apply Hatexit.
  - intros prog command rest -> Hcmd Hlen. cbn [Client.main].
    assert (negb (Z.of_nat (length (prog :: command :: rest)) =? 3) = true)
      as Hargc.
    { cbn [length]. destruct (Z.eqb_spec (Z.of_nat (S (S (length rest)))) 3);
        [lia | reflexivity]. }
    destruct Hcmd as [-> | ->].
    + cbn [String.eqb Ascii.eqb Bool.eqb]. rewrite Hargc.
      eexists. split; [reflexivity |]. cbn [Client.print Client.dev].
      apply Hatexit.
    + cbn [String.eqb Ascii.eqb Bool.eqb]. rewrite Hargc.
      eexists. split; [reflexivity |]. cbn [Client.print Client.dev].
      apply Hatexit.
Qed.

(** * The client of the gated driver *)

Lemma usb_after_strtol p w :
  UsbClient.dev (UsbClient.after_strtol p w) = UsbClient.dev w /\
  UsbClient.printed (UsbClient.after_strtol p w) = UsbClient.printed w.
Proof.
  unfold UsbClient.after_strtol. destruct (out_of_range p); split; reflexivity.
Qed.

Lemma usb_read_value_absent w :
  Lab5.usb_key_present (UsbClient.dev w) = 0 ->
  UsbClient.read_value w =
    Done (-1, None,
          {| UsbClient.errno := ENODEV; UsbClient.printed := UsbClient.printed w;
             UsbClient.dev := UsbClient.dev w |}).
Proof.
  intros Habsent. unfold UsbClient.read_value, Lab5.buffer_read.
  rewrite Habsent. reflexivity.
Qed.

(** X23.  With the key absent the gated client reports it and nothing
    else happens.  Each of its four commands, given arguments that pass its
    own validation, prints "USB key not inserted" once, exits with status 5
    and leaves the module untouched; [main] already stops that way when it
    opens the device. *)
Theorem usb_client_absent strtol atexit_status ear kz w :
  Lab5.usb_key_present (UsbClient.dev w) = 0 ->
  let missing := Eprintf "Error: USB key not inserted\n" [] in
  (exists w',
     UsbClient.retrieve_value_from_stack w = Done (EXIT_USB_ERROR, w') /\
     UsbClient.dev w' = UsbClient.dev w /\
     UsbClient.printed w' = UsbClient.printed w ++ [missing]) /\
  (forall fuel, exists w',
     UsbClient.empty_entire_stack (S fuel) w =
       Some (Done (EXIT_USB_ERROR, w')) /\
     UsbClient.dev w' = UsbClient.dev w /\
     UsbClient.printed w' = UsbClient.printed w ++ [missing]) /\
  (forall s, at_end (strtol s) = true -> exists w',
     UsbClient.add_value_to_stack strtol ear kz s w =
       Done (EXIT_USB_ERROR, w') /\
     UsbClient.dev w' = UsbClient.dev w /\
     UsbClient.printed w' = UsbClient.printed w ++ [missing]) /\
  (forall s, at_end (strtol s) = true -> 0 < parsed (strtol s) -> exists w',
     UsbClient.configure_stack_size strtol kz s w =
       Done (EXIT_USB_ERROR, w') /\
     UsbClient.dev w' = UsbClient.dev w /\
     UsbClient.printed w' = UsbClient.printed w ++ [missing]) /\
  (forall fuel prog command rest, exists w',
     UsbClient.main strtol atexit_status None ear kz fuel
       (prog :: command :: rest) w = Some (Done (EXIT_USB_ERROR, w')) /\
     UsbClient.dev w' = UsbClient.dev w /\
     last (UsbClient.printed w') = Some missing).
Proof.
  intros Habsent missing. split; [| split; [| split; [| split]]].
  - unfold UsbClient.retrieve_value_from_stack.
    rewrite usb_read_value_absent by assumption.
    eexists. split; [reflexivity |]. split; reflexivity.
  - intros fuel. unfold UsbClient.empty_entire_stack.
    cbn [UsbClient.empty_entire_stack_loop].
    rewrite usb_read_value_absent by assumption.
    eexists. split; [reflexivity |]. split; reflexivity.
  - intros s Hend. unfold UsbClient.add_value_to_stack. rewrite Hend.
    cbn [negb]. destruct (usb_after_strtol (strtol s) w) as (Hdev & Hpr).
    unfold Lab5.buffer_write. rewrite Hdev, Habsent.
    change (0 =? 0) with true. cbn [bind fst snd].
    change (sys_return (- ENODEV)) with (-1, Some ENODEV).
    cbn [fst snd UsbClient.set_errno UsbClient.set_dev UsbClient.errno].
    change (-1 =? sizeof_int) with false.
    change (ENODEV =? ENODEV) with true. cbn [negb].
    eexists. split; [reflexivity |].
    cbn [UsbClient.usb_key_missing UsbClient.print UsbClient.set_dev
         UsbClient.dev UsbClient.printed].
    rewrite Hpr. auto.
  - intros s Hend Hpos. unfold UsbClient.configure_stack_size. rewrite Hend.
    cbn [negb orb]. destruct (Z.leb_spec (parsed (strtol s)) 0); [lia |].
    destruct (usb_after_strtol (strtol s) w) as (Hdev & Hpr).
    unfold Lab5.buffer_ioctl. rewrite Hdev, Habsent.
    change (0 =? 0) with true. cbn [bind fst snd].
    change (sys_return (- ENODEV)) with (-1, Some ENODEV).
    cbn [fst snd UsbClient.set_errno UsbClient.set_dev UsbClient.errno].
    change (-1 =? 0) with false.
    change (ENODEV =? ENODEV) with true. cbn [negb].
    eexists. split; [reflexivity |].
    cbn [UsbClient.usb_key_missing UsbClient.print UsbClient.set_dev
         UsbClient.dev UsbClient.printed].
    rewrite Hpr. auto.
  - intros fuel prog command rest. cbn [UsbClient.main].
    assert (forall x : UsbClient.world,
              UsbClient.dev
                (if negb (atexit_status =? 0)
                 then UsbClient.print
                        (Eprintf
                           "Warning: Could not register cleanup handler\n" [])
                        x
                 else x) = UsbClient.dev x) as Hatexit.
    { intros x. destruct (negb (atexit_status =? 0)); reflexivity. }
    unfold Lab5.buffer_open. rewrite Hatexit, Habsent.
    change (sys_return (if 0 =? 0 then - ENODEV else 0))
      with (-1, Some ENODEV).
    cbn [fst snd UsbClient.set_errno UsbClient.errno].
    change (-1 <? 0) with true. change (ENODEV =? ENODEV) with true.
    cbv iota. eexists. split; [reflexivity |].
    cbn [UsbClient.usb_key_missing UsbClient.print UsbClient.dev
         UsbClient.printed].
    split; [apply Hatexit | apply last_snoc].
Qed.

(** The statuses the client's own calls can meet, on any buffer. *)
Lemma resize_buffer_status kz k b r b' :
  Lab4.resize_buffer kz k b = Done (r, b') -> r = 0 \/ r = - ENOMEM.
Proof.
  unfold Lab4.resize_buffer. destruct (k =? 0); [intros [= <- _]; auto |].
  destruct (kzalloc kz (wrap_size (sizeof_int * k))) as [a |];
    [| intros [= <- _]; auto].
  destruct (elements b) as [old |]; [| intros [= <- _]; auto].
  destruct (0 <? position b); [| intros [= <- _]; auto].
  destruct (memcpy a old _); cbn [bind]; [intros [= <- _]; auto | discriminate].
Qed.

Lemma client_read_status b st o b' :
  Lab4.buffer_read {| u_fetch := None; u_writable := true |} sizeof_int b =
    Done (st, o, b') ->
  st = 0 \/ st = sizeof_int.
Proof.
  unfold Lab4.buffer_read. change (sizeof_int <? sizeof_int) with false.
  cbv iota. destruct (position b =? 0); [intros [= <- _ _]; auto |].
  destruct (load _ _); cbn [bind u_writable];
    [intros [= <- _ _]; auto | discriminate].
Qed.

Lemma client_write_status ear kz v b st b' :
  Lab4.buffer_write ear kz (own_variable v) sizeof_int b = Done (st, b') ->
  st = sizeof_int \/ st = - ENOSPC.
Proof.
  assert (forall x y, Lab4.push_value v x = Done (st, y) -> st = sizeof_int)
    as Hpush.
  { intros x y. unfold Lab4.push_value.
    destruct (store _ _ _); cbn [bind]; [intros [= <- _]; auto | discriminate]. }
  unfold Lab4.buffer_write. change (sizeof_int =? sizeof_int) with true.
  cbn [negb own_variable u_fetch].
  destruct (capacity b <=? position b); [| intros H; left; eauto].
  destruct (negb (ear =? 0)); [| intros [= <- _]; auto].
  destruct (Lab4.resize_buffer _ _ _) as [r |]; cbn [bind]; [| discriminate].
  destruct (fst r <? 0); [intros [= <- _]; auto | intros H; left; eauto].
Qed.

Lemma client_ioctl_status kz k b st o b' :
  Lab4.buffer_ioctl kz STACK_CONFIG_CMD (own_variable k) b = Done (st, o, b') ->
  st = 0 \/ st = - EINVAL \/ st = - ENOMEM.
Proof.
  unfold Lab4.buffer_ioctl.
  change (STACK_CONFIG_CMD =? INT_STACK_SET_MAX_SIZE) with true.
  cbn [own_variable u_fetch]. destruct (k <? 0); [intros [= <- _ _]; auto |].
  destruct (Lab4.resize_buffer kz k b) as [[r x] |] eqn:Hr; cbn [bind];
    [| discriminate].
  intros [= <- _ _]. cbn [fst].
  destruct (resize_buffer_status _ _ _ _ _ Hr); auto.
Qed.

Lemma gated_result_flags w1 w2 r :
  Lab5.usb_key_present (UsbClient.dev w1) =
    Lab5.usb_key_present (UsbClient.dev w2) ->
  Lab5.device_registered (UsbClient.dev w1) =
    Lab5.device_registered (UsbClient.dev w2) ->
  gated_result w1 r = gated_result w2 r.
Proof.
  intros Hp Hr. destruct r as [[st c] |]; [| reflexivity].
  unfold gated_result, gated_world, Lab5.set_dev_buffer. cbn [fst snd].
  rewrite Hp, Hr. reflexivity.
Qed.

Lemma usb_read_value_present w :
  Lab5.usb_key_present (UsbClient.dev w) <> 0 ->
  UsbClient.read_value w =
    match Client.read_value (plain_world w) with
    | Done r => Done (fst r, gated_world w (snd r))
    | Oops => Oops
    end.
Proof.
  intros Hp. unfold UsbClient.read_value, Client.read_value.
  rewrite present_buffer_read by assumption.
  cbn [plain_world Client.dev].
  destruct (Lab4.buffer_read _ _ _) as [[[st o] b'] |]; [| reflexivity].
  cbn [bind fst snd]. destruct (sys_return st) as [ret [e |]]; reflexivity.
Qed.

Lemma usb_unwind_loop_present fuel : forall count w,
  Lab5.usb_key_present (UsbClient.dev w) <> 0 ->
  UsbClient.empty_entire_stack_loop fuel count w =
    option_map (gated_result w)
      (Client.empty_entire_stack_loop fuel count (plain_world w)).
Proof.
  induction fuel as [| fuel IH]; intros count w Hp; [reflexivity |].
  cbn [UsbClient.empty_entire_stack_loop Client.empty_entire_stack_loop].
  rewrite usb_read_value_present by assumption.
  unfold Client.read_value. cbn [plain_world Client.dev].
  destruct (Lab4.buffer_read _ _ _) as [[[st o] b'] |] eqn:Hread;
    [| reflexivity].
  cbn [bind fst snd].
  destruct (client_read_status _ _ _ _ Hread) as [-> | ->].
  - change (sys_return 0) with (0, @None Z). cbn [fst snd].
    change (0 =? 0) with true. cbv iota.
    destruct (count =? 0); reflexivity.
  - change (sys_return sizeof_int) with (sizeof_int, @None Z). cbn [fst snd].
    change (sizeof_int =? 0) with false.
    change (sizeof_int =? sizeof_int) with true. cbn [negb].
    destruct o as [v |]; [| reflexivity].
    cbn [UsbClient.print_value Client.print_value].
    destruct (count <? INT_MAX); [| reflexivity].
    rewrite IH by (cbn; assumption). reflexivity.
Qed.

Lemma set_dev_buffer_same d :
  Lab5.set_dev_buffer d (Lab5.dev_buffer d) = d.
Proof. destruct d; reflexivity. Qed.

Lemma gated_print o w :
  gated_world w (Client.print o (plain_world w)) = UsbClient.print o w.
Proof.
  unfold gated_world, Client.print, plain_world, UsbClient.print.
  cbn [Client.errno Client.printed Client.dev].
  rewrite set_dev_buffer_same. reflexivity.
Qed.

(** X24.  With the key present the gated client is the plain client.  Each
    of the four commands of the gated client returns what the plain
    client's command returns on the buffer alone (same exit status, same
    lines printed, same [errno], same buffer), and leaves the two flags of
    the module as they were; its "USB key not inserted" branches are never
    taken. *)
Theorem usb_client_present_like_plain strtol ear kz w :
  Lab5.usb_key_present (UsbClient.dev w) <> 0 ->
  UsbClient.retrieve_value_from_stack w =
    gated_result w (Client.retrieve_value_from_stack (plain_world w)) /\
  (forall fuel,
     UsbClient.empty_entire_stack fuel w =
       option_map (gated_result w)
         (Client.empty_entire_stack fuel (plain_world w))) /\
  (forall s,
     UsbClient.add_value_to_stack strtol ear kz s w =
       gated_result w (Client.add_value_to_stack strtol ear kz s
                         (plain_world w))) /\
  (forall s,
     UsbClient.configure_stack_size strtol kz s w =
       gated_result w (Client.configure_stack_size strtol kz s
                         (plain_world w))).
Proof.
  intros Hp.
  assert (forall p,
            Lab5.usb_key_present (UsbClient.dev (UsbClient.after_strtol p w))
              <> 0 /\
            plain_world (UsbClient.after_strtol p w) =
              Client.after_strtol p (plain_world w) /\
            forall r, gated_result (UsbClient.after_strtol p w) r =
                      gated_result w r) as Hafter.
  { intros p. unfold UsbClient.after_strtol, Client.after_strtol.
    destruct (out_of_range p); repeat split; assumption || reflexivity. }
  split; [| split; [| split]].
  - unfold UsbClient.retrieve_value_from_stack,
      Client.retrieve_value_from_stack.
    rewrite usb_read_value_present by assumption.
    unfold Client.read_value. cbn [plain_world Client.dev].
    destruct (Lab4.buffer_read _ _ _) as [[[st o] b'] |] eqn:Hread;
      [| reflexivity].
    cbn [bind fst snd].
    destruct (client_read_status _ _ _ _ Hread) as [-> | ->].
    + reflexivity.
    + destruct o; reflexivity.
  - intros fuel. apply usb_unwind_loop_present. assumption.
  - intros s. unfold UsbClient.add_value_to_stack, Client.add_value_to_stack.
    destruct (Hafter (strtol s)) as (Hp' & Hplain & Hres).
    rewrite <- Hres, <- Hplain.
    set (w0 := UsbClient.after_strtol (strtol s) w) in *.
    destruct (negb (at_end (strtol s))).
    { cbn [gated_result fst snd]. rewrite gated_print. reflexivity. }
    rewrite present_buffer_write by assumption.
    cbn [plain_world Client.dev].
    destruct (Lab4.buffer_write _ _ _ _ _) as [[st b'] |] eqn:Hwrite;
      [| reflexivity].
    cbn [bind fst snd].
    destruct (client_write_status _ _ _ _ _ _ Hwrite) as [-> | ->];
      reflexivity.
  - intros s. unfold UsbClient.configure_stack_size,
      Client.configure_stack_size.
    destruct (Hafter (strtol s)) as (Hp' & Hplain & Hres).
    rewrite <- Hres, <- Hplain.
    set (w0 := UsbClient.after_strtol (strtol s) w) in *.
    destruct (negb (at_end (strtol s)) || (parsed (strtol s) <=? 0)).
    { cbn [gated_result fst snd]. rewrite gated_print. reflexivity. }
    rewrite present_buffer_ioctl by assumption.
    cbn [plain_world Client.dev].
    destruct (Lab4.buffer_ioctl _ _ _ _) as [[[st o] b'] |] eqn:Hioctl;
      [| reflexivity].
    cbn [bind fst snd].
    destruct (client_ioctl_status _ _ _ _ _ _ Hioctl) as [-> | [-> | ->]];
      reflexivity.
Qed.


(** ** The further theorems at concrete inputs *)

Lemma same_stack_same_answers_witness :
  wf sample_buffer /\ wf sample_buffer_stale /\
  same_stack sample_buffer sample_buffer_stale /\
  exists outs b1' b2',
    Lab4.run 0 [(page_allocator, pop); (page_allocator, push 7)]
      sample_buffer = Done (outs, b1') /\
    Lab4.run 0 [(page_allocator, pop); (page_allocator, push 7)]
      sample_buffer_stale = Done (outs, b2') /\
    same_stack b1' b2'.
Proof.
  split; [concrete_wf |]. split; [concrete_wf |].
  split; [split; reflexivity |].
  apply (same_stack_same_answers 0
           [(page_allocator, pop); (page_allocator, push 7)]
           sample_buffer sample_buffer_stale);
    [concrete_wf | concrete_wf | split; reflexivity | concrete_requests].
Defined.

Lemma call_status_range_witness :
  wf full_buffer /\ granted_fits page_allocator /\ request_ok (push 7) /\
  exists st out b',
    Lab4.call 0 page_allocator (push 7) full_buffer = Done (st, out, b') /\
    (st = sizeof_int \/ st = - EINVAL \/ st = - EFAULT \/ st = - ENOSPC) /\
    st <> - EBUSY /\ st <> - ERANGE /\ st <> - ENODEV.
Proof.
  split; [concrete_wf |]. split; [concrete_allocator |].
  split; [cbn; unfold is_int, INT_MIN, INT_MAX; lia |].
  apply (call_status_range 0 page_allocator (push 7) full_buffer);
    [concrete_wf | concrete_allocator
     | cbn; unfold is_int, INT_MIN, INT_MAX; lia].
Defined.

Lemma one_counter_per_call_witness :
  wf full_buffer /\ granted_fits page_allocator /\ request_ok (push 7) /\
  exists st out b',
    Lab4.call 0 page_allocator (push 7) full_buffer = Done (st, out, b') /\
    ((st = sizeof_int /\
      push_count (stats b') = atomic_inc (push_count (stats full_buffer)) /\
      (INT_MIN <= push_count (stats full_buffer) < INT_MAX ->
         push_count (stats b') = push_count (stats full_buffer) + 1) /\
      pop_count (stats b') = pop_count (stats full_buffer) /\
      overflow_count (stats b') = overflow_count (stats full_buffer) /\
      underflow_count (stats b') = underflow_count (stats full_buffer)) \/
     (st = - ENOSPC /\
      overflow_count (stats b') = atomic_inc (overflow_count (stats full_buffer)) /\
      (INT_MIN <= overflow_count (stats full_buffer) < INT_MAX ->
         overflow_count (stats b') = overflow_count (stats full_buffer) + 1) /\
      push_count (stats b') = push_count (stats full_buffer) /\
      pop_count (stats b') = pop_count (stats full_buffer) /\
      underflow_count (stats b') = underflow_count (stats full_buffer)) \/
     (st <> sizeof_int /\ st <> - ENOSPC /\ stats b' = stats full_buffer)).
Proof.
  split; [concrete_wf |]. split; [concrete_allocator |].
  split; [cbn; unfold is_int, INT_MIN, INT_MAX; lia |].
  apply (one_counter_per_call 0 page_allocator (push 7) full_buffer);
    [concrete_wf | concrete_allocator
     | cbn; unfold is_int, INT_MIN, INT_MAX; lia].
Defined.

Lemma ioctl_rejections_witness :
  u_fetch (user_cell (-3)) = Some (-3) /\ -3 < 0 /\
  77 <> INT_STACK_SET_MAX_SIZE /\ 77 <> CMD_GET_CAPACITY /\
  77 <> CMD_GET_USAGE /\ 77 <> CMD_CLEAR_BUFFER /\
  Lab4.buffer_ioctl page_allocator INT_STACK_SET_MAX_SIZE (user_cell (-3))
    sample_buffer = Done (- EINVAL, None, sample_buffer) /\
  Lab4.buffer_ioctl page_allocator 77 (user_cell 0) sample_buffer =
    Done (- ENOTTY, None, sample_buffer).
Proof.
  split; [reflexivity |]. split; [lia |].
  split; [vm_compute; discriminate |]. split; [vm_compute; discriminate |].
  split; [vm_compute; discriminate |]. split; [vm_compute; discriminate |].
  split.
  - apply (proj1 (proj2 (ioctl_rejections page_allocator
                           INT_STACK_SET_MAX_SIZE (user_cell (-3))
                           sample_buffer)) (-3));
      [reflexivity | reflexivity | lia].
  - apply (proj2 (proj2 (proj2 (ioctl_rejections page_allocator 77
                                  (user_cell 0) sample_buffer))));
      vm_compute; discriminate.
Defined.

Lemma usage_and_capacity_reported_witness :
  wf sample_buffer /\ capacity sample_buffer <= INT_MAX /\
  u_writable (user_cell 0) = true /\
  Lab4.buffer_ioctl page_allocator CMD_GET_USAGE (user_cell 0) sample_buffer =
    Done (0, Some (Z.of_nat (length (contents sample_buffer))),
          sample_buffer) /\
  Lab4.buffer_ioctl page_allocator CMD_GET_CAPACITY (user_cell 0)
    sample_buffer = Done (0, Some (capacity sample_buffer), sample_buffer).
Proof.
  split; [concrete_wf |]. split; [vm_compute; discriminate |].
  split; [reflexivity |].
  apply (usage_and_capacity_reported page_allocator (user_cell 0)
           sample_buffer);
    [concrete_wf | vm_compute; discriminate | reflexivity].
Defined.

Lemma clear_then_refill_witness :
  wf sample_buffer /\
  Z.of_nat (length [1; 2; 3; 4]) <= capacity sample_buffer /\
  exists b',
    Lab4.run 0 ((no_memory, clear) ::
                map (fun v => (no_memory, push v)) [1; 2; 3; 4] ++
                replicate (length [1; 2; 3; 4]) (no_memory, pop))
      sample_buffer =
      Done ((0, None) :: map (fun _ => (sizeof_int, None)) [1; 2; 3; 4] ++
            map (fun v => (sizeof_int, Some v)) (rev [1; 2; 3; 4]), b') /\
    contents b' = [] /\ capacity b' = capacity sample_buffer.
Proof.
  split; [concrete_wf |]. split; [cbn; lia |].
  apply (clear_then_refill 0 no_memory [1; 2; 3; 4] sample_buffer);
    [concrete_wf | cbn; lia].
Defined.

Lemma shrink_then_pops_witness :
  wf sample_buffer /\ 0 < 2 < position sample_buffer /\ 2 <= INT_MAX /\
  page_allocator (sizeof_int * 2) = true /\
  exists b',
    Lab4.run 0 ((page_allocator, set_capacity 2) ::
                replicate (Z.to_nat 2) (page_allocator, pop)) sample_buffer =
      Done ((0, None) ::
            map (fun v => (sizeof_int, Some v))
                (rev (take (Z.to_nat 2) (contents sample_buffer))), b') /\
    contents b' = [] /\ capacity b' = 2.
Proof.
  split; [concrete_wf |]. split; [cbn; lia |].
  split; [vm_compute; discriminate |]. split; [reflexivity |].
  apply (shrink_then_pops 0 page_allocator 2 sample_buffer);
    [concrete_wf | cbn; lia | vm_compute; discriminate | reflexivity].
Defined.

Lemma lifo_order_with_growth_witness :
  wf full_buffer /\ 1 <> 0 /\ 4096 <= PTRDIFF_MAX /\
  sizeof_int *
    Z.max (2 * (position full_buffer + Z.of_nat (length [3; 4; 5]))) 8 <=
    4096 /\
  exists b',
    Lab4.run 1 (map (fun v => (grants_up_to 4096, push v)) [3; 4; 5] ++
                replicate (length [3; 4; 5]) (grants_up_to 4096, pop))
      full_buffer =
      Done (map (fun _ => (sizeof_int, None)) [3; 4; 5] ++
            map (fun v => (sizeof_int, Some v)) (rev [3; 4; 5]), b') /\
    contents b' = contents full_buffer.
Proof.
  split; [concrete_wf |]. split; [lia |].
  split; [vm_compute; discriminate |]. split; [vm_compute; discriminate |].
  apply (lifo_order_with_growth 1 4096 [3; 4; 5] full_buffer);
    [concrete_wf | lia | vm_compute; discriminate | vm_compute; discriminate].
Defined.

Lemma module_init_result_witness :
  is_int 16 /\
  Lab4.integer_buffer_init 16 true 0 page_allocator =
    Done (0, Some {| elements := Some (replicate (Z.to_nat 16) 0);
                     capacity := 16; position := 0; stats := init_stats |}).
Proof.
  split; [unfold is_int, INT_MIN, INT_MAX; lia |].
  apply (module_init_result 16 true 0 page_allocator).
  unfold is_int, INT_MIN, INT_MAX. lia.
Defined.

Lemma gate_stays_consistent_witness :
  is_int 4 /\ granted_fits page_allocator /\
  Lab5.integer_buffer_init 4 true page_allocator 0 =
    Done (0, Some {| Lab5.usb_key_present := 0; Lab5.device_registered := 0;
                     Lab5.dev_buffer := empty_buffer |}) /\
  exists outs d,
    Hotplug.run 4660 22136 0
      [Hotplug.Plug 4660 22136 0; Hotplug.Call page_allocator (push 1);
       Hotplug.Unplug 4660 22136; Hotplug.Open]
      {| Lab5.usb_key_present := 0; Lab5.device_registered := 0;
         Lab5.dev_buffer := empty_buffer |} = Done (outs, d) /\
    (Lab5.usb_key_present d = 0 \/ Lab5.usb_key_present d = 1) /\
    (Lab5.device_registered d = 0 \/ Lab5.device_registered d = 1) /\
    (Lab5.device_registered d = 1 -> Lab5.usb_key_present d = 1) /\
    wf (Lab5.dev_buffer d) /\
    0 <= position (Lab5.dev_buffer d) <= capacity (Lab5.dev_buffer d).
Proof.
  split; [unfold is_int, INT_MIN, INT_MAX; lia |].
  split; [concrete_allocator |]. split; [reflexivity |].
  apply (gate_stays_consistent 4 true page_allocator 0 0
           {| Lab5.usb_key_present := 0; Lab5.device_registered := 0;
              Lab5.dev_buffer := empty_buffer |} 4660 22136 0
           [Hotplug.Plug 4660 22136 0; Hotplug.Call page_allocator (push 1);
            Hotplug.Unplug 4660 22136; Hotplug.Open]).
  - unfold is_int, INT_MIN, INT_MAX. lia.
  - concrete_allocator.
  - reflexivity.
  - repeat (apply Forall_cons; split;
            [first [exact I | split; [concrete_allocator | concrete_request]]
            |]).
    constructor.
Defined.

Lemma replug_keeps_buffer_witness :
  0 <= 0 /\
  exists d',
    Hotplug.run 4660 22136 0
      (Hotplug.Unplug 4660 22136 ::
       map (fun x => Hotplug.Call (fst x) (snd x))
           [(page_allocator, pop); (page_allocator, push 9)] ++
       [Hotplug.Plug 4660 22136 0]) plugged =
      Done ((0, None) ::
            map (fun _ => (- ENODEV, None))
                [(page_allocator, pop); (page_allocator, push 9)] ++
            [(0, None)], d') /\
    Lab5.dev_buffer d' = Lab5.dev_buffer plugged /\
    Lab5.usb_key_present d' = 1 /\ Lab5.device_registered d' = 1.
Proof.
  split; [lia |].
  apply (replug_keeps_buffer 4660 22136 0 0
           [(page_allocator, pop); (page_allocator, push 9)] plugged).
  lia.
Defined.

Lemma lifo_across_replug_witness :
  Lab5.usb_key_present plugged_empty <> 0 /\ wf (Lab5.dev_buffer plugged_empty) /\
  0 <= 0 /\
  position (Lab5.dev_buffer plugged_empty) + Z.of_nat (length [1; 2; 3]) <=
    capacity (Lab5.dev_buffer plugged_empty) /\
  exists d',
    Hotplug.run 4660 22136 0
      (map (fun v => Hotplug.Call no_memory (push v)) [1; 2; 3] ++
       [Hotplug.Unplug 4660 22136; Hotplug.Plug 4660 22136 0] ++
       replicate (length [1; 2; 3]) (Hotplug.Call no_memory pop)) plugged_empty =
      Done (map (fun _ => (sizeof_int, None)) [1; 2; 3] ++
            [(0, None); (0, None)] ++
            map (fun v => (sizeof_int, Some v)) (rev [1; 2; 3]), d') /\
    contents (Lab5.dev_buffer d') = contents (Lab5.dev_buffer plugged_empty).
Proof.
  split; [cbn; lia |]. split; [concrete_wf |]. split; [lia |].
  split; [cbn; lia |].
  apply (lifo_across_replug 4660 22136 0 no_memory 0 [1; 2; 3] plugged_empty);
    [cbn; lia | concrete_wf | lia | cbn; lia].
Defined.

Lemma foreign_devices_ignored_witness :
  Forall (fun e => match e with
                   | Hotplug.Plug v p _ => v <> 4660 \/ p <> 22136
                   | Hotplug.Unplug v p => v <> 4660 \/ p <> 22136
                   | _ => False
                   end)
    [Hotplug.Plug 1133 22136 0; Hotplug.Unplug 4660 1] /\
  Hotplug.run 4660 22136 0
    [Hotplug.Plug 1133 22136 0; Hotplug.Unplug 4660 1] plugged =
    Done ([(- ENODEV, None); (0, None)], plugged).
Proof.
  assert (Forall (fun e => match e with
                           | Hotplug.Plug v p _ => v <> 4660 \/ p <> 22136
                           | Hotplug.Unplug v p => v <> 4660 \/ p <> 22136
                           | _ => False
                           end)
            [Hotplug.Plug 1133 22136 0; Hotplug.Unplug 4660 1]) as Hes.
  { apply Forall_cons. split; [left; lia |].
    apply Forall_cons. split; [right; lia | constructor]. }
  split; [exact Hes |].
  apply (foreign_devices_ignored 4660 22136 0
           [Hotplug.Plug 1133 22136 0; Hotplug.Unplug 4660 1] plugged Hes).
Defined.

Lemma failed_registration_opens_gate_witness :
  Lab5.device_registered unplugged = 0 /\ -16 < 0 /\
  exists d1,
    Hotplug.step 4660 22136 0 (Hotplug.Plug 4660 22136 (-16)) unplugged =
      Done (-16, None, d1) /\
    Lab5.usb_key_present d1 = 1 /\ Lab5.device_registered d1 = 0 /\
    Lab5.dev_buffer d1 = Lab5.dev_buffer unplugged /\
    Hotplug.step 4660 22136 0 (Hotplug.Call page_allocator pop) d1 =
      perform x <- Lab4.call 0 page_allocator pop (Lab5.dev_buffer unplugged);
      Done (fst x, Lab5.set_dev_buffer d1 (snd x)).
Proof.
  split; [reflexivity |]. split; [lia |].
  apply (failed_registration_opens_gate 4660 22136 0 (-16) page_allocator pop
           unplugged);
    [reflexivity | lia].
Defined.

Lemma unwind_prints_stack_witness :
  wf (Client.dev sample_world) /\
  position (Client.dev sample_world) <= INT_MAX /\
  (length (contents (Client.dev sample_world)) < 4)%nat /\
  exists w',
    Client.empty_entire_stack 4 sample_world =
      Some (Done (EXIT_SUCCESS, w')) /\
    Client.printed w' =
      Client.printed sample_world ++
      map (fun v => Printf "%d\n" [AInt v])
          (rev (contents (Client.dev sample_world))) ++
      (match contents (Client.dev sample_world) with
       | [] => [Printf "Stack is empty\n" []]
       | _ => []
       end) /\
    contents (Client.dev w') = [] /\
    capacity (Client.dev w') = capacity (Client.dev sample_world).
Proof.
  split; [concrete_wf |]. split; [vm_compute; discriminate |].
  split; [vm_compute; lia |].
  apply (unwind_prints_stack 4 sample_world);
    [concrete_wf | vm_compute; discriminate | vm_compute; lia].
Defined.

Lemma pop_prints_top_witness :
  wf (Client.dev sample_world) /\
  exists w',
    Client.retrieve_value_from_stack sample_world = Done (EXIT_SUCCESS, w') /\
    Client.errno w' = Client.errno sample_world /\
    Client.printed w' =
      Client.printed sample_world ++ [Printf "%d\n" [AInt 30]] /\
    contents (Client.dev w') = removelast (contents (Client.dev sample_world)).
Proof.
  split; [concrete_wf |].
  apply (pop_prints_top sample_world). concrete_wf.
Defined.

Lemma set_size_behaviour_witness :
  wf (Client.dev sample_world) /\ at_end (sample_strtol "2") = true /\
  0 < parsed (sample_strtol "2") <= INT_MAX /\
  page_allocator (sizeof_int * parsed (sample_strtol "2")) = true /\
  exists w',
    Client.configure_stack_size sample_strtol page_allocator "2" sample_world =
      Done (EXIT_SUCCESS, w') /\
    capacity (Client.dev w') = parsed (sample_strtol "2") /\
    contents (Client.dev w') =
      take (Z.to_nat (parsed (sample_strtol "2")))
           (contents (Client.dev sample_world)) /\
    Client.printed w' = Client.printed sample_world.
Proof.
  split; [concrete_wf |]. split; [reflexivity |].
  split; [vm_compute; split; [reflexivity | discriminate] |]. split; [reflexivity |].
  apply (proj1 (proj2 (set_size_behaviour sample_strtol page_allocator "2"
                         sample_world ltac:(concrete_wf))));
    [reflexivity | vm_compute; split; [reflexivity | discriminate] | reflexivity].
Defined.

Lemma set_size_wraps_to_release_witness :
  at_end (sample_strtol "4294967296") = true /\
  0 < parsed (sample_strtol "4294967296") /\
  to_int (parsed (sample_strtol "4294967296")) = 0 /\
  exists w',
    Client.configure_stack_size sample_strtol page_allocator "4294967296"
      sample_world = Done (EXIT_SUCCESS, w') /\
    elements (Client.dev w') = None /\ capacity (Client.dev w') = 0 /\
    position (Client.dev w') = 0 /\ contents (Client.dev w') = [] /\
    Client.printed w' = Client.printed sample_world.
Proof.
  split; [reflexivity |]. split; [reflexivity |]. split; [reflexivity |].
  apply (set_size_wraps_to_release sample_strtol page_allocator "4294967296"
           sample_world);
    reflexivity.
Defined.

Lemma set_size_never_busy_witness :
  wf (Client.dev sample_world) /\
  exists st w',
    Client.configure_stack_size sample_strtol no_memory "7" sample_world =
      Done (st, w') /\
    (st = EXIT_SUCCESS \/ st = EXIT_CONFIG_ERROR \/ st = EXIT_FORMAT_ERROR) /\
    (Client.printed w' = Client.printed sample_world \/
     exists line,
       Client.printed w' = Client.printed sample_world ++ [line] /\
       line <> Eprintf "Error: Stack size has already been configured\n" []).
Proof.
  split; [concrete_wf |].
  apply (set_size_never_busy sample_strtol no_memory "7" sample_world).
  concrete_wf.
Defined.

Lemma push_client_behaviour_witness :
  wf (Client.dev full_world) /\ at_end (sample_strtol "7") = true /\
  position (Client.dev full_world) = capacity (Client.dev full_world) /\
  exists w',
    Client.add_value_to_stack sample_strtol 0 no_memory "7" full_world =
      Done (EXIT_IO_ERROR, w') /\
    same_store (Client.dev full_world) (Client.dev w') /\
    Client.errno w' = ENOSPC /\
    Client.printed w' =
      Client.printed full_world ++ [Eprintf "Error: Stack is full\n" []].
Proof.
  split; [concrete_wf |]. split; [reflexivity |]. split; [reflexivity |].
  apply (proj2 (proj2 (push_client_behaviour sample_strtol 0 no_memory "7"
                         full_world ltac:(concrete_wf))));
    reflexivity.
Defined.

Lemma main_push_then_pop_witness :
  wf (Client.dev sample_world) /\
  position (Client.dev sample_world) < capacity (Client.dev sample_world) /\
  sample_strtol "7" =
    {| parsed := 7; at_end := true; out_of_range := false |} /\
  is_int 7 /\
  exists w1 w2,
    Client.main sample_strtol 0 None 0 no_memory 0
      ["kernel_stack"%string; "push"%string; "7"%string] sample_world =
      Some (Done (EXIT_SUCCESS, w1)) /\
    Client.main sample_strtol 0 None 0 no_memory 0
      ["kernel_stack"%string; "pop"%string] w1 =
      Some (Done (EXIT_SUCCESS, w2)) /\
    Client.printed w2 =
      Client.printed sample_world ++ [Printf "%d\n" [AInt 7]] /\
    contents (Client.dev w2) = contents (Client.dev sample_world).
Proof.
  split; [concrete_wf |]. split; [cbn; lia |]. split; [reflexivity |].
  split; [unfold is_int, INT_MIN, INT_MAX; lia |].
  apply (main_push_then_pop sample_strtol 0 no_memory 0 0 "kernel_stack" "7" 7
           sample_world);
    [concrete_wf | cbn; lia | reflexivity
     | unfold is_int, INT_MIN, INT_MAX; lia].
Defined.

Lemma main_refusals_witness :
  Some 2 = Some 2 /\
  exists w',
    Client.main sample_strtol 0 (Some 2) 0 no_memory 0
      ["kernel_stack"%string; "pop"%string] sample_world =
      Some (Done (EXIT_IO_ERROR, w')) /\
    Client.dev w' = Client.dev sample_world /\ Client.errno w' = 2.
Proof.
  split; [reflexivity |].
  apply (proj1 (proj2 (main_refusals sample_strtol 0 (Some 2) 0 no_memory 0
                         sample_world)) "kernel_stack"%string "pop"%string
               [] 2).
  reflexivity.
Defined.

Lemma usb_client_absent_witness :
  Lab5.usb_key_present (UsbClient.dev unplugged_world) = 0 /\
  exists w',
    UsbClient.retrieve_value_from_stack unplugged_world =
      Done (EXIT_USB_ERROR, w') /\
    UsbClient.dev w' = UsbClient.dev unplugged_world /\
    UsbClient.printed w' =
      UsbClient.printed unplugged_world ++
      [Eprintf "Error: USB key not inserted\n" []].
Proof.
  split; [reflexivity |].
  apply (proj1 (usb_client_absent sample_strtol 0 0 no_memory unplugged_world
                  ltac:(reflexivity))).
Defined.

Lemma usb_client_present_like_plain_witness :
  Lab5.usb_key_present (UsbClient.dev plugged_world) <> 0 /\
  UsbClient.retrieve_value_from_stack plugged_world =
    gated_result plugged_world
      (Client.retrieve_value_from_stack (plain_world plugged_world)).
Proof.
  split; [cbn; lia |].
  apply (proj1 (usb_client_present_like_plain sample_strtol 0 no_memory
                  plugged_world ltac:(cbn; lia))).
Defined.

